(** * Per-frame generation pipeline of Pixelle-Video

    A shallow embedding of [pixelle_video/services/frame_processor.py]
    (class [FrameProcessor]) and the properties its specification states.

    The processor mutates one [StoryboardFrame] in place and talks to
    external capabilities (TTS, media generation, HTTP download, the HTML
    frame composer, the video service, the file system).  The embedding
    threads a [World] (the frame object, the set of files the pipeline
    created, and the chronological trace of external calls) through a small
    state-and-exception monad.  A raised exception keeps the world: what
    was written to the frame or to disk before the [raise] stays written,
    as it does in Python.

    Python floats are idealised as rationals ([Q]): every float that occurs
    is either a literal, a value handed over unchanged, or the quotient
    [file_size / 2000]. *)

From Stdlib Require Import String Ascii List Bool ZArith QArith Lia Sorted RelationClasses.
From Stdlib Require Import DecimalString.
Import ListNotations.
Local Open Scope string_scope.
Local Open Scope Z_scope.

(** ** Python values *)

(** Truthiness of an [Optional[str]]: [None] and the empty string are falsy. *)
Definition truthy_str (o : option string) : bool :=
  match o with
  | Some EmptyString => false
  | Some _ => true
  | None => false
  end.

(** Truthiness of an [Optional[float]]: [None] and [0.0] are falsy. *)
Definition truthy_num (o : option Q) : bool :=
  match o with
  | Some q => negb (Qeq_bool q 0)
  | None => false
  end.

(** [x is not None] *)
Definition is_not_none {A : Type} (o : option A) : bool :=
  match o with Some _ => true | None => false end.

(** [o == s] for an optional string [o] and a string literal [s]. *)
Definition opt_eqb (o : option string) (s : string) : bool :=
  match o with Some t => String.eqb t s | None => false end.

(** [x or d] on an optional string. *)
Definition str_or (o : option string) (d : string) : string :=
  match o with
  | Some EmptyString => d
  | Some s => s
  | None => d
  end.

(** [str(x)] inside an f-string, for an optional string. *)
Definition fmt_opt (o : option string) : string :=
  match o with Some s => s | None => "None" end.

(** [str(n)] for an integer. *)
Definition fmt_int (n : Z) : string := NilZero.string_of_int (Z.to_int n).

(** [str.lower], on the ASCII letters.  Strings are byte strings here; the
    bytes of a non-ASCII character are left alone, and none of them can take
    part in a match of the ASCII patterns the code searches for. *)
Definition lower_ascii (c : ascii) : ascii :=
  let n := nat_of_ascii c in
  if (Nat.leb 65 n && Nat.leb n 90)%bool then ascii_of_nat (n + 32) else c.

Fixpoint lower (s : string) : string :=
  match s with
  | EmptyString => EmptyString
  | String c t => String (lower_ascii c) (lower t)
  end.

(** [pat in s] *)
Fixpoint contains (pat s : string) : bool :=
  (String.prefix pat s ||
   match s with
   | EmptyString => false
   | String _ t => contains pat t
   end)%bool.

(** [max(a, b)] of Python: the first argument unless the second is larger. *)
Definition py_max (a b : Q) : Q := if Qle_bool b a then a else b.

(** A dict with string keys, in insertion order. *)
Inductive pyval : Type :=
| VInt (n : Z)
| VStr (s : string).

Definition dict := list (string * pyval).

Fixpoint dict_set (k : string) (v : pyval) (d : dict) : dict :=
  match d with
  | [] => [(k, v)]
  | (k', v') :: r => if String.eqb k k' then (k, v) :: r else (k', v') :: dict_set k v r
  end.

(** [d.update(other)] *)
Definition dict_update (d other : dict) : dict :=
  fold_left (fun acc kv => dict_set (fst kv) (snd kv) acc) other d.

(** ** Data model *)

Record StoryboardFrame : Type := mkFrame {
  index : Z;
  narration : string;
  image_prompt : option string;
  audio_path : option string;
  duration : option Q;
  image_path : option string;
  video_path : option string;
  media_type : option string;
  composed_image_path : option string;
  video_segment_path : option string
}.

Record Storyboard : Type := mkStoryboard {
  title : string;
  content_metadata : option string
}.

Record StoryboardConfig : Type := mkConfig {
  task_id : string;
  tts_inference_mode : option string;
  voice_id : option string;
  tts_speed : option Q;
  tts_workflow : option string;
  ref_audio : option string;
  media_workflow : option string;
  media_width : Z;
  media_height : Z;
  frame_template : option string;
  template_params : option dict;
  video_fps : Z;
  source_image_url : option string
}.

Record ProgressEvent : Type := mkProgress {
  event_type : string;
  progress : Q;
  frame_current : Z;
  frame_total : Z;
  step : Z;
  action : string
}.

(** Modelled from the spec: the class [MediaResult] of the generation
    capability is not part of the sources at hand.  The spec gives its shape
    as [{mediaKind, url, duration?}]; [is_image] and [is_video] test the
    kind against the two recognised kinds. *)
Record MediaResult : Type := mkMediaResult {
  mr_media_type : string;
  mr_url : string;
  mr_duration : option Q
}.

Definition is_image (r : MediaResult) : bool := String.eqb (mr_media_type r) "image".
Definition is_video (r : MediaResult) : bool := String.eqb (mr_media_type r) "video".

(** Keyword arguments of [core.tts]. *)
Record TtsParams : Type := mkTtsParams {
  tp_text : string;
  tp_inference_mode : option string;
  tp_output_path : string;
  tp_index : Z;
  tp_voice : option string;
  tp_speed : option Q;
  tp_workflow : option string;
  tp_ref_audio : option string
}.

(** Keyword arguments of [core.media].  [mp_duration] and
    [mp_image_url] are [None] when the key is not in the dict. *)
Record MediaParams : Type := mkMediaParams {
  mp_prompt : option string;
  mp_workflow : option string;
  mp_media_type : string;
  mp_width : Z;
  mp_height : Z;
  mp_index : Z;
  mp_duration : option Q;
  mp_image_url : option string
}.

(** ** Exceptions and results *)

Inductive exn : Type :=
| ValueError (msg : string)
| OSError (msg : string)
| ExternalError (msg : string).

Inductive result (A : Type) : Type :=
| Ok (a : A)
| Raise (e : exn).
Arguments Ok {A} a.
Arguments Raise {A} e.

Definition is_ok {A : Type} (r : result A) : bool :=
  match r with Ok _ => true | Raise _ => false end.

(** ** External capabilities

    Everything the processor calls but does not implement.  A capability is
    an oracle from its arguments to its outcome: it returns a value or it
    raises. *)
Record Services : Type := mkServices {
  (* pixelle_video.utils.os_util.get_task_frame_path(task_id, index, kind) *)
  get_task_frame_path : string -> Z -> string -> string;
  (* core.tts, called with keyword arguments; returns the audio path *)
  tts : TtsParams -> result string;
  (* core.media, called with keyword arguments *)
  media : MediaParams -> result MediaResult;
  (* GET url, raise_for_status, write the body to the output path *)
  http_download : string -> string -> result unit;
  (* float(ffmpeg.probe(path)['format']['duration']); None: it raised *)
  ffprobe_duration : string -> option Q;
  (* os.path.getsize(path) *)
  getsize : string -> result Z;
  (* pixelle_video.utils.template_util.resolve_template_path *)
  resolve_template_path : string -> result string;
  (* HTMLFrameGenerator(template).generate_frame(title, text, image, ext, output_path) *)
  generate_frame : string -> string -> string -> option string -> dict -> string -> result string;
  (* VideoService.overlay_image_on_video(video, overlay_image, output, scale_mode) *)
  overlay_image_on_video : option string -> option string -> string -> string -> result unit;
  (* VideoService.merge_audio_video(video, audio, output, replace_audio, audio_volume) *)
  merge_audio_video : string -> option string -> string -> bool -> Q -> result string;
  (* shutil.copy2(src, dst) *)
  copy2 : string -> string -> result unit;
  (* VideoService.create_video_from_image(image, audio, output, fps, duration) *)
  create_video_from_image : option string -> option string -> string -> Z -> option Q -> result string
}.

(** The external calls, as they are recorded in the trace. *)
Inductive Event : Type :=
| EvProgress (e : ProgressEvent)
| EvTts (p : TtsParams)
| EvMedia (p : MediaParams)
| EvDownload (url output : string)
| EvCompose (template ttl text : string) (image : option string) (ext : dict) (output : string)
| EvOverlay (video overlay : option string) (output scale_mode : string)
| EvMerge (video : string) (audio : option string) (output : string) (replace_audio : bool) (volume : Q)
| EvCopy (src dst : string)
| EvCreateVideo (image audio : option string) (output : string) (fps : Z) (dur : option Q)
| EvUnlink (path : string).

(** ** The world and the monad *)

Record World : Type := mkWorld {
  frame : StoryboardFrame;
  files : list string;
  trace : list Event
}.

Definition M (A : Type) : Type := World -> result A * World.

Definition ret {A : Type} (a : A) : M A := fun w => (Ok a, w).

Definition bind {A B : Type} (m : M A) (k : A -> M B) : M B :=
  fun w =>
    match m w with
    | (Ok a, w') => k a w'
    | (Raise e, w') => (Raise e, w')
    end.

Definition raise {A : Type} (e : exn) : M A := fun w => (Raise e, w).

Declare Scope monad_scope.
Delimit Scope monad_scope with monad.
Notation "x <- m ;; k" := (bind m (fun x => k))
  (at level 61, m at next level, right associativity) : monad_scope.
Notation "m ;; k" := (bind m (fun _ => k))
  (at level 61, right associativity) : monad_scope.
Local Open Scope monad_scope.

Definition get_frame : M StoryboardFrame := fun w => (Ok (frame w), w).

Definition update_frame (g : StoryboardFrame -> StoryboardFrame) : M unit :=
  fun w => (Ok tt, mkWorld (g (frame w)) (files w) (trace w)).

Definition emit (ev : Event) : M unit :=
  fun w => (Ok tt, mkWorld (frame w) (files w) (trace w ++ [ev])).

Definition lift {A : Type} (r : result A) : M A := fun w => (r, w).

(** [os.path.exists], and the two ways the pipeline changes the disk.  A
    capability that returns has written its output file; one that raises has
    written nothing. *)
Definition file_exists (p : string) (fs : list string) : bool :=
  existsb (String.eqb p) fs.

Definition file_remove (p : string) (fs : list string) : list string :=
  filter (fun q => negb (String.eqb p q)) fs.

Definition exists_on_disk (p : string) : M bool :=
  fun w => (Ok (file_exists p (files w)), w).

Definition create_file (p : string) : M unit :=
  fun w => (Ok tt, mkWorld (frame w) (p :: files w) (trace w)).

Definition unlink (p : string) : M unit :=
  fun w => (Ok tt, mkWorld (frame w) (file_remove p (files w)) (trace w ++ [EvUnlink p])).

(** Field assignments [frame.x = v]. *)
Definition set_audio_path v f := mkFrame (index f) (narration f) (image_prompt f) v (duration f)
  (image_path f) (video_path f) (media_type f) (composed_image_path f) (video_segment_path f).
Definition set_duration v f := mkFrame (index f) (narration f) (image_prompt f) (audio_path f) v
  (image_path f) (video_path f) (media_type f) (composed_image_path f) (video_segment_path f).
Definition set_image_path v f := mkFrame (index f) (narration f) (image_prompt f) (audio_path f)
  (duration f) v (video_path f) (media_type f) (composed_image_path f) (video_segment_path f).
Definition set_video_path v f := mkFrame (index f) (narration f) (image_prompt f) (audio_path f)
  (duration f) (image_path f) v (media_type f) (composed_image_path f) (video_segment_path f).
Definition set_media_type v f := mkFrame (index f) (narration f) (image_prompt f) (audio_path f)
  (duration f) (image_path f) (video_path f) v (composed_image_path f) (video_segment_path f).
Definition set_composed_image_path v f := mkFrame (index f) (narration f) (image_prompt f)
  (audio_path f) (duration f) (image_path f) (video_path f) (media_type f) v (video_segment_path f).
Definition set_video_segment_path v f := mkFrame (index f) (narration f) (image_prompt f)
  (audio_path f) (duration f) (image_path f) (video_path f) (media_type f)
  (composed_image_path f) v.

(** ** The processor *)

Section Processor.

Variable svc : Services.

(** [progress_callback], when one is supplied.  A callback is arbitrary
    caller code: it returns, or it raises. *)
Definition Callback : Type := ProgressEvent -> option exn.

(** [if progress_callback: progress_callback(ProgressEvent(...))] *)
Definition report (cb : option Callback) (ev : ProgressEvent) : M unit :=
  match cb with
  | None => ret tt
  | Some k =>
      emit (EvProgress ev) ;;
      match k ev with
      | None => ret tt
      | Some e => raise e
      end
  end.

(** [_get_audio_duration] *)
Definition _get_audio_duration (path : string) : M Q :=
  match ffprobe_duration svc path with
  | Some d => ret d
  | None =>
      file_size <- lift (getsize svc path) ;;
      let estimated_duration := ((file_size # 1) / (2000 # 1))%Q in
      ret (py_max 1 estimated_duration)
  end.

(** [_get_video_duration] *)
Definition _get_video_duration (path : string) : M Q :=
  match ffprobe_duration svc path with
  | Some d => ret d
  | None => ret 1%Q
  end.

(** What [_get_video_duration] returns for a path. *)
Definition probed_video_duration (path : string) : Q :=
  match ffprobe_duration svc path with Some d => d | None => 1%Q end.

(** [_download_media] *)
Definition _download_media (url : string) (frame_index : Z) (task : string)
    (kind : string) : M string :=
  let output_path := get_task_frame_path svc task frame_index kind in
  emit (EvDownload url output_path) ;;
  lift (http_download svc url output_path) ;;
  create_file output_path ;;
  ret output_path.

(** The [tts_params] dict of [_step_generate_audio]. *)
Definition build_tts_params (f : StoryboardFrame) (config : StoryboardConfig)
    (output_path : string) : TtsParams :=
  let voice := if truthy_str (voice_id config) then voice_id config else None in
  let speed := tts_speed config in
  if opt_eqb (tts_inference_mode config) "local" then
    mkTtsParams (narration f) (tts_inference_mode config) output_path (index f + 1)
      voice speed None None
  else
    mkTtsParams (narration f) (tts_inference_mode config) output_path (index f + 1)
      voice speed
      (if truthy_str (tts_workflow config) then tts_workflow config else None)
      (if truthy_str (ref_audio config) then ref_audio config else None).

(** Step 1: [_step_generate_audio] *)
Definition _step_generate_audio (config : StoryboardConfig) : M unit :=
  f <- get_frame ;;
  let output_path := get_task_frame_path svc (task_id config) (index f) "audio" in
  let tts_params := build_tts_params f config output_path in
  emit (EvTts tts_params) ;;
  audio <- lift (tts svc tts_params) ;;
  create_file audio ;;
  update_frame (set_audio_path (Some audio)) ;;
  d <- _get_audio_duration audio ;;
  update_frame (set_duration (Some d)).

(** The workflow tests of [_step_generate_media]. *)
Definition workflow_name (config : StoryboardConfig) : string :=
  str_or (media_workflow config) EmptyString.

Definition is_video_workflow (config : StoryboardConfig) : bool :=
  (contains "video_" (lower (workflow_name config))
   || contains "i2v_" (lower (workflow_name config)))%bool.

Definition is_i2v_workflow (config : StoryboardConfig) : bool :=
  contains "i2v_" (lower (workflow_name config)).

(** The message of the [ValueError] raised for an I2V workflow without a
    source image. *)
Definition i2v_error_msg (config : StoryboardConfig) (f : StoryboardFrame) : string :=
  "I2V workflow '" ++ workflow_name config
  ++ "' requires 'image_url' parameter for frame " ++ fmt_int (index f)
  ++ ", but source_image_url is not provided in config. Please provide an image URL in the UI.".

(** The [media_params] dict of [_step_generate_media]: the duration key is
    set for a video workflow when [frame.duration] is truthy, the image URL
    key for an I2V workflow (the step raises before the call when the URL
    is missing). *)
Definition build_media_params (f : StoryboardFrame) (config : StoryboardConfig) : MediaParams :=
  mkMediaParams (image_prompt f) (media_workflow config)
    (if is_video_workflow config then "video" else "image")
    (media_width config) (media_height config) (index f + 1)
    (if (is_video_workflow config && truthy_num (duration f))%bool then duration f else None)
    (if is_i2v_workflow config then source_image_url config else None).

(** The I2V precondition of [_step_generate_media] fails: an I2V workflow
    with a falsy [source_image_url]. *)
Definition i2v_source_missing (config : StoryboardConfig) : bool :=
  (is_i2v_workflow config && negb (truthy_str (source_image_url config)))%bool.

(** Step 2: [_step_generate_media] *)
Definition _step_generate_media (config : StoryboardConfig) : M unit :=
  f <- get_frame ;;
  let media_params := build_media_params f config in
  (if i2v_source_missing config
   then raise (ValueError (i2v_error_msg config f))
   else ret tt) ;;
  emit (EvMedia media_params) ;;
  media_result <- lift (media svc media_params) ;;
  update_frame (set_media_type (Some (mr_media_type media_result))) ;;
  if is_image media_result then
    local_path <- _download_media (mr_url media_result) (index f) (task_id config) "image" ;;
    update_frame (set_image_path (Some local_path))
  else if is_video media_result then
    local_path <- _download_media (mr_url media_result) (index f) (task_id config) "video" ;;
    update_frame (set_video_path (Some local_path)) ;;
    if truthy_num (mr_duration media_result) then
      update_frame (set_duration (mr_duration media_result))
    else
      d <- _get_video_duration local_path ;;
      update_frame (set_duration (Some d))
  else
    raise (ValueError ("Unknown media type: " ++ mr_media_type media_result)).

(** [_compose_frame_html] *)
Definition _compose_frame_html (storyboard : Storyboard) (config : StoryboardConfig)
    (template output_path : string) : M string :=
  f <- get_frame ;;
  template_path <- lift (resolve_template_path svc template) ;;
  let ext0 : dict := [("index", VInt (index f + 1))] in
  let ext :=
    match template_params config with
    | Some (kv :: more) => dict_update ext0 (kv :: more)
    | _ => ext0
    end in
  let media_path := if opt_eqb (media_type f) "video" then video_path f else image_path f in
  emit (EvCompose template_path (title storyboard) (narration f) media_path ext output_path) ;;
  composed_path <- lift (generate_frame svc template_path (title storyboard) (narration f)
                           media_path ext output_path) ;;
  create_file composed_path ;;
  ret composed_path.

(** Step 3: [_step_compose_frame] *)
Definition _step_compose_frame (storyboard : Storyboard) (config : StoryboardConfig) : M unit :=
  f <- get_frame ;;
  match frame_template config with
  | None =>
      if (opt_eqb (media_type f) "video" && truthy_str (video_path f))%bool then
        update_frame (set_composed_image_path None)
      else if (opt_eqb (media_type f) "image" && truthy_str (image_path f))%bool then
        update_frame (set_composed_image_path (image_path f))
      else
        update_frame (set_composed_image_path None)
  | Some template =>
      let output_path := get_task_frame_path svc (task_id config) (index f) "composed" in
      composed_path <- _compose_frame_html storyboard config template output_path ;;
      update_frame (set_composed_image_path (Some composed_path))
  end.

(** The path of the overlay-composited intermediate video. *)
Definition temp_video_with_overlay (config : StoryboardConfig) (f : StoryboardFrame) : string :=
  get_task_frame_path svc (task_id config) (index f) "video" ++ "_overlay.mp4".

(** Step 4: [_step_create_video_segment] *)
Definition _step_create_video_segment (config : StoryboardConfig) : M unit :=
  f <- get_frame ;;
  let output_path := get_task_frame_path svc (task_id config) (index f) "segment" in
  segment_path <-
    (if opt_eqb (media_type f) "video" then
       let has_template := is_not_none (composed_image_path f) in
       video_to_use <-
         (if has_template then
            let temp := temp_video_with_overlay config f in
            emit (EvOverlay (video_path f) (composed_image_path f) temp "contain") ;;
            lift (overlay_image_on_video svc (video_path f) (composed_image_path f)
                    temp "contain") ;;
            create_file temp ;;
            ret temp
          else
            match video_path f with
            | Some (String c v) => ret (String c v)
            | _ => raise (ValueError ("No video available for frame " ++ fmt_int (index f)
                                        ++ " (video_path=" ++ fmt_opt (video_path f) ++ ")"))
            end) ;;
       segment_path <-
         (if truthy_str (audio_path f) then
            emit (EvMerge video_to_use (audio_path f) output_path true 1) ;;
            p <- lift (merge_audio_video svc video_to_use (audio_path f) output_path true 1) ;;
            create_file p ;;
            ret p
          else
            emit (EvCopy video_to_use output_path) ;;
            lift (copy2 svc video_to_use output_path) ;;
            create_file output_path ;;
            ret output_path) ;;
       (if has_template then
          let temp := temp_video_with_overlay config f in
          present <- exists_on_disk temp ;;
          if present then unlink temp else ret tt
        else ret tt) ;;
       ret segment_path
     else if (opt_eqb (media_type f) "image" || negb (is_not_none (media_type f)))%bool then
       let image_to_use :=
         if truthy_str (composed_image_path f) then composed_image_path f else image_path f in
       if negb (truthy_str image_to_use) then
         raise (ValueError ("No image available for frame " ++ fmt_int (index f)
                              ++ " (image_path=" ++ fmt_opt (image_path f)
                              ++ ", composed_image_path=" ++ fmt_opt (composed_image_path f)
                              ++ ")"))
       else if truthy_str (audio_path f) then
         emit (EvCreateVideo image_to_use (audio_path f) output_path (video_fps config) None) ;;
         p <- lift (create_video_from_image svc image_to_use (audio_path f) output_path
                      (video_fps config) None) ;;
         create_file p ;;
         ret p
       else
         let default_duration := if truthy_num (duration f) then duration f else Some 5%Q in
         emit (EvCreateVideo image_to_use None output_path (video_fps config) default_duration) ;;
         p <- lift (create_video_from_image svc image_to_use None output_path
                      (video_fps config) default_duration) ;;
         create_file p ;;
         ret p
     else
       raise (ValueError ("Unknown media type: " ++ fmt_opt (media_type f)))) ;;
  update_frame (set_video_segment_path (Some segment_path)).

(** The four numbered blocks of [__call__].  [frame_num], [needs_generation]
    and [has_existing_media] are computed once, on entry. *)
Definition frame_step_event (p : Q) (frame_num total_frames : Z)
    (n : Z) (act : string) : ProgressEvent :=
  mkProgress "frame_step" p frame_num total_frames n act.

Definition call_step1 (config : StoryboardConfig) (total_frames : Z)
    (cb : option Callback) (frame_num : Z) : M unit :=
  f <- get_frame ;;
  if (negb (truthy_str (audio_path f)) && truthy_str (tts_inference_mode config))%bool then
    report cb (frame_step_event 0 frame_num total_frames 1 "audio") ;;
    _step_generate_audio config
  else ret tt.

Definition call_step2 (config : StoryboardConfig) (total_frames : Z)
    (cb : option Callback) (frame_num : Z)
    (needs_generation has_existing_media : bool) : M unit :=
  if needs_generation then
    report cb (frame_step_event (1 # 4) frame_num total_frames 2 "media") ;;
    _step_generate_media config
  else if has_existing_media then ret tt
  else
    update_frame (set_image_path None) ;;
    update_frame (set_media_type None).

Definition call_step3 (storyboard : Storyboard) (config : StoryboardConfig)
    (total_frames : Z) (cb : option Callback) (frame_num : Z)
    (needs_generation has_existing_media : bool) : M unit :=
  report cb (frame_step_event
               (if (needs_generation || has_existing_media)%bool then 1 # 2 else 33 # 100)
               frame_num total_frames 3 "compose") ;;
  _step_compose_frame storyboard config.

Definition call_step4 (config : StoryboardConfig) (total_frames : Z)
    (cb : option Callback) (frame_num : Z)
    (needs_generation has_existing_media : bool) : M unit :=
  report cb (frame_step_event
               (if (needs_generation || has_existing_media)%bool then 3 # 4 else 67 # 100)
               frame_num total_frames 4 "video") ;;
  _step_create_video_segment config.

(** [FrameProcessor.__call__]: the [try] only logs and re-raises. *)
Definition process (storyboard : Storyboard) (config : StoryboardConfig)
    (total_frames : Z) (cb : option Callback) : M StoryboardFrame :=
  f <- get_frame ;;
  let frame_num := index f + 1 in
  let has_existing_media := (is_not_none (image_path f) || is_not_none (video_path f))%bool in
  let needs_generation := is_not_none (image_prompt f) in
  call_step1 config total_frames cb frame_num ;;
  call_step2 config total_frames cb frame_num needs_generation has_existing_media ;;
  call_step3 storyboard config total_frames cb frame_num needs_generation has_existing_media ;;
  call_step4 config total_frames cb frame_num needs_generation has_existing_media ;;
  get_frame.

(** One call of the processor on [f], from a disk holding [fs]. *)
Definition run_process (f : StoryboardFrame) (fs : list string) (storyboard : Storyboard)
    (config : StoryboardConfig) (total_frames : Z) (cb : option Callback)
    : result StoryboardFrame * World :=
  process storyboard config total_frames cb (mkWorld f fs []).

End Processor.

Arguments run_process svc f fs storyboard config total_frames cb : simpl never.

(** ** Reading the trace *)

(** The keyword arguments of the calls to the generation capability. *)
Definition media_calls (tr : list Event) : list MediaParams :=
  flat_map (fun ev => match ev with EvMedia p => [p] | _ => [] end) tr.


Definition is_media_call (ev : Event) : bool :=
  match ev with EvMedia _ => true | _ => false end.


Definition is_compose_call (ev : Event) : bool :=
  match ev with EvCompose _ _ _ _ _ _ => true | _ => false end.

Definition not_media_call (ev : Event) : Prop := is_media_call ev = false.

(** [img] is the image at [p], or an image the frame composer rendered with
    the image at [p] as its visual base. *)
Definition visual_from (svc : Services) (p : string) (img : option string) : Prop :=
  img = Some p \/
  exists template ttl text ext output c,
    generate_frame svc template ttl text (Some p) ext output = Ok c /\ img = Some c.

(** An event of a run that works from the image at [p] and from nothing
    else: the composer is given [p] as visual base, the renderer [p] or its
    composition; there is no generation, no download and no video
    operation. *)
Definition uses_image (svc : Services) (p : string) (ev : Event) : Prop :=
  match ev with
  | EvProgress _ => True
  | EvTts _ => True
  | EvCompose _ _ _ img _ _ => img = Some p
  | EvCreateVideo img _ _ _ _ => visual_from svc p img
  | _ => False
  end.

(** The frame [f] with [q] as its image prompt, and a world whose frame is
    given that prompt. *)
Definition with_image_prompt (q : option string) (f : StoryboardFrame) : StoryboardFrame :=
  mkFrame (index f) (narration f) q (audio_path f) (duration f) (image_path f)
    (video_path f) (media_type f) (composed_image_path f) (video_segment_path f).

Definition carry_prompt (q : option string) (w : World) : World :=
  mkWorld (with_image_prompt q (frame w)) (files w) (trace w).

(** [m] does not read [image_prompt]: on a frame with another prompt it
    returns or raises the same, and leaves the same world but for the
    prompt. *)
Definition prompt_blind {A : Type} (m : M A) : Prop :=
  forall q w, m (carry_prompt q w) = (fst (m w), carry_prompt q (snd (m w))).


(** The callback, if there is one, returns on every event. *)
Definition callback_returns (cb : option (ProgressEvent -> option exn)) : Prop :=
  match cb with
  | Some k => forall ev, k ev = None
  | None => True
  end.

(** ** Relations between the world before and after a computation *)

(** The trace grew by events that all satisfy [P]. *)
Definition adds_only (P : Event -> Prop) (w w' : World) : Prop :=
  exists evs, trace w' = (trace w ++ evs)%list /\ Forall P evs.

(** The frame attribute [proj] was not assigned a different value. *)
Definition keeps {B : Type} (proj : StoryboardFrame -> B) (w w' : World) : Prop :=
  proj (frame w') = proj (frame w).

(** [m] relates every world to the world it leaves, whether it returns or
    raises. *)
Definition stable {A : Type} (R : World -> World -> Prop) (m : M A) : Prop :=
  forall w, R w (snd (m w)).

(** ** More ways to read the trace *)

(** The keyword arguments of the calls to the TTS capability. *)
Definition tts_calls (tr : list Event) : list TtsParams :=
  flat_map (fun ev => match ev with EvTts p => [p] | _ => [] end) tr.

(** The step of [__call__] an event belongs to: a progress event says it
    itself, a call belongs to the step that makes it. *)
Definition phase (ev : Event) : Z :=
  match ev with
  | EvProgress e => step e
  | EvTts _ => 1
  | EvMedia _ => 2
  | EvDownload _ _ => 2
  | EvCompose _ _ _ _ _ _ => 3
  | EvOverlay _ _ _ _ => 4
  | EvMerge _ _ _ _ _ => 4
  | EvCopy _ _ => 4
  | EvCreateVideo _ _ _ _ _ => 4
  | EvUnlink _ => 4
  end.

Definition in_phase (n : Z) (ev : Event) : Prop := phase ev = n.

Definition not_tts_call (ev : Event) : Prop :=
  match ev with EvTts _ => False | _ => True end.

(** What the callback, when there is one, adds to the trace on an event. *)
Definition reported (cb : option (ProgressEvent -> option exn)) (ev : ProgressEvent)
    : list Event :=
  match cb with Some _ => [EvProgress ev] | None => [] end.

(** The callback, if there is one, returns on the event [ev]. *)
Definition returns_on (cb : option (ProgressEvent -> option exn)) (ev : ProgressEvent) : Prop :=
  match cb with Some k => k ev = None | None => True end.

(** [d.get(k)] *)
Fixpoint dict_get (k : string) (d : dict) : option pyval :=
  match d with
  | [] => None
  | (k', v) :: r => if String.eqb k k' then Some v else dict_get k r
  end.

(** The assembly call [ev] returned, and [p] is the segment it made: the
    path the video service returned, or the destination of the copy. *)
Definition segment_made_by (svc : Services) (p : string) (ev : Event) : Prop :=
  match ev with
  | EvMerge v a o r vol => merge_audio_video svc v a o r vol = Ok p
  | EvCopy s d => copy2 svc s d = Ok tt /\ d = p
  | EvCreateVideo i a o fps d => create_video_from_image svc i a o fps d = Ok p
  | _ => False
  end.

(** A call of step 4: to the video service, the file copy or the removal of
    the overlay intermediate. *)
Definition is_assembly_call (ev : Event) : bool :=
  match ev with
  | EvOverlay _ _ _ _ | EvMerge _ _ _ _ _ | EvCopy _ _
  | EvCreateVideo _ _ _ _ _ | EvUnlink _ => true
  | _ => false
  end.

Definition not_assembly_call (ev : Event) : Prop := is_assembly_call ev = false.

(** The template parameters of the configuration as a dict, [{}] when there
    are none. *)
Definition params_of (config : StoryboardConfig) : dict :=
  match template_params config with Some d => d | None => [] end.

(** The binding of [k] in a list of bindings that is read as a dict: the
    last one. *)
Definition dict_last (k : string) (d : dict) : option pyval := dict_get k (rev d).

(** An assembly call that works on the file [p] and on no other video: a
    merge or a copy that reads it, or its removal. *)
Definition works_on (p : string) (ev : Event) : Prop :=
  match ev with
  | EvMerge v _ _ _ _ => v = p
  | EvCopy s _ => s = p
  | EvUnlink q => q = p
  | _ => False
  end.

(** ** Scene modes ([pixelle_video/prompts/scene_modes.py]) *)

(** [SCENE_STYLE_PREFIXES] *)
Definition SCENE_STYLE_PREFIXES : list (string * string) :=
  [("marketing",
    "clean minimalist style, bright lighting, simple backgrounds, "
    ++ "focus on presenter or key objects, social-media short video look");
   ("advertisement",
    "high-contrast commercial style, strong brand colors, dynamic camera angles, "
    ++ "product close-ups, modern ad cinematic look");
   ("storytelling",
    "cinematic storytelling style, warm tone, shallow depth of field, "
    ++ "soft lighting, filmic composition");
   ("tutorial",
    "clear instructional style, simple compositions, focus on steps and key elements, "
    ++ "UI overlays or callouts when appropriate")].

(** [d.get(k, default)] on a dict from strings to strings *)
Fixpoint str_dict_get (k : string) (d : list (string * string)) (default : string) : string :=
  match d with
  | [] => default
  | (k', v) :: r => if String.eqb k k' then v else str_dict_get k r default
  end.

(** [get_scene_style_prefix] *)
Definition get_scene_style_prefix (key : option string) : string :=
  if negb (truthy_str key) then EmptyString
  else match key with
       | Some k => str_dict_get k SCENE_STYLE_PREFIXES EmptyString
       | None => EmptyString
       end.

(** ** The Sora pipeline tab ([web/pipelines/sora.py]) *)

(** The values the session state and a workflow description hold. *)
Inductive sval : Type :=
| SNone
| SBool (b : bool)
| SInt (n : Z)
| SStr (s : string).

Definition sval_truthy (v : sval) : bool :=
  match v with
  | SNone => false
  | SBool b => b
  | SInt n => negb (n =? 0)
  | SStr s => negb (String.eqb s EmptyString)
  end.

(** [st.session_state], and a workflow description: dicts with string keys. *)
Definition store := list (string * sval).

(** The binding of a key, [None] when the dict does not have the key. *)
Fixpoint store_find (k : string) (d : store) : option sval :=
  match d with
  | [] => None
  | (k', v) :: r => if String.eqb k k' then Some v else store_find k r
  end.

(** [d.get(k, default)]; [d.get(k)] is [store_get k SNone d]. *)
Definition store_get (k : string) (default : sval) (d : store) : sval :=
  match store_find k d with Some v => v | None => default end.

(** [d[k] = v] *)
Fixpoint store_set (k : string) (v : sval) (d : store) : store :=
  match d with
  | [] => [(k, v)]
  | (k', v') :: r => if String.eqb k k' then (k, v) :: r else (k', v') :: store_set k v r
  end.

(** [d.setdefault(k, v)] *)
Definition store_setdefault (k : string) (v : sval) (d : store) : store :=
  match store_find k d with Some _ => d | None => store_set k v d end.

(** [key in ("selfhost/video_i2v_sora.json", "selfhost/video_i2v_sorat2.json")] *)
Definition is_sora_key (key : sval) : bool :=
  match key with
  | SStr s => (String.eqb s "selfhost/video_i2v_sora.json"
               || String.eqb s "selfhost/video_i2v_sorat2.json")%bool
  | _ => false
  end.

(** The loop over the workflows: [sora_display_name] when it ends. *)
Fixpoint sora_display_name (workflows : list store) : sval :=
  match workflows with
  | [] => SNone
  | wf :: rest =>
      if is_sora_key (store_get "key" (SStr EmptyString) wf)
      then store_get "display_name" SNone wf
      else sora_display_name rest
  end.

(** [SoraPipelineUI._init_defaults].  [list_workflows] is the outcome of
    [pixelle_video.media.list_workflows()]; the session state is a dict
    whose operations return. *)
Definition _init_defaults (list_workflows : result (list store)) (session_state : store)
    : store :=
  if sval_truthy (store_get "sora_pipeline_initialized" SNone session_state) then
    session_state
  else
    let st1 := store_setdefault "sora_template_type_selector" (SStr "video") session_state in
    let st2 :=
      match list_workflows with
      | Ok workflows =>
          let name := sora_display_name workflows in
          if sval_truthy name then store_set "sora_media_workflow_select" name st1 else st1
      | Raise _ => st1
      end in
    store_set "sora_pipeline_initialized" (SBool true) st2.

(** ** Sample inputs *)

Module Samples.

Definition path_of (task : string) (i : Z) (kind : string) : string :=
  "output/" ++ task ++ "/" ++ fmt_int i ++ "_" ++ kind.

(** Every capability succeeds; the generator returns the kind it was asked
    for, without a duration; the metadata probe reads 8.2 seconds. *)
Definition svc_ok : Services :=
  mkServices path_of
    (fun p => Ok (tp_output_path p))
    (fun p => Ok (mkMediaResult (mp_media_type p) "http://gen/result" None))
    (fun _ _ => Ok tt)
    (fun _ => Some (41 # 5))
    (fun _ => Ok 6000)
    (fun t => Ok ("templates/" ++ t))
    (fun _ _ _ _ _ out => Ok out)
    (fun _ _ _ _ => Ok tt)
    (fun _ _ out _ _ => Ok out)
    (fun _ _ => Ok tt)
    (fun _ _ out _ _ => Ok out).

Definition board : Storyboard := mkStoryboard "Demo" None.

(** No TTS, no workflow, no template. *)
Definition config_plain : StoryboardConfig :=
  mkConfig "task1" None None None None None None 1024 1024 None None 30 None.

(** A callback that always returns. *)
Definition cb_quiet : Callback := fun _ => None.

(** A frame that only asks for generated media. *)
Definition frame_prompt : StoryboardFrame :=
  mkFrame 0 "Hello world" (Some "a cat on a roof") None None None None None None None.

(** Local TTS and an image-to-video workflow, without and with the source
    image. *)
Definition config_i2v_missing : StoryboardConfig :=
  mkConfig "task1" (Some "local") None None None None (Some "video_I2V_sora.json")
    1024 1024 None None 30 None.

Definition config_i2v : StoryboardConfig :=
  mkConfig "task1" (Some "local") None None None None (Some "video_I2V_sora.json")
    1024 1024 None None 30 (Some "http://assets/source.png").


(** The metadata probe fails; file sizes can be read. *)
Definition svc_probe_fails : Services :=
  mkServices path_of
    (fun p => Ok (tp_output_path p))
    (fun p => Ok (mkMediaResult (mp_media_type p) "http://gen/result" None))
    (fun _ _ => Ok tt)
    (fun _ => None)
    (fun _ => Ok 6000)
    (fun t => Ok ("templates/" ++ t))
    (fun _ _ _ _ _ out => Ok out)
    (fun _ _ _ _ => Ok tt)
    (fun _ _ out _ _ => Ok out)
    (fun _ _ => Ok tt)
    (fun _ _ out _ _ => Ok out).

(** The file is not there: the probe fails and so does [os.path.getsize]. *)
Definition svc_missing_file : Services :=
  mkServices path_of
    (fun p => Ok (tp_output_path p))
    (fun p => Ok (mkMediaResult (mp_media_type p) "http://gen/result" None))
    (fun _ _ => Ok tt)
    (fun _ => None)
    (fun _ => Raise (OSError "No such file or directory"))
    (fun t => Ok ("templates/" ++ t))
    (fun _ _ _ _ _ out => Ok out)
    (fun _ _ _ _ => Ok tt)
    (fun _ _ out _ _ => Ok out)
    (fun _ _ => Ok tt)
    (fun _ _ out _ _ => Ok out).

(** An asset-based frame: the image is supplied, nothing is to be generated. *)
Definition frame_preset_image : StoryboardFrame :=
  mkFrame 0 "Hello world" None None None (Some "assets/cat.png") None (Some "image") None None.

(** The same frame, with narration audio already supplied. *)
Definition frame_preset_image_audio : StoryboardFrame :=
  mkFrame 0 "Hello world" None (Some "assets/hello.mp3") (Some (3 # 1))
    (Some "assets/cat.png") None (Some "image") None None.

(** The generator returns a video that says how long it is: 5 seconds. *)
Definition svc_video_5s : Services :=
  mkServices path_of
    (fun p => Ok (tp_output_path p))
    (fun p => Ok (mkMediaResult "video" "http://gen/result" (Some (5 # 1))))
    (fun _ _ => Ok tt)
    (fun _ => Some (41 # 5))
    (fun _ => Ok 6000)
    (fun t => Ok ("templates/" ++ t))
    (fun _ _ _ _ _ out => Ok out)
    (fun _ _ _ _ => Ok tt)
    (fun _ _ out _ _ => Ok out)
    (fun _ _ => Ok tt)
    (fun _ _ out _ _ => Ok out).

(** An image prompt on a frame that already carries an image. *)
Definition frame_prompt_and_image : StoryboardFrame :=
  mkFrame 0 "Hello world" (Some "a cat on a roof") None None
    (Some "assets/cat.png") None (Some "image") None None.

(** A supplied video clip with supplied narration audio. *)
Definition frame_preset_video_audio : StoryboardFrame :=
  mkFrame 0 "Hello world" None (Some "assets/hello.mp3") (Some (3 # 1))
    None (Some "assets/clip.mp4") (Some "video") None None.

(** A frame template is configured. *)
Definition config_template : StoryboardConfig :=
  mkConfig "task1" None None None None None None 1024 1024
    (Some "1080x1920/default.html") None 30 None.

(** Muxing the narration into the video fails. *)
Definition svc_merge_fails : Services :=
  mkServices path_of
    (fun p => Ok (tp_output_path p))
    (fun p => Ok (mkMediaResult (mp_media_type p) "http://gen/result" None))
    (fun _ _ => Ok tt)
    (fun _ => Some (41 # 5))
    (fun _ => Ok 6000)
    (fun t => Ok ("templates/" ++ t))
    (fun _ _ _ _ _ out => Ok out)
    (fun _ _ _ _ => Ok tt)
    (fun _ _ _ _ _ => Raise (ExternalError "ffmpeg: merge failed"))
    (fun _ _ => Ok tt)
    (fun _ _ out _ _ => Ok out).

(** A frame with nothing but its narration. *)
Definition frame_bare : StoryboardFrame :=
  mkFrame 0 "Hello world" None None None None None None None None.


(** The TTS capability fails. *)
Definition svc_tts_fails : Services :=
  mkServices path_of
    (fun _ => Raise (ExternalError "tts: provider unavailable"))
    (fun p => Ok (mkMediaResult (mp_media_type p) "http://gen/result" None))
    (fun _ _ => Ok tt)
    (fun _ => Some (41 # 5))
    (fun _ => Ok 6000)
    (fun t => Ok ("templates/" ++ t))
    (fun _ _ _ _ _ out => Ok out)
    (fun _ _ _ _ => Ok tt)
    (fun _ _ out _ _ => Ok out)
    (fun _ _ => Ok tt)
    (fun _ _ out _ _ => Ok out).

(** The generator answers with a kind the processor does not know. *)
Definition svc_unknown_kind : Services :=
  mkServices path_of
    (fun p => Ok (tp_output_path p))
    (fun _ => Ok (mkMediaResult "audio" "http://gen/result" None))
    (fun _ _ => Ok tt)
    (fun _ => Some (41 # 5))
    (fun _ => Ok 6000)
    (fun t => Ok ("templates/" ++ t))
    (fun _ _ _ _ _ out => Ok out)
    (fun _ _ _ _ => Ok tt)
    (fun _ _ out _ _ => Ok out)
    (fun _ _ => Ok tt)
    (fun _ _ out _ _ => Ok out).

(** The download of the generated media fails. *)
Definition svc_download_fails : Services :=
  mkServices path_of
    (fun p => Ok (tp_output_path p))
    (fun p => Ok (mkMediaResult (mp_media_type p) "http://gen/result" None))
    (fun _ _ => Raise (ExternalError "HTTP 503"))
    (fun _ => Some (41 # 5))
    (fun _ => Ok 6000)
    (fun t => Ok ("templates/" ++ t))
    (fun _ _ _ _ _ out => Ok out)
    (fun _ _ _ _ => Ok tt)
    (fun _ _ out _ _ => Ok out)
    (fun _ _ => Ok tt)
    (fun _ _ out _ _ => Ok out).

(** A supplied video clip without narration. *)
Definition frame_preset_video : StoryboardFrame :=
  mkFrame 0 "Hello world" None None None None (Some "assets/clip.mp4") (Some "video") None None.

(** A frame that comes with an image and a media type the assembly does not
    know. *)
Definition frame_preset_gif : StoryboardFrame :=
  mkFrame 0 "Hello world" None None None (Some "assets/cat.gif") None (Some "gif") None None.

(** A template with a parameter of its own and one that is named like the
    frame number. *)
Definition config_template_params : StoryboardConfig :=
  mkConfig "task1" None None None None None None 1024 1024
    (Some "1080x1920/default.html")
    (Some [("accent", VStr "#ff0000"); ("index", VInt 7)]) 30 None.

(** Workflows as the media service lists them. *)
Definition wf_flux : store :=
  [("key", SStr "selfhost/image_flux.json"); ("display_name", SStr "Flux (selfhost)")].

Definition wf_sora_unnamed : store := [("key", SStr "selfhost/video_i2v_sora.json")].

Definition wf_sora2 : store :=
  [("key", SStr "selfhost/video_i2v_sorat2.json"); ("display_name", SStr "Sora T2 (selfhost)")].

(** A session in which the user has chosen image templates. *)
Definition session_user : store :=
  [("sora_template_type_selector", SStr "image"); ("language", SStr "en")].

(** A frame that comes with an image and with a video clip, and says that
    it is a video. *)
Definition frame_image_and_video : StoryboardFrame :=
  mkFrame 0 "Hello world" None None None (Some "assets/cat.png") (Some "assets/clip.mp4")
    (Some "video") None None.

End Samples.

(** * Properties *)

(** ** The monad *)

Lemma bind_run {A B : Type} (m : M A) (k : A -> M B) (w : World) :
  bind m k w =
  match m w with
  | (Ok a, w') => k a w'
  | (Raise e, w') => (Raise e, w')
  end.
Proof. reflexivity. Qed.

(** Running the primitive operations of the monad. *)
Ltac run_monad :=
  cbv beta iota delta [bind ret raise lift get_frame update_frame emit
                       exists_on_disk create_file unlink];
  cbn [frame files trace fst snd].

Ltac run_monad_in H :=
  cbv beta iota delta [bind ret raise lift get_frame update_frame emit
                       exists_on_disk create_file unlink] in H;
  cbn [frame files trace fst snd] in H.

(** ** Stability rules *)

Section Stable.

Context (R : World -> World -> Prop) {HR : RelationClasses.PreOrder R}.

Lemma stable_unchanged {A : Type} (m : M A) :
  (forall w, snd (m w) = w) -> stable R m.
Proof. intros Hm w. rewrite Hm. reflexivity. Qed.

Lemma stable_ret {A : Type} (a : A) : stable R (ret a).
Proof. apply stable_unchanged. reflexivity. Qed.

Lemma stable_raise {A : Type} (e : exn) : stable R (@raise A e).
Proof. apply stable_unchanged. reflexivity. Qed.

Lemma stable_lift {A : Type} (r : result A) : stable R (lift r).
Proof. apply stable_unchanged. reflexivity. Qed.

Lemma stable_get_frame : stable R get_frame.
Proof. apply stable_unchanged. reflexivity. Qed.

Lemma stable_exists_on_disk (p : string) : stable R (exists_on_disk p).
Proof. apply stable_unchanged. reflexivity. Qed.

Lemma stable_bind {A B : Type} (m : M A) (k : A -> M B) :
  stable R m -> (forall a, stable R (k a)) -> stable R (bind m k).
Proof.
  intros Hm Hk w. rewrite bind_run.
  specialize (Hm w). destruct (m w) as [[a | e] w1]; cbn [snd] in *.
  - etransitivity; [exact Hm | apply Hk].
  - exact Hm.
Qed.

End Stable.

(** [adds_only P] and [keeps proj] are preorders. *)
#[local] Instance adds_only_preorder (P : Event -> Prop) : RelationClasses.PreOrder (adds_only P).
Proof.
  split.
  - intros w. exists []. split; [symmetry; apply app_nil_r | constructor].
  - intros w1 w2 w3 [e1 [H1 F1]] [e2 [H2 F2]]. exists (e1 ++ e2)%list. split.
    + rewrite H2, H1. symmetry. apply app_assoc.
    + apply Forall_app. split; assumption.
Qed.

#[local] Instance keeps_preorder {B : Type} (proj : StoryboardFrame -> B) :
  RelationClasses.PreOrder (keeps proj).
Proof.
  split.
  - intros w. reflexivity.
  - intros w1 w2 w3 H1 H2. unfold keeps in *. congruence.
Qed.

Lemma adds_only_emit (P : Event -> Prop) (ev : Event) : P ev -> stable (adds_only P) (emit ev).
Proof. intros H w. exists [ev]. split; [reflexivity | repeat constructor; exact H]. Qed.

Lemma adds_only_unlink (P : Event -> Prop) (p : string) :
  P (EvUnlink p) -> stable (adds_only P) (unlink p).
Proof. intros H w. exists [EvUnlink p]. split; [reflexivity | repeat constructor; exact H]. Qed.

Lemma adds_only_update_frame (P : Event -> Prop) g : stable (adds_only P) (update_frame g).
Proof. intros w. exists []. split; [symmetry; apply app_nil_r | constructor]. Qed.

Lemma adds_only_create_file (P : Event -> Prop) p : stable (adds_only P) (create_file p).
Proof. intros w. exists []. split; [symmetry; apply app_nil_r | constructor]. Qed.

Lemma keeps_emit {B : Type} (proj : StoryboardFrame -> B) ev : stable (keeps proj) (emit ev).
Proof. intros w. reflexivity. Qed.

Lemma keeps_unlink {B : Type} (proj : StoryboardFrame -> B) p : stable (keeps proj) (unlink p).
Proof. intros w. reflexivity. Qed.

Lemma keeps_create_file {B : Type} (proj : StoryboardFrame -> B) p :
  stable (keeps proj) (create_file p).
Proof. intros w. reflexivity. Qed.

Lemma keeps_update_frame {B : Type} (proj : StoryboardFrame -> B) g :
  (forall f, proj (g f) = proj f) -> stable (keeps proj) (update_frame g).
Proof. intros H w. apply H. Qed.

(** One rule at a time, by the shape of the computation. *)
Ltac stable_rule :=
  lazymatch goal with
  | |- stable _ (bind _ _) => apply stable_bind; [typeclasses eauto | | intros ? ]
  | |- stable _ (ret _) => apply stable_ret; typeclasses eauto
  | |- stable _ (raise _) => apply stable_raise; typeclasses eauto
  | |- stable _ (lift _) => apply stable_lift; typeclasses eauto
  | |- stable _ get_frame => apply stable_get_frame; typeclasses eauto
  | |- stable _ (exists_on_disk _) => apply stable_exists_on_disk; typeclasses eauto
  | |- stable (adds_only _) (emit _) => apply adds_only_emit; auto
  | |- stable (adds_only _) (unlink _) => apply adds_only_unlink; auto
  | |- stable (adds_only _) (update_frame _) => apply adds_only_update_frame
  | |- stable (adds_only _) (create_file _) => apply adds_only_create_file
  | |- stable (keeps _) (emit _) => apply keeps_emit
  | |- stable (keeps _) (unlink _) => apply keeps_unlink
  | |- stable (keeps _) (create_file _) => apply keeps_create_file
  | |- stable (keeps _) (update_frame _) => apply keeps_update_frame; intros ?; auto
  | |- stable _ (match ?x with _ => _ end) => destruct x
  | |- stable _ (let _ := _ in _) => cbv zeta
  end.

Ltac stable_auto := repeat stable_rule.

(** ** What each step may add to the trace and assign on the frame *)

Section StepFootprints.

Variable svc : Services.

Lemma report_no_media cb ev : stable (adds_only not_media_call) (report cb ev).
Proof. unfold report. stable_auto. reflexivity. Qed.

Lemma report_keeps {B : Type} (proj : StoryboardFrame -> B) cb ev :
  stable (keeps proj) (report cb ev).
Proof. unfold report. stable_auto. Qed.

Lemma step_generate_audio_adds (P : Event -> Prop) config :
  (forall p, P (EvTts p)) ->
  stable (adds_only P) (_step_generate_audio svc config).
Proof. intros HP. unfold _step_generate_audio, _get_audio_duration. stable_auto. Qed.

Lemma step_generate_media_adds (P : Event -> Prop) config :
  (forall p, P (EvMedia p)) -> (forall u o, P (EvDownload u o)) ->
  stable (adds_only P) (_step_generate_media svc config).
Proof.
  intros HM HD.
  unfold _step_generate_media, _download_media, _get_video_duration. stable_auto.
Qed.

Lemma step_compose_frame_adds (P : Event -> Prop) storyboard config :
  (forall t ttl txt img ext out, P (EvCompose t ttl txt img ext out)) ->
  stable (adds_only P) (_step_compose_frame svc storyboard config).
Proof. intros HP. unfold _step_compose_frame, _compose_frame_html. stable_auto. Qed.

Lemma step_create_video_segment_adds (P : Event -> Prop) config :
  (forall v o out sm, P (EvOverlay v o out sm)) ->
  (forall v a out r vol, P (EvMerge v a out r vol)) ->
  (forall s d, P (EvCopy s d)) ->
  (forall i a out fps d, P (EvCreateVideo i a out fps d)) ->
  (forall p, P (EvUnlink p)) ->
  stable (adds_only P) (_step_create_video_segment svc config).
Proof. intros H1 H2 H3 H4 H5. unfold _step_create_video_segment. stable_auto. Qed.

Lemma step_generate_audio_keeps {B : Type} (proj : StoryboardFrame -> B) config :
  (forall v f, proj (set_audio_path v f) = proj f) ->
  (forall v f, proj (set_duration v f) = proj f) ->
  stable (keeps proj) (_step_generate_audio svc config).
Proof. intros H1 H2. unfold _step_generate_audio, _get_audio_duration. stable_auto. Qed.

Lemma step_generate_media_keeps {B : Type} (proj : StoryboardFrame -> B) config :
  (forall v f, proj (set_media_type v f) = proj f) ->
  (forall v f, proj (set_image_path v f) = proj f) ->
  (forall v f, proj (set_video_path v f) = proj f) ->
  (forall v f, proj (set_duration v f) = proj f) ->
  stable (keeps proj) (_step_generate_media svc config).
Proof.
  intros H1 H2 H3 H4.
  unfold _step_generate_media, _download_media, _get_video_duration. stable_auto.
Qed.

Lemma step_compose_frame_keeps {B : Type} (proj : StoryboardFrame -> B) storyboard config :
  (forall v f, proj (set_composed_image_path v f) = proj f) ->
  stable (keeps proj) (_step_compose_frame svc storyboard config).
Proof. intros H1. unfold _step_compose_frame, _compose_frame_html. stable_auto. Qed.

Lemma step_create_video_segment_keeps {B : Type} (proj : StoryboardFrame -> B) config :
  (forall v f, proj (set_video_segment_path v f) = proj f) ->
  stable (keeps proj) (_step_create_video_segment svc config).
Proof. intros H1. unfold _step_create_video_segment. stable_auto. Qed.

End StepFootprints.

(** ** Whole runs *)

Section Runs.

Variable svc : Services.

(** The blocks of [__call__] add what their step adds, and progress events. *)
Lemma call_step1_adds (P : Event -> Prop) config total cb num :
  (forall e, P (EvProgress e)) -> (forall p, P (EvTts p)) ->
  stable (adds_only P) (call_step1 svc config total cb num).
Proof.
  intros H1 H2. unfold call_step1, report. stable_auto.
  all: apply step_generate_audio_adds; assumption.
Qed.

Lemma call_step2_adds (P : Event -> Prop) config total cb num ng ex :
  (forall e, P (EvProgress e)) ->
  (forall p, P (EvMedia p)) -> (forall u o, P (EvDownload u o)) ->
  stable (adds_only P) (call_step2 svc config total cb num ng ex).
Proof.
  intros H1 H2 H3. unfold call_step2, report. stable_auto.
  all: apply step_generate_media_adds; assumption.
Qed.

Lemma call_step3_adds (P : Event -> Prop) storyboard config total cb num ng ex :
  (forall e, P (EvProgress e)) ->
  (forall t ttl txt img ext out, P (EvCompose t ttl txt img ext out)) ->
  stable (adds_only P) (call_step3 svc storyboard config total cb num ng ex).
Proof.
  intros H1 H2. unfold call_step3, report. stable_auto.
  all: apply step_compose_frame_adds; assumption.
Qed.

Lemma call_step4_adds (P : Event -> Prop) config total cb num ng ex :
  (forall e, P (EvProgress e)) ->
  (forall v o out sm, P (EvOverlay v o out sm)) ->
  (forall v a out r vol, P (EvMerge v a out r vol)) ->
  (forall s d, P (EvCopy s d)) ->
  (forall i a out fps d, P (EvCreateVideo i a out fps d)) ->
  (forall p, P (EvUnlink p)) ->
  stable (adds_only P) (call_step4 svc config total cb num ng ex).
Proof.
  intros H0 H1 H2 H3 H4 H5. unfold call_step4, report. stable_auto.
  all: apply step_create_video_segment_adds; assumption.
Qed.

Lemma call_step1_keeps {B : Type} (proj : StoryboardFrame -> B) config total cb num :
  (forall v f, proj (set_audio_path v f) = proj f) ->
  (forall v f, proj (set_duration v f) = proj f) ->
  stable (keeps proj) (call_step1 svc config total cb num).
Proof.
  intros H1 H2. unfold call_step1, report. stable_auto.
  all: apply step_generate_audio_keeps; assumption.
Qed.

Lemma call_step2_keeps {B : Type} (proj : StoryboardFrame -> B) config total cb num ng ex :
  (forall v f, proj (set_media_type v f) = proj f) ->
  (forall v f, proj (set_image_path v f) = proj f) ->
  (forall v f, proj (set_video_path v f) = proj f) ->
  (forall v f, proj (set_duration v f) = proj f) ->
  stable (keeps proj) (call_step2 svc config total cb num ng ex).
Proof.
  intros H1 H2 H3 H4. unfold call_step2, report. stable_auto.
  all: apply step_generate_media_keeps; assumption.
Qed.

Lemma call_step3_keeps {B : Type} (proj : StoryboardFrame -> B) storyboard config total cb num
    ng ex :
  (forall v f, proj (set_composed_image_path v f) = proj f) ->
  stable (keeps proj) (call_step3 svc storyboard config total cb num ng ex).
Proof.
  intros H1. unfold call_step3, report. stable_auto.
  all: apply step_compose_frame_keeps; assumption.
Qed.

Lemma call_step4_keeps {B : Type} (proj : StoryboardFrame -> B) config total cb num ng ex :
  (forall v f, proj (set_video_segment_path v f) = proj f) ->
  stable (keeps proj) (call_step4 svc config total cb num ng ex).
Proof.
  intros H1. unfold call_step4, report. stable_auto.
  all: apply step_create_video_segment_keeps; assumption.
Qed.

(** The callback cannot reach the frame. *)
Lemma report_frame cb ev w r w' : report cb ev w = (r, w') -> frame w' = frame w.
Proof.
  intros H. pose proof (report_keeps (fun f => f) cb ev w) as K.
  rewrite H in K. exact K.
Qed.

Lemma report_returns cb ev w :
  callback_returns cb ->
  exists w', report cb ev w = (Ok tt, w') /\ frame w' = frame w /\ files w' = files w.
Proof.
  intros H. unfold report. destruct cb as [k | ]; run_monad.
  - rewrite (H ev). run_monad. eexists. repeat split.
  - eexists. repeat split.
Qed.

(** A run that returns went through the four blocks in order. *)
Lemma process_ok_inv f fs storyboard config total cb fr w :
  run_process svc f fs storyboard config total cb = (Ok fr, w) ->
  let num := index f + 1 in
  let ex := (is_not_none (image_path f) || is_not_none (video_path f))%bool in
  let ng := is_not_none (image_prompt f) in
  exists w1 w2 w3,
    call_step1 svc config total cb num (mkWorld f fs []) = (Ok tt, w1) /\
    call_step2 svc config total cb num ng ex w1 = (Ok tt, w2) /\
    call_step3 svc storyboard config total cb num ng ex w2 = (Ok tt, w3) /\
    call_step4 svc config total cb num ng ex w3 = (Ok tt, w) /\
    fr = frame w.
Proof.
  unfold run_process, process. rewrite bind_run. cbn [get_frame frame].
  intros H. rewrite bind_run in H.
  destruct (call_step1 svc config total cb _ _) as [[[] | e1] w1] eqn:E1; [ | discriminate].
  rewrite bind_run in H.
  destruct (call_step2 svc config total cb _ _ _ w1) as [[[] | e2] w2] eqn:E2; [ | discriminate].
  rewrite bind_run in H.
  destruct (call_step3 svc storyboard config total cb _ _ _ w2) as [[[] | e3] w3] eqn:E3;
    [ | discriminate].
  rewrite bind_run in H.
  destruct (call_step4 svc config total cb _ _ _ w3) as [[[] | e4] w4] eqn:E4; [ | discriminate].
  cbn [get_frame] in H. inversion H; subst.
  exists w1, w2, w3. cbv zeta. repeat split; assumption.
Qed.

(** A property of every event of a run, from what each block adds. *)
Lemma process_trace_forall (P : Event -> Prop) f fs storyboard config total cb :
  let num := index f + 1 in
  let ex := (is_not_none (image_path f) || is_not_none (video_path f))%bool in
  let ng := is_not_none (image_prompt f) in
  let w0 := mkWorld f fs [] in
  (forall e, P (EvProgress e)) -> (forall p, P (EvTts p)) ->
  (forall w1, call_step1 svc config total cb num w0 = (Ok tt, w1) ->
     adds_only P w1 (snd (call_step2 svc config total cb num ng ex w1))) ->
  (forall w1 w2, call_step1 svc config total cb num w0 = (Ok tt, w1) ->
     call_step2 svc config total cb num ng ex w1 = (Ok tt, w2) ->
     adds_only P w2 (snd (call_step3 svc storyboard config total cb num ng ex w2))) ->
  (forall w1 w2 w3, call_step1 svc config total cb num w0 = (Ok tt, w1) ->
     call_step2 svc config total cb num ng ex w1 = (Ok tt, w2) ->
     call_step3 svc storyboard config total cb num ng ex w2 = (Ok tt, w3) ->
     adds_only P w3 (snd (call_step4 svc config total cb num ng ex w3))) ->
  Forall P (trace (snd (run_process svc f fs storyboard config total cb))).
Proof.
  intros num ex ng w0 HP HT H2 H3 H4.
  assert (G : adds_only P w0 (snd (run_process svc f fs storyboard config total cb))).
  { unfold run_process, process. rewrite bind_run. cbn [get_frame frame].
    fold num ex ng w0. rewrite bind_run.
    pose proof (call_step1_adds P config total cb num HP HT w0) as A1.
    case_eq (call_step1 svc config total cb num w0). intros [[] | e1] w1 E1;
      rewrite E1 in A1; cbn [snd] in *; [ | exact A1].
    rewrite bind_run. specialize (H2 w1 E1).
    case_eq (call_step2 svc config total cb num ng ex w1). intros [[] | e2] w2 E2;
      rewrite E2 in H2; cbn [snd] in *; [ | etransitivity; eassumption].
    rewrite bind_run. specialize (H3 w1 w2 E1 E2).
    case_eq (call_step3 svc storyboard config total cb num ng ex w2).
    intros [[] | e3] w3 E3; rewrite E3 in H3; cbn [snd] in *;
      [ | etransitivity; [exact A1 | etransitivity; eassumption]].
    rewrite bind_run. specialize (H4 w1 w2 w3 E1 E2 E3).
    case_eq (call_step4 svc config total cb num ng ex w3).
    intros [[] | e4] w4 E4; rewrite E4 in H4; cbn [snd get_frame] in *;
      (etransitivity; [exact A1 | etransitivity; [exact H2 | etransitivity; eassumption]]). }
  destruct G as [evs [Htr Hall]]. rewrite Htr. cbn [trace w0 app]. exact Hall.
Qed.

Lemma no_media_calls tr : Forall not_media_call tr -> media_calls tr = [].
Proof.
  induction 1 as [ | ev tr Hev _ IH]; [reflexivity | ].
  destruct ev; try discriminate Hev; exact IH.
Qed.

Lemma adds_only_no_media w w' :
  adds_only not_media_call w w' -> media_calls (trace w') = media_calls (trace w).
Proof.
  intros [evs [Htr Hall]]. rewrite Htr. unfold media_calls. rewrite flat_map_app.
  fold (media_calls evs). rewrite (no_media_calls evs Hall). apply app_nil_r.
Qed.

(** An I2V workflow without a source image: the step raises and leaves the
    world as it found it. *)
Lemma step_generate_media_i2v_missing config w :
  is_i2v_workflow config = true ->
  truthy_str (source_image_url config) = false ->
  _step_generate_media svc config w
  = (Raise (ValueError (i2v_error_msg config (frame w))), w).
Proof.
  intros H1 H2. unfold _step_generate_media, i2v_source_missing.
  rewrite bind_run. cbn [get_frame]. rewrite bind_run, H1, H2. reflexivity.
Qed.

End Runs.

(** ** The I2V precondition *)

(** C3. With a media workflow whose name contains "i2v_" in any letter case
    and no source image URL in the config, [_step_generate_media] raises a
    [ValueError] whose message names the workflow and the frame index, and
    leaves the world as it was: the generation capability is not called.
    A whole run on a frame with an image prompt never returns and makes
    zero generation calls; the exception it raises is that [ValueError],
    unless an exception was already raised before the step was entered (by
    the audio block or by the progress callback). *)
Theorem C3_i2v_without_source_image (svc : Services) (f : StoryboardFrame)
    (fs : list string) (storyboard : Storyboard) (config : StoryboardConfig)
    (total_frames : Z) (cb : option Callback) (wf q : string) :
  media_workflow config = Some wf ->
  contains "i2v_" (lower wf) = true ->
  source_image_url config = None ->
  image_prompt f = Some q ->
  let msg := "I2V workflow '" ++ wf ++ "' requires 'image_url' parameter for frame "
             ++ fmt_int (index f)
             ++ ", but source_image_url is not provided in config. Please provide an image URL in the UI." in
  let out := run_process svc f fs storyboard config total_frames cb in
  let before_step :=
    (call_step1 svc config total_frames cb (index f + 1) ;;
     report cb (frame_step_event (1 # 4) (index f + 1) total_frames 2 "media"))%monad in
  (forall w, index (frame w) = index f ->
     _step_generate_media svc config w = (Raise (ValueError msg), w)) /\
  media_calls (trace (snd out)) = [] /\
  exists e, fst out = Raise e /\
    (e = ValueError msg \/ fst (before_step (mkWorld f fs [])) = Raise e).
Proof.
  intros Hwf Hin Hurl Hq msg out before_step.
  assert (Hname : workflow_name config = wf).
  { unfold workflow_name, str_or. rewrite Hwf. destruct wf; reflexivity. }
  assert (Hi2v : is_i2v_workflow config = true).
  { unfold is_i2v_workflow. rewrite Hname. exact Hin. }
  assert (Hfalsy : truthy_str (source_image_url config) = false).
  { rewrite Hurl. reflexivity. }
  assert (Hstep : forall w, index (frame w) = index f ->
            _step_generate_media svc config w = (Raise (ValueError msg), w)).
  { intros w Hidx. rewrite (step_generate_media_i2v_missing svc config w Hi2v Hfalsy).
    unfold i2v_error_msg. rewrite Hname, Hidx. reflexivity. }
  split; [exact Hstep | split].
  - apply no_media_calls. apply process_trace_forall.
    + intros; reflexivity.
    + intros; reflexivity.
    + intros w1 _. rewrite Hq. cbn [is_not_none call_step2].
      apply stable_bind; [typeclasses eauto | apply report_no_media | intros _].
      intros w. rewrite (step_generate_media_i2v_missing svc config w Hi2v Hfalsy).
      cbn [snd]. reflexivity.
    + intros w1 w2 _ _. apply call_step3_adds; intros; reflexivity.
    + intros w1 w2 w3 _ _ _. apply call_step4_adds; intros; reflexivity.
  - subst out before_step. unfold run_process, process, call_step2.
    cbv beta iota delta [bind get_frame]. cbn [frame]. rewrite Hq. cbn [is_not_none].
    pose proof (call_step1_keeps svc index config total_frames cb (index f + 1)
                  (fun _ _ => eq_refl) (fun _ _ => eq_refl) (mkWorld f fs [])) as K1.
    destruct (call_step1 svc config total_frames cb (index f + 1) (mkWorld f fs []))
      as [[[] | e1] w1]; cbn [snd fst] in *.
    + pose proof (report_keeps index cb
                    (frame_step_event (1 # 4) (index f + 1) total_frames 2 "media") w1) as K2.
      destruct (report cb _ w1) as [[[] | e2] w2]; cbn [snd fst] in *.
      * rewrite Hstep by (unfold keeps in *; cbn [frame] in *; congruence).
        exists (ValueError msg). split; [reflexivity | left; reflexivity].
      * exists e2. split; [reflexivity | right; reflexivity].
    + exists e1. split; [reflexivity | right; reflexivity].
Qed.

Lemma C3_i2v_without_source_image_witness :
  media_calls (trace (snd (run_process Samples.svc_ok Samples.frame_prompt [] Samples.board
                             Samples.config_i2v_missing 1 (Some Samples.cb_quiet)))) = []
  /\ _step_generate_media Samples.svc_ok Samples.config_i2v_missing
       (mkWorld Samples.frame_prompt [] [])
     = (Raise (ValueError "I2V workflow 'video_I2V_sora.json' requires 'image_url' parameter for frame 0, but source_image_url is not provided in config. Please provide an image URL in the UI."),
        mkWorld Samples.frame_prompt [] []).
Proof.
  pose proof (C3_i2v_without_source_image Samples.svc_ok Samples.frame_prompt []
                Samples.board Samples.config_i2v_missing 1 (Some Samples.cb_quiet)
                "video_I2V_sora.json" "a cat on a roof" eq_refl eq_refl eq_refl eq_refl)
    as (H1 & H2 & _).
  split; [exact H2 | exact (H1 (mkWorld Samples.frame_prompt [] []) eq_refl)].
Defined.

(** ** The duration prober *)

Lemma py_max_spec (a b : Q) :
  (a <= py_max a b)%Q /\ (b <= py_max a b)%Q /\ (py_max a b = a \/ py_max a b = b).
Proof.
  unfold py_max. destruct (Qle_bool b a) eqn:E.
  - apply Qle_bool_iff in E. repeat split; [apply Qle_refl | exact E | left; reflexivity].
  - assert (H : (a < b)%Q).
    { apply Qnot_le_lt. intros H. apply Qle_bool_iff in H. congruence. }
    repeat split; [apply Qlt_le_weak; exact H | apply Qle_refl | right; reflexivity].
Qed.

(** The audio prober on a file that is not there: the metadata probe fails,
    the handler asks for the size of the file, and the [OSError] of
    [os.path.getsize] leaves the handler.  No estimate is returned. *)
Lemma C7_audio_prober_raises_on_unreadable_file :
  fst (_get_audio_duration Samples.svc_missing_file "output/task1/0_audio"
         (mkWorld Samples.frame_bare [] []))
  = Raise (OSError "No such file or directory").
Proof. reflexivity. Qed.

(** C7.  The video prober never raises: it returns the probed duration, and
    1.0 when the probe fails.  The audio prober returns a duration for every
    path whose size can be read: the probed duration, and on probe failure
    the larger of 1.0 and size / 2000.  Its fallback is not total, though:
    the size is read inside the handler without a handler of its own, so
    when the probe fails and the size cannot be read the audio prober
    raises, where the video prober returns 1.0 on the same file. *)
Theorem C7_duration_prober (svc : Services) (path : string) (w : World) :
  (exists d, _get_video_duration svc path w = (Ok d, w) /\
             (ffprobe_duration svc path = None -> d = 1%Q)) /\
  (forall n, getsize svc path = Ok n ->
     exists d, _get_audio_duration svc path w = (Ok d, w) /\
       (ffprobe_duration svc path = None ->
          let estimate := ((n # 1) / (2000 # 1))%Q in
          d = py_max 1 estimate /\ (1 <= d)%Q /\ (estimate <= d)%Q /\
          (d = 1%Q \/ d = estimate))) /\
  (forall e, ffprobe_duration svc path = None -> getsize svc path = Raise e ->
     _get_audio_duration svc path w = (Raise e, w)).
Proof.
  unfold _get_video_duration, _get_audio_duration. repeat split.
  - destruct (ffprobe_duration svc path) as [d | ].
    + exists d. split; [reflexivity | discriminate].
    + exists 1%Q. split; reflexivity.
  - intros n Hn. destruct (ffprobe_duration svc path) as [d | ].
    + exists d. split; [reflexivity | discriminate].
    + exists (py_max 1 ((n # 1) / (2000 # 1))). rewrite bind_run. unfold lift. rewrite Hn.
      split; [reflexivity | intros _; cbv zeta].
      destruct (py_max_spec 1 ((n # 1) / (2000 # 1))) as (H1 & H2 & H3). auto.
  - intros e Hp Hn. rewrite Hp, bind_run. unfold lift. rewrite Hn. reflexivity.
Qed.

Lemma C7_duration_prober_witness :
  exists d, _get_audio_duration Samples.svc_probe_fails "output/task1/0_audio"
              (mkWorld Samples.frame_bare [] [])
            = (Ok d, mkWorld Samples.frame_bare [] []) /\ (1 <= d)%Q.
Proof.
  destruct (proj1 (proj2 (C7_duration_prober Samples.svc_probe_fails "output/task1/0_audio"
                            (mkWorld Samples.frame_bare [] []))) 6000 eq_refl)
    as [d [Hd Hf]].
  exists d. split; [exact Hd | exact (proj1 (proj2 (Hf eq_refl)))].
Defined.

(** ** Composition without a template *)

Section NoTemplate.

Variable svc : Services.

Lemma step_compose_frame_no_template storyboard config w :
  frame_template config = None ->
  _step_compose_frame svc storyboard config w
  = (Ok tt,
     mkWorld
       (set_composed_image_path
          (if (opt_eqb (media_type (frame w)) "video" && truthy_str (video_path (frame w)))%bool
           then None
           else if (opt_eqb (media_type (frame w)) "image"
                    && truthy_str (image_path (frame w)))%bool
                then image_path (frame w) else None)
          (frame w))
       (files w) (trace w)).
Proof.
  intros H. unfold _step_compose_frame. rewrite bind_run. cbn [get_frame]. rewrite H.
  destruct (opt_eqb (media_type (frame w)) "video" && truthy_str (video_path (frame w)))%bool;
    [reflexivity | ].
  destruct (opt_eqb (media_type (frame w)) "image" && truthy_str (image_path (frame w)))%bool;
    reflexivity.
Qed.

Lemma call_step3_no_template_adds (P : Event -> Prop) storyboard config total cb num ng ex :
  frame_template config = None ->
  (forall e, P (EvProgress e)) ->
  stable (adds_only P) (call_step3 svc storyboard config total cb num ng ex).
Proof.
  intros Hno HP. unfold call_step3, report. stable_auto.
  all: intros w; rewrite (step_compose_frame_no_template storyboard config w Hno);
    exists []; split; [symmetry; apply app_nil_r | constructor].
Qed.

(** C9. With no frame template in the config, composition is skipped: the
    step returns without calling the composer, and assigns to
    [composed_image_path] the raw image path for an image frame (nothing
    when the frame has no image) and nothing for a video frame.  No run of
    the processor calls the composer, and a frame returned by a run carries
    that value. *)
Theorem C9_no_template_skips_composition (f : StoryboardFrame) (fs : list string)
    (storyboard : Storyboard) (config : StoryboardConfig) (total_frames : Z)
    (cb : option Callback) :
  frame_template config = None ->
  (forall w,
     let r := _step_compose_frame svc storyboard config w in
     fst r = Ok tt /\ trace (snd r) = trace w /\ files (snd r) = files w /\
     (media_type (frame w) = Some "image" ->
        composed_image_path (frame (snd r))
        = if truthy_str (image_path (frame w)) then image_path (frame w) else None) /\
     (media_type (frame w) = Some "video" -> composed_image_path (frame (snd r)) = None)) /\
  Forall (fun ev => is_compose_call ev = false)
    (trace (snd (run_process svc f fs storyboard config total_frames cb))) /\
  (forall fr w, run_process svc f fs storyboard config total_frames cb = (Ok fr, w) ->
     (media_type fr = Some "image" ->
        composed_image_path fr = if truthy_str (image_path fr) then image_path fr else None) /\
     (media_type fr = Some "video" -> composed_image_path fr = None)).
Proof.
  intros Hno.
  assert (Hstep : forall w,
     let r := _step_compose_frame svc storyboard config w in
     fst r = Ok tt /\ trace (snd r) = trace w /\ files (snd r) = files w /\
     (media_type (frame w) = Some "image" ->
        composed_image_path (frame (snd r))
        = if truthy_str (image_path (frame w)) then image_path (frame w) else None) /\
     (media_type (frame w) = Some "video" -> composed_image_path (frame (snd r)) = None)).
  { intros w r. subst r. rewrite (step_compose_frame_no_template storyboard config w Hno).
    cbn [fst snd trace files frame]. repeat split.
    - intros Hm. rewrite Hm. cbn [opt_eqb String.eqb Ascii.eqb Bool.eqb andb].
      destruct (truthy_str (image_path (frame w))); reflexivity.
    - intros Hm. rewrite Hm. cbn [opt_eqb String.eqb Ascii.eqb Bool.eqb andb].
      destruct (truthy_str (video_path (frame w))); reflexivity. }
  split; [exact Hstep | split].
  - apply process_trace_forall.
    + intros; reflexivity.
    + intros; reflexivity.
    + intros w1 _. apply call_step2_adds; intros; reflexivity.
    + intros w1 w2 _ _. apply call_step3_no_template_adds; [exact Hno | intros; reflexivity].
    + intros w1 w2 w3 _ _ _. apply call_step4_adds; intros; reflexivity.
  - intros fr w Hrun.
    destruct (process_ok_inv svc f fs storyboard config total_frames cb fr w Hrun)
      as (w1 & w2 & w3 & _ & _ & E3 & E4 & ->).
    unfold call_step3 in E3. rewrite bind_run in E3.
    destruct (report cb _ w2) as [[[] | e] w2'] eqn:ER; [ | discriminate].
    destruct (Hstep w2') as (_ & _ & _ & Himg & Hvid). rewrite E3 in Himg, Hvid.
    cbn [snd] in Himg, Hvid.
    assert (K : media_type (frame w3) = media_type (frame w2')
                /\ image_path (frame w3) = image_path (frame w2')).
    { pose proof (step_compose_frame_keeps svc media_type storyboard config
                    (fun _ _ => eq_refl) w2') as Ka.
      pose proof (step_compose_frame_keeps svc image_path storyboard config
                    (fun _ _ => eq_refl) w2') as Kb.
      rewrite E3 in Ka, Kb. split; assumption. }
    pose proof (call_step4_keeps svc media_type config total_frames cb (index f + 1)
                  (is_not_none (image_prompt f))
                  (is_not_none (image_path f) || is_not_none (video_path f))%bool
                  (fun _ _ => eq_refl) w3) as K1.
    pose proof (call_step4_keeps svc image_path config total_frames cb (index f + 1)
                  (is_not_none (image_prompt f))
                  (is_not_none (image_path f) || is_not_none (video_path f))%bool
                  (fun _ _ => eq_refl) w3) as K2.
    pose proof (call_step4_keeps svc composed_image_path config total_frames cb (index f + 1)
                  (is_not_none (image_prompt f))
                  (is_not_none (image_path f) || is_not_none (video_path f))%bool
                  (fun _ _ => eq_refl) w3) as K3.
    cbv zeta in E4. rewrite E4 in K1, K2, K3. unfold keeps in *. cbn [snd] in *.
    destruct K as [Ka Kb].
    rewrite K1, K2, K3, Ka, Kb. split; assumption.
Qed.

End NoTemplate.

Lemma C9_no_template_skips_composition_witness :
  composed_image_path
    (frame (snd (_step_compose_frame Samples.svc_ok Samples.board Samples.config_plain
                   (mkWorld Samples.frame_preset_image [] []))))
  = Some "assets/cat.png".
Proof.
  exact (proj1 (proj2 (proj2 (proj2
           (proj1 (C9_no_template_skips_composition Samples.svc_ok Samples.frame_preset_image
                     [] Samples.board Samples.config_plain 1 (Some Samples.cb_quiet) eq_refl)
              (mkWorld Samples.frame_preset_image [] []))))) eq_refl).
Defined.

(** ** Segment assembly *)

Section Assembly.

Variable svc : Services.

(** What assembly of a frame of image kind or of unset kind adds to the
    trace: one call of the renderer, or nothing when it raises for want of
    an image. *)
Lemma image_segment_assembly_trace config w :
  let f := frame w in
  media_type f = Some "image" \/ media_type f = None ->
  let visual :=
    if truthy_str (composed_image_path f) then composed_image_path f else image_path f in
  let r := _step_create_video_segment svc config w in
  (truthy_str visual = false -> is_ok (fst r) = false /\ snd r = w) /\
  (truthy_str visual = true ->
     exists a o fps d, trace (snd r) = (trace w ++ [EvCreateVideo visual a o fps d])%list).
Proof.
  intros f Hkind visual r.
  assert (Hv : opt_eqb (media_type f) "video" = false)
    by (destruct Hkind as [H | H]; rewrite H; reflexivity).
  assert (Hi : (opt_eqb (media_type f) "image" || negb (is_not_none (media_type f)))%bool = true)
    by (destruct Hkind as [H | H]; rewrite H; reflexivity).
  subst r. unfold _step_create_video_segment. run_monad. fold f. rewrite Hv, Hi. fold visual.
  split; intros Hvis; rewrite Hvis; cbn [negb]; run_monad; [split; reflexivity | ].
  destruct (truthy_str (audio_path f)); run_monad;
    destruct (create_video_from_image svc visual _ _ _ _); run_monad;
    do 4 eexists; reflexivity.
Qed.

(** C8. Assembly of a frame of image kind or of unset kind.  The visual
    source is the composed image if there is one, else the raw image; with
    neither, the step raises a [ValueError] that names the frame, and does
    nothing else.  Otherwise the renderer is called exactly once, at the
    configured frame rate: with the narration audio and no duration when
    there is audio, and without audio, with the frame's duration or 5.0
    seconds when the frame has none, when there is no audio.  The path the
    renderer returns becomes [video_segment_path]. *)
Theorem C8_image_segment_assembly (config : StoryboardConfig) (w : World) :
  let f := frame w in
  media_type f = Some "image" \/ media_type f = None ->
  let visual :=
    if truthy_str (composed_image_path f) then composed_image_path f else image_path f in
  let output := get_task_frame_path svc (task_id config) (index f) "segment" in
  let audio := if truthy_str (audio_path f) then audio_path f else None in
  let dur :=
    if truthy_str (audio_path f) then None
    else if truthy_num (duration f) then duration f else Some 5%Q in
  let r := _step_create_video_segment svc config w in
  (truthy_str visual = false ->
     r = (Raise (ValueError ("No image available for frame " ++ fmt_int (index f)
                              ++ " (image_path=" ++ fmt_opt (image_path f)
                              ++ ", composed_image_path=" ++ fmt_opt (composed_image_path f)
                              ++ ")")), w)) /\
  (truthy_str visual = true ->
     trace (snd r) = (trace w ++ [EvCreateVideo visual audio output (video_fps config) dur])%list
     /\ match create_video_from_image svc visual audio output (video_fps config) dur with
        | Ok p => fst r = Ok tt /\ video_segment_path (frame (snd r)) = Some p
        | Raise e => fst r = Raise e
        end).
Proof.
  intros f Hkind visual output audio dur r.
  assert (Hv : opt_eqb (media_type f) "video" = false)
    by (destruct Hkind as [H | H]; rewrite H; reflexivity).
  assert (Hi : (opt_eqb (media_type f) "image" || negb (is_not_none (media_type f)))%bool = true)
    by (destruct Hkind as [H | H]; rewrite H; reflexivity).
  subst r. unfold _step_create_video_segment.
  cbv beta iota delta [bind get_frame]. fold f. rewrite Hv, Hi. fold visual output.
  split; intros Hvis; rewrite Hvis; cbn [negb].
  - reflexivity.
  - subst audio dur. destruct (truthy_str (audio_path f)).
    + run_monad.
      destruct (create_video_from_image svc visual (audio_path f) output (video_fps config) None);
        cbn [fst snd trace frame]; auto.
    + run_monad.
      destruct (create_video_from_image svc visual None output (video_fps config) _);
        cbn [fst snd trace frame]; auto.
Qed.

End Assembly.

Lemma C8_image_segment_assembly_witness :
  trace (snd (_step_create_video_segment Samples.svc_ok Samples.config_plain
                (mkWorld Samples.frame_preset_image [] [])))
  = [EvCreateVideo (Some "assets/cat.png") None "output/task1/0_segment" 30 (Some 5%Q)].
Proof.
  exact (proj1 (proj2 (C8_image_segment_assembly Samples.svc_ok Samples.config_plain
                         (mkWorld Samples.frame_preset_image [] [])
                         (or_introl eq_refl)) eq_refl)).
Defined.

(** ** The overlay intermediate *)

Section OverlayTemp.

Variable svc : Services.

Lemma file_exists_remove p fs : file_exists p (file_remove p fs) = false.
Proof.
  unfold file_exists, file_remove. induction fs as [ | q fs IH]; [reflexivity | ].
  cbn [filter]. destruct (String.eqb p q) eqn:E; cbn [negb existsb]; [exact IH | ].
  rewrite E, IH. reflexivity.
Qed.

Lemma file_exists_here p fs : file_exists p (p :: fs) = true.
Proof. unfold file_exists. cbn [existsb]. rewrite String.eqb_refl. reflexivity. Qed.

(** When assembly of a video frame with an overlay returns, the intermediate
    is gone. *)
Lemma overlay_temp_removed_on_return config w w' :
  media_type (frame w) = Some "video" ->
  is_not_none (composed_image_path (frame w)) = true ->
  _step_create_video_segment svc config w = (Ok tt, w') ->
  file_exists (temp_video_with_overlay svc config (frame w)) (files w') = false.
Proof.
  intros Hm Hc. unfold _step_create_video_segment. run_monad. rewrite Hm, Hc.
  cbn [opt_eqb String.eqb Ascii.eqb Bool.eqb]. run_monad.
  destruct (overlay_image_on_video svc _ _ _ _) as [[] | e]; [ | discriminate].
  run_monad. destruct (truthy_str (audio_path (frame w))); run_monad.
  - destruct (merge_audio_video svc _ _ _ _ _) as [p | e]; [ | discriminate].
    run_monad. destruct (file_exists _ _) eqn:E; run_monad;
      intros H; apply (f_equal snd) in H; cbn [snd] in H; rewrite <- H; cbn [files].
    + apply file_exists_remove.
    + exact E.
  - destruct (copy2 svc _ _) as [[] | e]; [ | discriminate].
    run_monad. destruct (file_exists _ _) eqn:E; run_monad;
      intros H; apply (f_equal snd) in H; cbn [snd] in H; rewrite <- H; cbn [files].
    + apply file_exists_remove.
    + exact E.
Qed.

(** When the overlay was composited and muxing the narration then raises,
    assembly raises with the intermediate still on disk. *)
Lemma overlay_temp_left_on_failed_merge config w e :
  let f := frame w in
  let temp := temp_video_with_overlay svc config f in
  let output := get_task_frame_path svc (task_id config) (index f) "segment" in
  media_type f = Some "video" ->
  is_not_none (composed_image_path f) = true ->
  truthy_str (audio_path f) = true ->
  overlay_image_on_video svc (video_path f) (composed_image_path f) temp "contain" = Ok tt ->
  merge_audio_video svc temp (audio_path f) output true 1 = Raise e ->
  exists w', _step_create_video_segment svc config w = (Raise e, w')
             /\ file_exists temp (files w') = true
             /\ frame w' = frame w.
Proof.
  intros f temp output Hm Hc Ha Ho Hmerge. unfold _step_create_video_segment.
  run_monad. fold f. rewrite Hm, Hc, Ha.
  cbn [opt_eqb String.eqb Ascii.eqb Bool.eqb]. run_monad. fold f temp output.
  rewrite Ho. run_monad. rewrite Hmerge.
  eexists. split; [reflexivity | split]; cbn [files frame].
  - apply file_exists_here.
  - reflexivity.
Qed.

End OverlayTemp.

(** C1.  The claim holds when assembly returns and fails when the audio
    merge raises.  For a run that reaches assembly with a video frame and a
    composed overlay: if the run returns, the overlay intermediate is not on
    disk afterwards; if the overlay was composited and muxing the narration
    then raises, the run raises that exception and the intermediate is still
    on disk, because the [os.unlink] after the merge is never reached. *)
Theorem C1_overlay_temp_cleanup (svc : Services) (f : StoryboardFrame) (fs : list string)
    (storyboard : Storyboard) (config : StoryboardConfig) (total_frames : Z)
    (cb : option Callback) (w1 w2 w3 : World) :
  let num := index f + 1 in
  let ex := (is_not_none (image_path f) || is_not_none (video_path f))%bool in
  let ng := is_not_none (image_prompt f) in
  let temp := temp_video_with_overlay svc config f in
  let output := get_task_frame_path svc (task_id config) (index f) "segment" in
  let out := run_process svc f fs storyboard config total_frames cb in
  call_step1 svc config total_frames cb num (mkWorld f fs []) = (Ok tt, w1) ->
  call_step2 svc config total_frames cb num ng ex w1 = (Ok tt, w2) ->
  call_step3 svc storyboard config total_frames cb num ng ex w2 = (Ok tt, w3) ->
  media_type (frame w3) = Some "video" ->
  is_not_none (composed_image_path (frame w3)) = true ->
  (is_ok (fst out) = true -> file_exists temp (files (snd out)) = false) /\
  (forall e,
     callback_returns cb ->
     truthy_str (audio_path (frame w3)) = true ->
     overlay_image_on_video svc (video_path (frame w3)) (composed_image_path (frame w3))
       temp "contain" = Ok tt ->
     merge_audio_video svc temp (audio_path (frame w3)) output true 1 = Raise e ->
     fst out = Raise e /\ file_exists temp (files (snd out)) = true).
Proof.
  intros num ex ng temp output out E1 E2 E3 Hm Hc.
  assert (Hidx : index (frame w3) = index f).
  { pose proof (call_step1_keeps svc index config total_frames cb num
                  (fun _ _ => eq_refl) (fun _ _ => eq_refl) (mkWorld f fs [])) as K1.
    pose proof (call_step2_keeps svc index config total_frames cb num ng ex
                  (fun _ _ => eq_refl) (fun _ _ => eq_refl) (fun _ _ => eq_refl)
                  (fun _ _ => eq_refl) w1) as K2.
    pose proof (call_step3_keeps svc index storyboard config total_frames cb num ng ex
                  (fun _ _ => eq_refl) w2) as K3.
    rewrite E1 in K1. rewrite E2 in K2. rewrite E3 in K3. unfold keeps in *.
    cbn [snd frame] in *. congruence. }
  assert (Htemp : temp_video_with_overlay svc config (frame w3) = temp).
  { unfold temp, temp_video_with_overlay. rewrite Hidx. reflexivity. }
  assert (Hout : out = (call_step4 svc config total_frames cb num ng ex ;; get_frame)%monad w3).
  { unfold out, run_process, process. run_monad. fold num ex ng.
    rewrite E1, E2, E3. reflexivity. }
  split.
  - rewrite Hout. unfold call_step4. run_monad.
    destruct (report cb _ w3) as [[[] | e0] w3'] eqn:ER; [ | discriminate].
    pose proof (report_frame cb _ w3 _ w3' ER) as Hf.
    destruct (_step_create_video_segment svc config w3') as [[[] | e4] w4] eqn:E4;
      [ | discriminate].
    intros _. cbn [snd]. rewrite <- Htemp, <- Hf.
    apply (overlay_temp_removed_on_return svc config w3' w4);
      [rewrite Hf; exact Hm | rewrite Hf; exact Hc | exact E4].
  - intros e Hcb Ha Ho Hmerge. rewrite Hout. unfold call_step4. run_monad.
    destruct (report_returns cb
                (frame_step_event (if (ng || ex)%bool then 3 # 4 else 67 # 100) num
                   total_frames 4 "video") w3 Hcb) as (w3' & ER & Hf & _).
    rewrite ER.
    destruct (overlay_temp_left_on_failed_merge svc config w3' e) as (w4 & E4 & Hex & _).
    + rewrite Hf. exact Hm.
    + rewrite Hf. exact Hc.
    + rewrite Hf. exact Ha.
    + rewrite Hf, Htemp. exact Ho.
    + rewrite Hf, Htemp, Hidx. exact Hmerge.
    + rewrite E4. cbn [fst snd]. rewrite Hf, Htemp in Hex. split; [reflexivity | exact Hex].
Qed.

Lemma C1_overlay_temp_cleanup_witness :
  let out := run_process Samples.svc_merge_fails Samples.frame_preset_video_audio []
               Samples.board Samples.config_template 1 (Some Samples.cb_quiet) in
  fst out = Raise (ExternalError "ffmpeg: merge failed") /\
  file_exists "output/task1/0_video_overlay.mp4" (files (snd out)) = true.
Proof.
  refine (proj2 (C1_overlay_temp_cleanup Samples.svc_merge_fails
                   Samples.frame_preset_video_audio [] Samples.board Samples.config_template 1
                   (Some Samples.cb_quiet) _ _ _ eq_refl eq_refl eq_refl eq_refl eq_refl)
            (ExternalError "ffmpeg: merge failed") (fun _ => eq_refl) eq_refl eq_refl eq_refl).
Defined.

(** ** Progress reporting *)

Section Progress.

Variable svc : Services.



















End Progress.



(** ** Media generation *)

Section Generation.

Variable svc : Services.

Lemma media_calls_app tr1 tr2 :
  media_calls (tr1 ++ tr2) = (media_calls tr1 ++ media_calls tr2)%list.
Proof. apply flat_map_app. Qed.

Ltac split_run :=
  repeat (run_monad;
          match goal with
          | |- context [match ?x with _ => _ end] =>
              lazymatch x with
              | context [match _ with _ => _ end] => fail
              | _ => destruct x eqn:?
              end
          end);
  run_monad.

(** The step calls the generation capability once, with the parameters
    built from the frame as it is on entry, unless the I2V precondition
    fails. *)
Lemma step_generate_media_calls config w :
  media_calls (trace (snd (_step_generate_media svc config w)))
  = (media_calls (trace w)
     ++ if i2v_source_missing config then [] else [build_media_params (frame w) config])%list.
Proof.
  unfold _step_generate_media, _download_media, _get_video_duration.
  run_monad.
  destruct (i2v_source_missing config); run_monad; [symmetry; apply app_nil_r | ].
  split_run; rewrite ?media_calls_app; cbn [media_calls flat_map app];
    rewrite ?app_nil_r; reflexivity.
Qed.

(** What a returning step leaves on the frame. *)
Lemma step_generate_media_ok config w w' :
  _step_generate_media svc config w = (Ok tt, w') ->
  let f := frame w in
  exists r,
    media svc (build_media_params f config) = Ok r /\
    media_type (frame w') = Some (mr_media_type r) /\
    (is_image r = true ->
       image_path (frame w')
       = Some (get_task_frame_path svc (task_id config) (index f) "image")
       /\ video_path (frame w') = video_path f
       /\ duration (frame w') = duration f) /\
    (is_image r = false ->
       is_video r = true
       /\ video_path (frame w')
          = Some (get_task_frame_path svc (task_id config) (index f) "video")
       /\ image_path (frame w') = image_path f
       /\ duration (frame w')
          = if truthy_num (mr_duration r) then mr_duration r
            else Some (probed_video_duration
                         svc (get_task_frame_path svc (task_id config) (index f) "video"))).
Proof.
  unfold _step_generate_media, _download_media, _get_video_duration, probed_video_duration.
  run_monad.
  destruct (i2v_source_missing config); run_monad; [discriminate | ].
  destruct (media svc (build_media_params (frame w) config)) as [r | e]; run_monad;
    [ | discriminate].
  destruct (is_image r) eqn:Ei; run_monad.
  - destruct (http_download svc _ _) as [[] | e]; run_monad; [ | discriminate].
    intros H. apply (f_equal snd) in H. cbn [snd] in H. subst w'. cbn [frame].
    exists r. repeat split; try reflexivity; congruence.
  - destruct (is_video r) eqn:Ev; run_monad; [ | discriminate].
    destruct (http_download svc _ _) as [[] | e]; run_monad; [ | discriminate].
    destruct (truthy_num (mr_duration r)) eqn:Ed; run_monad.
    + intros H. apply (f_equal snd) in H. cbn [snd] in H. subst w'. cbn [frame].
      exists r. rewrite Ed. repeat split; try reflexivity; congruence.
    + destruct (ffprobe_duration svc _) as [d | ]; run_monad;
        intros H; apply (f_equal snd) in H; cbn [snd] in H; subst w'; cbn [frame];
        exists r; rewrite Ed; repeat split; try reflexivity; congruence.
Qed.

End Generation.

(** ** Generation within a run *)

Section GenerationInRun.

Variable svc : Services.

(** Composition and assembly do not call the generation capability. *)
Lemma after_generation_no_media storyboard config total cb num ng ex :
  stable (adds_only not_media_call)
    (call_step3 svc storyboard config total cb num ng ex ;;
     call_step4 svc config total cb num ng ex ;;
     get_frame)%monad.
Proof.
  apply stable_bind; [typeclasses eauto | | intros _].
  - apply call_step3_adds; intros; reflexivity.
  - apply stable_bind; [typeclasses eauto | | intros _].
    + apply call_step4_adds; intros; reflexivity.
    + apply stable_get_frame. typeclasses eauto.
Qed.

(** A run makes no generation call, or exactly one: with the parameters
    built from the frame as the audio block left it. *)
Lemma process_media_calls f fs storyboard config total cb :
  let out := run_process svc f fs storyboard config total cb in
  media_calls (trace (snd out)) = [] \/
  exists w1,
    call_step1 svc config total cb (index f + 1) (mkWorld f fs []) = (Ok tt, w1) /\
    is_not_none (image_prompt f) = true /\
    i2v_source_missing config = false /\
    media_calls (trace (snd out)) = [build_media_params (frame w1) config].
Proof.
  unfold run_process, process.
  set (num := index f + 1).
  set (ex := (is_not_none (image_path f) || is_not_none (video_path f))%bool).
  set (ng := is_not_none (image_prompt f)).
  cbv zeta. rewrite bind_run. cbn [get_frame frame]. fold num ex ng. rewrite bind_run.
  pose proof (adds_only_no_media _ _
                (call_step1_adds svc not_media_call config total cb num
                   (fun _ => eq_refl) (fun _ => eq_refl) (mkWorld f fs []))) as P1.
  cbn [trace media_calls flat_map] in P1.
  destruct (call_step1 svc config total cb num _) as [[[] | e1] w1]; cbn [snd fst] in *;
    [ | left; exact P1].
  rewrite bind_run.
  assert (T : forall w2,
             media_calls (trace (snd ((call_step3 svc storyboard config total cb num ng ex ;;
                                       call_step4 svc config total cb num ng ex ;;
                                       get_frame)%monad w2)))
             = media_calls (trace w2)).
  { intros w2. apply adds_only_no_media, after_generation_no_media. }
  assert (G : media_calls (trace (snd (call_step2 svc config total cb num ng ex w1))) = []
              \/ (ng = true /\ i2v_source_missing config = false /\
                  media_calls (trace (snd (call_step2 svc config total cb num ng ex w1)))
                  = [build_media_params (frame w1) config])).
  { unfold call_step2. destruct ng.
    - rewrite bind_run.
      pose proof (adds_only_no_media _ _ (report_no_media cb
                    (frame_step_event (1 # 4) num total 2 "media") w1)) as R1.
      destruct (report cb _ w1) as [[[] | e] w1'] eqn:ER; cbn [snd] in *.
      + rewrite step_generate_media_calls, R1, P1, (report_frame _ _ _ _ _ ER).
        destruct (i2v_source_missing config); [left | right]; auto.
      + left. congruence.
    - left. destruct ex; run_monad; exact P1. }
  destruct (call_step2 svc config total cb num ng ex w1) as [[[] | e2] w2]; cbn [snd fst] in *.
  - rewrite T. destruct G as [G | (G1 & G2 & G3)]; [left; exact G | right].
    exists w1. auto.
  - destruct G as [G | (G1 & G2 & G3)]; [left; exact G | right].
    exists w1. auto.
Qed.

(** A run on a frame with an image prompt that returns has called the
    generation capability once, and the frame it returns carries what the
    capability produced. *)
Lemma process_ok_generated f fs storyboard config total cb fr w :
  run_process svc f fs storyboard config total cb = (Ok fr, w) ->
  is_not_none (image_prompt f) = true ->
  exists w1 r,
    call_step1 svc config total cb (index f + 1) (mkWorld f fs []) = (Ok tt, w1) /\
    media_calls (trace w) = [build_media_params (frame w1) config] /\
    media svc (build_media_params (frame w1) config) = Ok r /\
    media_type fr = Some (mr_media_type r) /\
    (is_image r = true ->
       image_path fr = Some (get_task_frame_path svc (task_id config) (index f) "image")
       /\ video_path fr = video_path f
       /\ duration fr = duration (frame w1)) /\
    (is_image r = false ->
       is_video r = true
       /\ video_path fr = Some (get_task_frame_path svc (task_id config) (index f) "video")
       /\ image_path fr = image_path f
       /\ duration fr
          = if truthy_num (mr_duration r) then mr_duration r
            else Some (probed_video_duration
                         svc (get_task_frame_path svc (task_id config) (index f) "video"))).
Proof.
  intros Hrun Hng.
  destruct (process_ok_inv svc f fs storyboard config total cb fr w Hrun)
    as (w1 & w2 & w3 & E1 & E2 & E3 & E4 & ->).
  cbv zeta in *.
  set (num := index f + 1) in *.
  set (ex := (is_not_none (image_path f) || is_not_none (video_path f))%bool) in *.
  rewrite Hng in *.
  (* the frame on entry to the step *)
  pose proof (call_step1_keeps svc index config total cb num
                (fun _ _ => eq_refl) (fun _ _ => eq_refl) (mkWorld f fs [])) as Ki.
  pose proof (call_step1_keeps svc image_path config total cb num
                (fun _ _ => eq_refl) (fun _ _ => eq_refl) (mkWorld f fs [])) as Kp.
  pose proof (call_step1_keeps svc video_path config total cb num
                (fun _ _ => eq_refl) (fun _ _ => eq_refl) (mkWorld f fs [])) as Kv.
  rewrite E1 in Ki, Kp, Kv. unfold keeps in Ki, Kp, Kv. cbn [snd frame] in Ki, Kp, Kv.
  (* the step *)
  unfold call_step2 in E2. rewrite bind_run in E2.
  destruct (report cb _ w1) as [[[] | e] w1'] eqn:ER; [ | discriminate].
  pose proof (report_frame _ _ _ _ _ ER) as Hf.
  destruct (step_generate_media_ok svc config w1' w2 E2) as (r & Hr & Hmt & Himg & Hvid).
  rewrite Hf in Hr, Himg, Hvid. rewrite Ki, Kp, Kv in *.
  (* composition and assembly keep what generation assigned *)
  assert (K : media_type (frame w) = media_type (frame w2)
              /\ image_path (frame w) = image_path (frame w2)
              /\ video_path (frame w) = video_path (frame w2)
              /\ duration (frame w) = duration (frame w2)).
  { pose proof (call_step3_keeps svc media_type storyboard config total cb num true ex
                  (fun _ _ => eq_refl) w2) as A1.
    pose proof (call_step3_keeps svc image_path storyboard config total cb num true ex
                  (fun _ _ => eq_refl) w2) as A2.
    pose proof (call_step3_keeps svc video_path storyboard config total cb num true ex
                  (fun _ _ => eq_refl) w2) as A3.
    pose proof (call_step3_keeps svc duration storyboard config total cb num true ex
                  (fun _ _ => eq_refl) w2) as A4.
    pose proof (call_step4_keeps svc media_type config total cb num true ex
                  (fun _ _ => eq_refl) w3) as B1.
    pose proof (call_step4_keeps svc image_path config total cb num true ex
                  (fun _ _ => eq_refl) w3) as B2.
    pose proof (call_step4_keeps svc video_path config total cb num true ex
                  (fun _ _ => eq_refl) w3) as B3.
    pose proof (call_step4_keeps svc duration config total cb num true ex
                  (fun _ _ => eq_refl) w3) as B4.
    rewrite E3 in A1, A2, A3, A4. rewrite E4 in B1, B2, B3, B4.
    unfold keeps in *. cbn [snd] in *. repeat split; congruence. }
  destruct K as (K1 & K2 & K3 & K4).
  exists w1, r. split; [exact E1 | split].
  - destruct (process_media_calls f fs storyboard config total cb) as [G | (w1x & E1x & _ & _ & G)];
      rewrite Hrun in G; cbn [snd] in G.
    + (* a returning step made its call *)
      exfalso.
      pose proof (step_generate_media_calls svc config w1') as C.
      rewrite E2 in C. cbn [snd] in C.
      assert (Hmiss : i2v_source_missing config = false).
      { destruct (i2v_source_missing config) eqn:Em; [ | reflexivity].
        unfold _step_generate_media in E2. run_monad_in E2. rewrite Em in E2.
        run_monad_in E2. discriminate. }
      rewrite Hmiss in C.
      pose proof (adds_only_no_media _ _
                    (after_generation_no_media storyboard config total cb num true ex w2)) as T.
      rewrite bind_run, E3, bind_run, E4 in T. cbn [snd get_frame] in T.
      rewrite T, C in G. destruct (media_calls (trace w1')); discriminate G.
    + fold num in E1x. rewrite E1 in E1x. inversion E1x; subst w1x. exact G.
  - rewrite K1, K2, K3, K4. repeat split; tauto || (intros Hi; apply Himg in Hi || apply Hvid in Hi; tauto).
Qed.

End GenerationInRun.

(** ** Durations *)

Lemma is_video_not_image r : is_video r = true -> is_image r = false.
Proof.
  unfold is_video, is_image. intros H. apply String.eqb_eq in H. rewrite H. reflexivity.
Qed.

(** The duration handed to the generation capability: the frame's, for a
    video workflow and a duration that is neither missing nor 0.0. *)
Lemma build_media_params_duration f config :
  mp_duration (build_media_params f config)
  = if (is_video_workflow config && truthy_num (duration f))%bool then duration f else None.
Proof. reflexivity. Qed.

(** C4. A frame's duration is known when the attribute holds a number other
    than 0.0, the value the code reads as "no duration" ([if ... and
    frame.duration]).  For a video workflow (the workflow name contains
    "video_" or "i2v_" in any letter case) and a frame whose duration is
    known to be [D] once the audio block of the run is done, the parameters
    built for the generation capability carry [D] itself as duration, every
    generation call of the run carries it, and a run on a frame with an
    image prompt that returns has made exactly that call. *)
Theorem C4_audio_duration_reaches_generator (svc : Services) (f : StoryboardFrame)
    (fs : list string) (storyboard : Storyboard) (config : StoryboardConfig)
    (total_frames : Z) (cb : option Callback) (w1 : World) (D : Q) :
  (contains "video_" (lower (workflow_name config))
   || contains "i2v_" (lower (workflow_name config)))%bool = true ->
  call_step1 svc config total_frames cb (index f + 1) (mkWorld f fs []) = (Ok tt, w1) ->
  duration (frame w1) = Some D ->
  Qeq_bool D 0 = false ->
  mp_duration (build_media_params (frame w1) config) = Some D /\
  (forall p,
     In p (media_calls (trace (snd (run_process svc f fs storyboard config total_frames cb)))) ->
     mp_duration p = Some D) /\
  (is_ok (fst (run_process svc f fs storyboard config total_frames cb)) = true ->
   is_not_none (image_prompt f) = true ->
   media_calls (trace (snd (run_process svc f fs storyboard config total_frames cb)))
   = [build_media_params (frame w1) config]).
Proof.
  intros Hwf E1 Hd Hnz.
  assert (Hp : mp_duration (build_media_params (frame w1) config) = Some D).
  { rewrite build_media_params_duration. unfold is_video_workflow.
    rewrite Hwf, Hd. cbn [truthy_num andb]. rewrite Hnz. reflexivity. }
  split; [exact Hp | split].
  - intros p Hin.
    destruct (process_media_calls svc f fs storyboard config total_frames cb)
      as [G | (w1x & E1x & _ & _ & G)]; cbv zeta in G; rewrite G in Hin.
    + destruct Hin.
    + rewrite E1 in E1x. inversion E1x; subst w1x.
      destruct Hin as [<- | []]. exact Hp.
  - intros Hok Hng.
    destruct (run_process svc f fs storyboard config total_frames cb) as [[fr | e] w] eqn:Hrun;
      [ | discriminate].
    destruct (process_ok_generated svc f fs storyboard config total_frames cb fr w Hrun Hng)
      as (w1x & r & E1x & Hcalls & _).
    rewrite E1 in E1x. inversion E1x; subst w1x. exact Hcalls.
Qed.

Lemma C4_audio_duration_reaches_generator_witness :
  media_calls (trace (snd (run_process Samples.svc_ok Samples.frame_prompt [] Samples.board
                             Samples.config_i2v 1 (Some Samples.cb_quiet))))
  = [mkMediaParams (Some "a cat on a roof") (Some "video_I2V_sora.json") "video" 1024 1024 1
       (Some (41 # 5)) (Some "http://assets/source.png")].
Proof.
  exact (proj2 (proj2 (C4_audio_duration_reaches_generator Samples.svc_ok Samples.frame_prompt
                         [] Samples.board Samples.config_i2v 1 (Some Samples.cb_quiet)
                         _ (41 # 5) eq_refl eq_refl eq_refl eq_refl)) eq_refl eq_refl).
Defined.

(** C5. A generation result carries its own duration when that attribute
    holds a number other than 0.0 ([if media_result.duration]).  When a run
    returns and its generation call produced a video, the frame's duration
    is the duration the result carries, whatever the audio block had
    assigned; when the result carries none, it is what probing the
    downloaded video file gives. *)
Theorem C5_generated_video_duration (svc : Services) (f : StoryboardFrame)
    (fs : list string) (storyboard : Storyboard) (config : StoryboardConfig)
    (total_frames : Z) (cb : option Callback) (fr : StoryboardFrame) (w : World)
    (p : MediaParams) (r : MediaResult) :
  run_process svc f fs storyboard config total_frames cb = (Ok fr, w) ->
  In p (media_calls (trace w)) ->
  media svc p = Ok r ->
  is_video r = true ->
  let local_path := get_task_frame_path svc (task_id config) (index f) "video" in
  video_path fr = Some local_path /\
  (truthy_num (mr_duration r) = true -> duration fr = mr_duration r) /\
  (truthy_num (mr_duration r) = false ->
     duration fr = Some (probed_video_duration svc local_path)
     /\ _get_video_duration svc local_path w
        = (Ok (probed_video_duration svc local_path), w)).
Proof.
  intros Hrun Hin Hr Hv local_path.
  assert (Hng : is_not_none (image_prompt f) = true).
  { destruct (process_media_calls svc f fs storyboard config total_frames cb)
      as [G | (w1 & _ & Hng & _)]; [ | exact Hng].
    cbv zeta in G. rewrite Hrun in G. cbn [snd] in G. rewrite G in Hin. destruct Hin. }
  destruct (process_ok_generated svc f fs storyboard config total_frames cb fr w Hrun Hng)
    as (w1 & r' & E1 & Hcalls & Hr' & _ & _ & Hvid).
  rewrite Hcalls in Hin. destruct Hin as [<- | []].
  rewrite Hr in Hr'. inversion Hr'; subst r'.
  destruct (Hvid (is_video_not_image r Hv)) as (_ & Hpath & _ & Hdur).
  fold local_path in Hpath, Hdur.
  split; [exact Hpath | split]; intros Ht; rewrite Ht in Hdur.
  - exact Hdur.
  - split; [exact Hdur | ].
    unfold _get_video_duration, probed_video_duration.
    destruct (ffprobe_duration svc local_path); reflexivity.
Qed.

Lemma C5_generated_video_duration_witness :
  duration (frame (snd (run_process Samples.svc_video_5s Samples.frame_prompt [] Samples.board
                          Samples.config_i2v 1 (Some Samples.cb_quiet))))
  = Some (5 # 1).
Proof.
  pose (out := run_process Samples.svc_video_5s Samples.frame_prompt [] Samples.board
                 Samples.config_i2v 1 (Some Samples.cb_quiet)).
  assert (Hrun : out = (Ok (frame (snd out)), snd out)) by (vm_compute; reflexivity).
  assert (Hin : In (mkMediaParams (Some "a cat on a roof") (Some "video_I2V_sora.json") "video"
                      1024 1024 1 (Some (41 # 5)) (Some "http://assets/source.png"))
                  (media_calls (trace (snd out)))) by (vm_compute; left; reflexivity).
  exact (proj1 (proj2 (C5_generated_video_duration Samples.svc_video_5s Samples.frame_prompt []
                         Samples.board Samples.config_i2v 1 (Some Samples.cb_quiet)
                         (frame (snd out)) (snd out) _
                         (mkMediaResult "video" "http://gen/result" (Some (5 # 1)))
                         Hrun Hin eq_refl eq_refl)) eq_refl).
Defined.

(** ** A prompt on a frame that has media *)

(** C10. On a frame with an image prompt, the second block of the run is the
    generation step, whatever [image_path] and [video_path] hold on entry.
    When the run returns, the generation capability was called once, with
    the prompt; the frame carries the media type of the result, and the
    downloaded file as [image_path] for an image result and as [video_path]
    for a video result, in place of what was supplied. *)
Theorem C10_prompt_takes_precedence (svc : Services) (f : StoryboardFrame)
    (fs : list string) (storyboard : Storyboard) (config : StoryboardConfig)
    (total_frames : Z) (cb : option Callback) (q : string) :
  image_prompt f = Some q ->
  let num := index f + 1 in
  let ex := (is_not_none (image_path f) || is_not_none (video_path f))%bool in
  run_process svc f fs storyboard config total_frames cb
  = (call_step1 svc config total_frames cb num ;;
     (report cb (frame_step_event (1 # 4) num total_frames 2 "media") ;;
      _step_generate_media svc config) ;;
     call_step3 svc storyboard config total_frames cb num true ex ;;
     call_step4 svc config total_frames cb num true ex ;;
     get_frame)%monad (mkWorld f fs []) /\
  (forall fr w,
     run_process svc f fs storyboard config total_frames cb = (Ok fr, w) ->
     exists p r,
       media_calls (trace w) = [p] /\ mp_prompt p = Some q /\ media svc p = Ok r /\
       media_type fr = Some (mr_media_type r) /\
       (is_image r = true ->
          mr_media_type r = "image" /\
          image_path fr = Some (get_task_frame_path svc (task_id config) (index f) "image")) /\
       (is_video r = true ->
          mr_media_type r = "video" /\
          video_path fr = Some (get_task_frame_path svc (task_id config) (index f) "video"))).
Proof.
  intros Hq num ex. split.
  - unfold run_process, process. rewrite bind_run. cbn [get_frame frame].
    rewrite Hq. reflexivity.
  - intros fr w Hrun.
    assert (Hng : is_not_none (image_prompt f) = true) by (rewrite Hq; reflexivity).
    destruct (process_ok_generated svc f fs storyboard config total_frames cb fr w Hrun Hng)
      as (w1 & r & E1 & Hcalls & Hr & Hmt & Himg & Hvid).
    exists (build_media_params (frame w1) config), r.
    split; [exact Hcalls | split; [ | split; [exact Hr | split; [exact Hmt | split]]]].
    + pose proof (call_step1_keeps svc image_prompt config total_frames cb num
                    (fun _ _ => eq_refl) (fun _ _ => eq_refl) (mkWorld f fs [])) as K.
      fold num in E1. rewrite E1 in K. unfold keeps in K. cbn [snd frame] in K.
      cbn [build_media_params mp_prompt]. rewrite K. exact Hq.
    + intros Hi. split; [apply String.eqb_eq; exact Hi | apply (Himg Hi)].
    + intros Hv. split; [apply String.eqb_eq; exact Hv | ].
      apply (Hvid (is_video_not_image r Hv)).
Qed.

Lemma C10_prompt_takes_precedence_witness :
  exists p,
    media_calls (trace (snd (run_process Samples.svc_ok Samples.frame_prompt_and_image []
                               Samples.board Samples.config_plain 1 (Some Samples.cb_quiet))))
    = [p] /\ mp_prompt p = Some "a cat on a roof".
Proof.
  pose (out := run_process Samples.svc_ok Samples.frame_prompt_and_image [] Samples.board
                 Samples.config_plain 1 (Some Samples.cb_quiet)).
  assert (Hrun : out = (Ok (frame (snd out)), snd out)) by (vm_compute; reflexivity).
  destruct (proj2 (C10_prompt_takes_precedence Samples.svc_ok Samples.frame_prompt_and_image []
                     Samples.board Samples.config_plain 1 (Some Samples.cb_quiet)
                     "a cat on a roof" eq_refl) (frame (snd out)) (snd out) Hrun)
    as (p & r & Hcalls & Hp & _).
  exists p. split; [exact Hcalls | exact Hp].
Defined.

(** ** Frames that come with their image *)

Section ExistingImage.

Variable svc : Services.

Lemma report_adds (P : Event -> Prop) cb ev :
  (forall e, P (EvProgress e)) -> stable (adds_only P) (report cb ev).
Proof. intros HP. unfold report. stable_auto. Qed.

Ltac adds_explicit :=
  eexists; split; [rewrite <- ?app_assoc; cbn [app]; try reflexivity;
                   symmetry; apply app_nil_r | ].

(** Composition of a frame of image kind works from [image_path]. *)
Lemma step_compose_frame_image storyboard config p w :
  image_path (frame w) = Some p ->
  media_type (frame w) = Some "image" \/ media_type (frame w) = None ->
  adds_only (uses_image svc p) w (snd (_step_compose_frame svc storyboard config w)) /\
  (forall w', _step_compose_frame svc storyboard config w = (Ok tt, w') ->
     image_path (frame w') = Some p /\
     media_type (frame w') = media_type (frame w) /\
     (composed_image_path (frame w') = None
      \/ visual_from svc p (composed_image_path (frame w')))).
Proof.
  intros Hp Hkind.
  assert (Hv : opt_eqb (media_type (frame w)) "video" = false)
    by (destruct Hkind as [H | H]; rewrite H; reflexivity).
  unfold _step_compose_frame, _compose_frame_html. run_monad.
  destruct (frame_template config) as [t | ].
  - run_monad. destruct (resolve_template_path svc t) as [tp | e]; run_monad.
    + rewrite Hv, Hp.
      destruct (generate_frame svc tp (title storyboard) (narration (frame w)) (Some p) _ _)
        as [c | e] eqn:Eg; run_monad.
      * split.
        -- adds_explicit. constructor; [reflexivity | constructor].
        -- intros w' H. apply (f_equal snd) in H. cbn [snd] in H. subst w'. cbn [frame].
           repeat split; [exact Hp | ].
           right. right. do 6 eexists. split; [exact Eg | reflexivity].
      * split; [ | discriminate]. adds_explicit. constructor; [reflexivity | constructor].
    + split; [ | discriminate]. adds_explicit. constructor.
  - rewrite Hv. cbn [andb]. rewrite Hp.
    destruct (opt_eqb (media_type (frame w)) "image" && truthy_str (Some p))%bool; run_monad.
    + split; [adds_explicit; constructor | ].
      intros w' H. apply (f_equal snd) in H. cbn [snd] in H. subst w'. cbn [frame].
      repeat split; [exact Hp | ]. right. left. reflexivity.
    + split; [adds_explicit; constructor | ].
      intros w' H. apply (f_equal snd) in H. cbn [snd] in H. subst w'. cbn [frame].
      repeat split; [exact Hp | ]. left. reflexivity.
Qed.

Lemma visual_choice p composed :
  composed = None \/ visual_from svc p composed ->
  visual_from svc p (if truthy_str composed then composed else Some p).
Proof.
  intros [-> | H]; [left; reflexivity | ].
  destruct (truthy_str composed); [exact H | left; reflexivity].
Qed.

Lemma step_create_video_segment_image config p w :
  image_path (frame w) = Some p ->
  media_type (frame w) = Some "image" \/ media_type (frame w) = None ->
  composed_image_path (frame w) = None \/ visual_from svc p (composed_image_path (frame w)) ->
  adds_only (uses_image svc p) w (snd (_step_create_video_segment svc config w)) /\
  (forall w', _step_create_video_segment svc config w = (Ok tt, w') ->
     exists img a o fps d,
       In (EvCreateVideo img a o fps d) (trace w') /\ visual_from svc p img).
Proof.
  intros Hp Hkind Hc.
  destruct (image_segment_assembly_trace svc config w Hkind) as [Hno Hyes].
  rewrite Hp in Hno, Hyes.
  pose proof (visual_choice p _ Hc) as Hvis.
  destruct (truthy_str (if truthy_str (composed_image_path (frame w))
                        then composed_image_path (frame w) else Some p)) eqn:Et.
  - destruct (Hyes eq_refl) as (a & o & fps & d & Htr). split.
    + eexists. split; [exact Htr | ]. constructor; [exact Hvis | constructor].
    + intros w' E. rewrite E in Htr. cbn [snd] in Htr.
      do 5 eexists. split; [ | exact Hvis]. rewrite Htr. apply in_or_app. right. left.
      reflexivity.
  - destruct (Hno eq_refl) as [Hr Hw]. rewrite Hw. split.
    + reflexivity.
    + intros w' E. rewrite E in Hr. discriminate.
Qed.

(** The second block of a run on a frame that has media and no prompt
    does nothing. *)
Lemma call_step2_skips config total cb num w :
  call_step2 svc config total cb num false true w = (Ok tt, w).
Proof. reflexivity. Qed.

Lemma call_step3_image storyboard config total cb num ng ex p w :
  image_path (frame w) = Some p ->
  media_type (frame w) = Some "image" \/ media_type (frame w) = None ->
  adds_only (uses_image svc p) w
    (snd (call_step3 svc storyboard config total cb num ng ex w)) /\
  (forall w', call_step3 svc storyboard config total cb num ng ex w = (Ok tt, w') ->
     image_path (frame w') = Some p /\
     (media_type (frame w') = Some "image" \/ media_type (frame w') = None) /\
     (composed_image_path (frame w') = None
      \/ visual_from svc p (composed_image_path (frame w')))).
Proof.
  intros Hp Hkind. unfold call_step3. rewrite bind_run.
  pose proof (report_adds (uses_image svc p) cb
                (frame_step_event (if (ng || ex)%bool then 1 # 2 else 33 # 100) num total 3
                   "compose") (fun _ => I) w) as A.
  destruct (report cb _ w) as [[[] | e] w0] eqn:ER; cbn [snd] in *.
  - pose proof (report_frame _ _ _ _ _ ER) as Hf.
    destruct (step_compose_frame_image storyboard config p w0) as [B C];
      [rewrite Hf; exact Hp | rewrite Hf; exact Hkind | ].
    split; [etransitivity; eassumption | ].
    intros w' E. destruct (C w' E) as (C1 & C2 & C3). rewrite Hf in C2.
    rewrite C2. auto.
  - split; [exact A | discriminate].
Qed.

Lemma call_step4_image config total cb num ng ex p w :
  image_path (frame w) = Some p ->
  media_type (frame w) = Some "image" \/ media_type (frame w) = None ->
  composed_image_path (frame w) = None \/ visual_from svc p (composed_image_path (frame w)) ->
  adds_only (uses_image svc p) w (snd (call_step4 svc config total cb num ng ex w)) /\
  (forall w', call_step4 svc config total cb num ng ex w = (Ok tt, w') ->
     exists img a o fps d,
       In (EvCreateVideo img a o fps d) (trace w') /\ visual_from svc p img).
Proof.
  intros Hp Hkind Hc. unfold call_step4. rewrite bind_run.
  pose proof (report_adds (uses_image svc p) cb
                (frame_step_event (if (ng || ex)%bool then 3 # 4 else 67 # 100) num total 4
                   "video") (fun _ => I) w) as A.
  destruct (report cb _ w) as [[[] | e] w0] eqn:ER; cbn [snd] in *.
  - pose proof (report_frame _ _ _ _ _ ER) as Hf.
    destruct (step_create_video_segment_image config p w0) as [B C];
      [rewrite Hf; exact Hp | rewrite Hf; exact Hkind | rewrite Hf; exact Hc | ].
    split; [etransitivity; eassumption | exact C].
  - split; [exact A | discriminate].
Qed.

End ExistingImage.

(** ** Composition and assembly do not read the prompt *)

Section PromptBlind.

Variable svc : Services.

Ltac split_both :=
  repeat (run_monad; cbn [with_image_prompt index narration image_prompt audio_path duration
                          image_path video_path media_type composed_image_path
                          video_segment_path set_composed_image_path set_video_segment_path];
          match goal with
          | |- context [match ?x with _ => _ end] =>
              lazymatch x with
              | context [match _ with _ => _ end] => fail
              | _ => destruct x eqn:?
              end
          end);
  run_monad.

Lemma prompt_blind_bind {A B : Type} (m : M A) (k : A -> M B) :
  prompt_blind m -> (forall a, prompt_blind (k a)) -> prompt_blind (bind m k).
Proof.
  intros Hm Hk q w. rewrite !bind_run, Hm.
  destruct (m w) as [[a | e] w1]; cbn [fst snd]; [apply Hk | reflexivity].
Qed.

Lemma report_prompt_blind cb ev : prompt_blind (report cb ev).
Proof.
  intros q w. unfold report, carry_prompt. destruct cb as [k | ]; run_monad;
    [destruct (k ev) | ]; reflexivity.
Qed.

Lemma step_compose_frame_prompt_blind storyboard config :
  prompt_blind (_step_compose_frame svc storyboard config).
Proof.
  intros q [f fs tr].
  unfold _step_compose_frame, _compose_frame_html, carry_prompt.
  destruct f. split_both; reflexivity.
Qed.

Lemma step_create_video_segment_prompt_blind config :
  prompt_blind (_step_create_video_segment svc config).
Proof.
  intros q [f fs tr].
  unfold _step_create_video_segment, carry_prompt, temp_video_with_overlay.
  destruct f. split_both; reflexivity.
Qed.

(** Composition and assembly of a frame that has media, with their
    checkpoints: the same for a frame whose media was supplied and for a
    frame whose media was generated from a prompt. *)
Lemma compose_and_assemble_prompt_blind storyboard config total cb num ex q w :
  (call_step3 svc storyboard config total cb num true ex ;;
   call_step4 svc config total cb num true ex)%monad (carry_prompt q w)
  = (fst ((call_step3 svc storyboard config total cb num false true ;;
           call_step4 svc config total cb num false true)%monad w),
     carry_prompt q
       (snd ((call_step3 svc storyboard config total cb num false true ;;
              call_step4 svc config total cb num false true)%monad w))).
Proof.
  assert (H : prompt_blind
                (call_step3 svc storyboard config total cb num false true ;;
                 call_step4 svc config total cb num false true)%monad).
  { unfold call_step3, call_step4.
    repeat (apply prompt_blind_bind; [ | intros _]);
      auto using report_prompt_blind, step_compose_frame_prompt_blind,
                 step_create_video_segment_prompt_blind. }
  exact (H q w).
Qed.

End PromptBlind.

(** C6, as it is written, fails: a frame with [image_path] set and no image
    prompt whose media type is "video" is not assembled from that image.
    The run returns, and its one call is the copy of the frame's video clip
    to the segment path; the image is given to no call. *)
Lemma C6_video_frame_ignores_its_image :
  image_path Samples.frame_image_and_video = Some "assets/cat.png" /\
  image_prompt Samples.frame_image_and_video = None /\
  is_ok (fst (run_process Samples.svc_ok Samples.frame_image_and_video [] Samples.board
                Samples.config_plain 1 None)) = true /\
  trace (snd (run_process Samples.svc_ok Samples.frame_image_and_video [] Samples.board
                Samples.config_plain 1 None))
  = [EvCopy "assets/clip.mp4" "output/task1/0_segment"] /\
  ~ Forall (uses_image Samples.svc_ok "assets/cat.png")
      (trace (snd (run_process Samples.svc_ok Samples.frame_image_and_video [] Samples.board
                     Samples.config_plain 1 None))).
Proof.
  assert (Htr : trace (snd (run_process Samples.svc_ok Samples.frame_image_and_video []
                              Samples.board Samples.config_plain 1 None))
                = [EvCopy "assets/clip.mp4" "output/task1/0_segment"])
    by (vm_compute; reflexivity).
  split; [reflexivity | ]. split; [reflexivity | ].
  split; [vm_compute; reflexivity | ]. split; [exact Htr | ].
  rewrite Htr. intros H. inversion H as [ | ev tr Hev Htl]. exact Hev.
Qed.

(** C6, amended.  On a frame that comes with [image_path] set and without an
    image prompt, no run calls the generation capability, and the second
    block of the run leaves the world as it is.  Composition and assembly
    then run as they run after a generation: they do not read the prompt,
    so on the frame generation would have left (the same attributes, and a
    prompt) they return or raise the same and leave the same world.  When
    the frame's media type is "image", as generation would have set it, or
    unset, they work from that image and from nothing else: the composer,
    when called, is given it as the visual base; the renderer is given it
    or its composition; there is no download and no video operation; and a
    run that returns has called the renderer. *)
Theorem C6_existing_image_skips_generation (svc : Services) (f : StoryboardFrame)
    (fs : list string) (storyboard : Storyboard) (config : StoryboardConfig)
    (total_frames : Z) (cb : option Callback) (p : string) :
  image_path f = Some p ->
  image_prompt f = None ->
  let num := index f + 1 in
  let ng := is_not_none (image_prompt f) in
  let ex := (is_not_none (image_path f) || is_not_none (video_path f))%bool in
  let compose_and_assemble :=
    (call_step3 svc storyboard config total_frames cb num ng ex ;;
     call_step4 svc config total_frames cb num ng ex)%monad in
  media_calls (trace (snd (run_process svc f fs storyboard config total_frames cb))) = [] /\
  (forall w, call_step2 svc config total_frames cb num ng ex w = (Ok tt, w)) /\
  (forall q ex' w,
     (call_step3 svc storyboard config total_frames cb num true ex' ;;
      call_step4 svc config total_frames cb num true ex')%monad (carry_prompt (Some q) w)
     = (fst (compose_and_assemble w), carry_prompt (Some q) (snd (compose_and_assemble w)))) /\
  (media_type f = Some "image" \/ media_type f = None ->
   Forall (uses_image svc p)
     (trace (snd (run_process svc f fs storyboard config total_frames cb))) /\
   (is_ok (fst (run_process svc f fs storyboard config total_frames cb)) = true ->
    exists img a o fps d,
      In (EvCreateVideo img a o fps d)
        (trace (snd (run_process svc f fs storyboard config total_frames cb)))
      /\ visual_from svc p img)).
Proof.
  intros Hp Hq num ng ex compose_and_assemble.
  assert (Hng : ng = false) by (unfold ng; rewrite Hq; reflexivity).
  assert (Hex : ex = true) by (unfold ex; rewrite Hp; reflexivity).
  assert (Hskip : forall w, call_step2 svc config total_frames cb num ng ex w = (Ok tt, w)).
  { intros w. rewrite Hng, Hex. apply call_step2_skips. }
  assert (Hentry : forall w1,
            call_step1 svc config total_frames cb num (mkWorld f fs []) = (Ok tt, w1) ->
            image_path (frame w1) = Some p /\ media_type (frame w1) = media_type f).
  { intros w1 E1.
    pose proof (call_step1_keeps svc image_path config total_frames cb num
                  (fun _ _ => eq_refl) (fun _ _ => eq_refl) (mkWorld f fs [])) as K1.
    pose proof (call_step1_keeps svc media_type config total_frames cb num
                  (fun _ _ => eq_refl) (fun _ _ => eq_refl) (mkWorld f fs [])) as K2.
    rewrite E1 in K1, K2. unfold keeps in K1, K2. cbn [snd frame] in K1, K2.
    split; congruence. }
  split; [ | split; [exact Hskip | split]].
  - apply no_media_calls. apply process_trace_forall.
    + intros; reflexivity.
    + intros; reflexivity.
    + intros w1 _. fold num ng ex. rewrite Hskip. reflexivity.
    + intros w1 w2 _ _. apply call_step3_adds; intros; reflexivity.
    + intros w1 w2 w3 _ _ _. apply call_step4_adds; intros; reflexivity.
  - intros q ex' w. subst compose_and_assemble. rewrite Hng, Hex.
    apply compose_and_assemble_prompt_blind.
  - intros Hkind. split.
    + apply process_trace_forall.
      * intros; exact I.
      * intros; exact I.
      * intros w1 _. fold num ng ex. rewrite Hskip. reflexivity.
      * intros w1 w2 E1 E2. fold num ng ex in E1, E2 |- *.
        rewrite Hskip in E2. inversion E2; subst w2.
        destruct (Hentry w1 E1) as [H1 H2].
        apply (call_step3_image svc); [exact H1 | rewrite H2; exact Hkind].
      * intros w1 w2 w3 E1 E2 E3. fold num ng ex in E1, E2, E3 |- *.
        rewrite Hskip in E2. inversion E2; subst w2.
        destruct (Hentry w1 E1) as [H1 H2].
        destruct (call_step3_image svc storyboard config total_frames cb num ng ex p w1 H1)
          as [_ C]; [rewrite H2; exact Hkind | ].
        destruct (C w3 E3) as (C1 & C2 & C3).
        apply (call_step4_image svc); assumption.
    + intros Hok.
      destruct (run_process svc f fs storyboard config total_frames cb) as [[fr | e] w] eqn:Hrun;
        [ | discriminate].
      destruct (process_ok_inv svc f fs storyboard config total_frames cb fr w Hrun)
        as (w1 & w2 & w3 & E1 & E2 & E3 & E4 & _).
      cbv zeta in E1, E2, E3, E4. fold num ng ex in E1, E2, E3, E4.
      rewrite Hskip in E2. inversion E2; subst w2.
      destruct (Hentry w1 E1) as [H1 H2].
      destruct (call_step3_image svc storyboard config total_frames cb num ng ex p w1 H1)
        as [_ C]; [rewrite H2; exact Hkind | ].
      destruct (C w3 E3) as (C1 & C2 & C3).
      destruct (call_step4_image svc config total_frames cb num ng ex p w3 C1 C2 C3) as [_ D].
      cbn [snd]. exact (D w E4).
Qed.

Lemma C6_existing_image_skips_generation_witness :
  media_calls (trace (snd (run_process Samples.svc_ok Samples.frame_preset_image [] Samples.board
                             Samples.config_template 1 (Some Samples.cb_quiet)))) = []
  /\ Forall (uses_image Samples.svc_ok "assets/cat.png")
       (trace (snd (run_process Samples.svc_ok Samples.frame_preset_image [] Samples.board
                      Samples.config_template 1 (Some Samples.cb_quiet)))).
Proof.
  pose proof (C6_existing_image_skips_generation Samples.svc_ok Samples.frame_preset_image []
                Samples.board Samples.config_template 1 (Some Samples.cb_quiet)
                "assets/cat.png" eq_refl eq_refl) as (H1 & _ & _ & H3).
  split; [exact H1 | exact (proj1 (H3 (or_introl eq_refl)))].
Defined.

(** * Further properties of the processor *)

Section RunShape.

Variable svc : Services.

(** Every run goes through the four blocks in order and stops at the first
    one that raises. *)
Lemma process_run_inv f fs storyboard config total cb :
  let num := index f + 1 in
  let ex := (is_not_none (image_path f) || is_not_none (video_path f))%bool in
  let ng := is_not_none (image_prompt f) in
  let out := run_process svc f fs storyboard config total cb in
  exists r1 w1,
    call_step1 svc config total cb num (mkWorld f fs []) = (r1, w1) /\
    match r1 with
    | Raise e => out = (Raise e, w1)
    | Ok _ =>
      exists r2 w2,
        call_step2 svc config total cb num ng ex w1 = (r2, w2) /\
        match r2 with
        | Raise e => out = (Raise e, w2)
        | Ok _ =>
          exists r3 w3,
            call_step3 svc storyboard config total cb num ng ex w2 = (r3, w3) /\
            match r3 with
            | Raise e => out = (Raise e, w3)
            | Ok _ =>
              exists r4 w4,
                call_step4 svc config total cb num ng ex w3 = (r4, w4) /\
                match r4 with
                | Raise e => out = (Raise e, w4)
                | Ok _ => out = (Ok (frame w4), w4)
                end
            end
        end
    end.
Proof.
  cbv zeta. unfold run_process, process. rewrite bind_run. cbn [get_frame frame].
  rewrite bind_run.
  destruct (call_step1 svc config total cb _ _) as [[[] | e1] w1];
    do 2 eexists; (split; [reflexivity | ]); [ | reflexivity].
  rewrite bind_run.
  destruct (call_step2 svc config total cb _ _ _ w1) as [[[] | e2] w2];
    do 2 eexists; (split; [reflexivity | ]); [ | reflexivity].
  rewrite bind_run.
  destruct (call_step3 svc storyboard config total cb _ _ _ w2) as [[[] | e3] w3];
    do 2 eexists; (split; [reflexivity | ]); [ | reflexivity].
  rewrite bind_run.
  destruct (call_step4 svc config total cb _ _ _ w3) as [[[] | e4] w4];
    do 2 eexists; (split; [reflexivity | ]); reflexivity.
Qed.

(** A relation that every block of [__call__] respects holds between the
    world a run starts from and the world it leaves. *)
Lemma process_stable (R : World -> World -> Prop) {HR : PreOrder R}
    storyboard config total cb :
  (forall num, stable R (call_step1 svc config total cb num)) ->
  (forall num ng ex, stable R (call_step2 svc config total cb num ng ex)) ->
  (forall num ng ex, stable R (call_step3 svc storyboard config total cb num ng ex)) ->
  (forall num ng ex, stable R (call_step4 svc config total cb num ng ex)) ->
  stable R (process svc storyboard config total cb).
Proof.
  intros H1 H2 H3 H4. unfold process.
  apply stable_bind; [exact HR | apply stable_get_frame; exact HR | intros f].
  cbv zeta.
  apply stable_bind; [exact HR | apply H1 | intros _].
  apply stable_bind; [exact HR | apply H2 | intros _].
  apply stable_bind; [exact HR | apply H3 | intros _].
  apply stable_bind; [exact HR | apply H4 | intros _].
  apply stable_get_frame; exact HR.
Qed.

End RunShape.

(** X1. Whatever a run does, and whether it returns or raises, it leaves
    the frame's index, narration and image prompt as they were. *)
Theorem run_keeps_frame_identity (svc : Services) (f : StoryboardFrame) (fs : list string)
    (storyboard : Storyboard) (config : StoryboardConfig) (total_frames : Z)
    (cb : option Callback) :
  let f' := frame (snd (run_process svc f fs storyboard config total_frames cb)) in
  index f' = index f /\ narration f' = narration f /\ image_prompt f' = image_prompt f.
Proof.
  assert (K : forall (B : Type) (proj : StoryboardFrame -> B),
            (forall v g, proj (set_audio_path v g) = proj g) ->
            (forall v g, proj (set_duration v g) = proj g) ->
            (forall v g, proj (set_media_type v g) = proj g) ->
            (forall v g, proj (set_image_path v g) = proj g) ->
            (forall v g, proj (set_video_path v g) = proj g) ->
            (forall v g, proj (set_composed_image_path v g) = proj g) ->
            (forall v g, proj (set_video_segment_path v g) = proj g) ->
            proj (frame (snd (run_process svc f fs storyboard config total_frames cb)))
            = proj f).
  { intros B proj A1 A2 A3 A4 A5 A6 A7.
    apply (process_stable svc (keeps proj) storyboard config total_frames cb).
    - intros. apply call_step1_keeps; assumption.
    - intros. apply call_step2_keeps; assumption.
    - intros. apply call_step3_keeps; assumption.
    - intros. apply call_step4_keeps; assumption. }
  cbv zeta. repeat split; apply K; reflexivity.
Qed.

(** ** The segment path *)

Section SegmentPath.

Variable svc : Services.

(** Assembly assigns nothing but [video_segment_path], and only when it
    returns: then to the path its merge, copy or render call produced. *)
Lemma step_create_video_segment_outcome config w :
  let r := _step_create_video_segment svc config w in
  match fst r with
  | Raise _ => frame (snd r) = frame w
  | Ok _ =>
      exists p ev,
        frame (snd r) = set_video_segment_path (Some p) (frame w) /\
        In ev (trace (snd r)) /\ segment_made_by svc p ev
  end.
Proof.
  cbv zeta. unfold _step_create_video_segment. run_monad.
  destruct (opt_eqb (media_type (frame w)) "video").
  - destruct (is_not_none (composed_image_path (frame w))); run_monad.
    + destruct (overlay_image_on_video svc _ _ _ _) as [[] | e]; run_monad; [ | reflexivity].
      destruct (truthy_str (audio_path (frame w))); run_monad.
      * destruct (merge_audio_video svc _ _ _ _ _) as [p | e] eqn:E; run_monad;
          [ | reflexivity].
        destruct (file_exists _ _); run_monad; exists p; eapply (ex_intro _ (EvMerge _ _ _ _ _));
          (split; [reflexivity | split; [ | exact E]]);
          rewrite ?in_app_iff; cbn [In]; tauto.
      * destruct (copy2 svc _ _) as [[] | e] eqn:E; run_monad; [ | reflexivity].
        destruct (file_exists _ _); run_monad; eexists; eapply (ex_intro _ (EvCopy _ _));
          (split; [reflexivity | split; [ | split; [exact E | reflexivity]]]);
          rewrite ?in_app_iff; cbn [In]; tauto.
    + destruct (video_path (frame w)) as [[ | c v] | ]; run_monad; try reflexivity.
      destruct (truthy_str (audio_path (frame w))); run_monad.
      * destruct (merge_audio_video svc _ _ _ _ _) as [p | e] eqn:E; run_monad;
          [ | reflexivity].
        exists p; eapply (ex_intro _ (EvMerge _ _ _ _ _)); (split; [reflexivity | split; [ | exact E]]).
        rewrite ?in_app_iff; cbn [In]; tauto.
      * destruct (copy2 svc _ _) as [[] | e] eqn:E; run_monad; [ | reflexivity].
        eexists; eapply (ex_intro _ (EvCopy _ _));
          (split; [reflexivity | split; [ | split; [exact E | reflexivity]]]).
        rewrite ?in_app_iff; cbn [In]; tauto.
  - destruct (opt_eqb (media_type (frame w)) "image"
              || negb (is_not_none (media_type (frame w))))%bool; run_monad; [ | reflexivity].
    destruct (negb (truthy_str _)); run_monad; [reflexivity | ].
    destruct (truthy_str (audio_path (frame w))); run_monad;
      destruct (create_video_from_image svc _ _ _ _ _) as [p | e] eqn:E; run_monad;
      try reflexivity;
      exists p; eapply (ex_intro _ (EvCreateVideo _ _ _ _ _)); (split; [reflexivity | split; [ | exact E]]);
      rewrite ?in_app_iff; cbn [In]; tauto.
Qed.

Lemma call_step4_outcome config total cb num ng ex w :
  let r := call_step4 svc config total cb num ng ex w in
  match fst r with
  | Raise _ => frame (snd r) = frame w
  | Ok _ =>
      exists p ev,
        frame (snd r) = set_video_segment_path (Some p) (frame w) /\
        In ev (trace (snd r)) /\ segment_made_by svc p ev
  end.
Proof.
  cbv zeta. unfold call_step4. rewrite bind_run.
  destruct (report cb _ w) as [[[] | e] w'] eqn:ER; pose proof (report_frame _ _ _ _ _ ER) as Hf.
  - pose proof (step_create_video_segment_outcome config w') as H. cbv zeta in H.
    rewrite Hf in H. exact H.
  - exact Hf.
Qed.

End SegmentPath.

(** X2. A run that raises leaves [video_segment_path] as it found it: the
    attribute is assigned on the last line of assembly and nowhere else. *)
Theorem failed_run_keeps_segment_path (svc : Services) (f : StoryboardFrame)
    (fs : list string) (storyboard : Storyboard) (config : StoryboardConfig)
    (total_frames : Z) (cb : option Callback) (e : exn) :
  fst (run_process svc f fs storyboard config total_frames cb) = Raise e ->
  video_segment_path (frame (snd (run_process svc f fs storyboard config total_frames cb)))
  = video_segment_path f.
Proof.
  intros Hraise.
  destruct (process_run_inv svc f fs storyboard config total_frames cb) as (r1 & w1 & E1 & H1).
  cbv zeta in *.
  pose proof (call_step1_keeps svc video_segment_path config total_frames cb (index f + 1)
                (fun _ _ => eq_refl) (fun _ _ => eq_refl) (mkWorld f fs [])) as K1.
  rewrite E1 in K1. unfold keeps in K1. cbn [snd frame] in K1.
  destruct r1 as [[] | e1]; [ | rewrite H1; exact K1].
  destruct H1 as (r2 & w2 & E2 & H2).
  pose proof (call_step2_keeps svc video_segment_path config total_frames cb (index f + 1)
                (is_not_none (image_prompt f))
                (is_not_none (image_path f) || is_not_none (video_path f))%bool
                (fun _ _ => eq_refl) (fun _ _ => eq_refl) (fun _ _ => eq_refl)
                (fun _ _ => eq_refl) w1) as K2.
  rewrite E2 in K2. unfold keeps in K2. cbn [snd] in K2.
  destruct r2 as [[] | e2]; [ | rewrite H2; cbn [snd]; congruence].
  destruct H2 as (r3 & w3 & E3 & H3).
  pose proof (call_step3_keeps svc video_segment_path storyboard config total_frames cb
                (index f + 1) (is_not_none (image_prompt f))
                (is_not_none (image_path f) || is_not_none (video_path f))%bool
                (fun _ _ => eq_refl) w2) as K3.
  rewrite E3 in K3. unfold keeps in K3. cbn [snd] in K3.
  destruct r3 as [[] | e3]; [ | rewrite H3; cbn [snd]; congruence].
  destruct H3 as (r4 & w4 & E4 & H4).
  pose proof (call_step4_outcome svc config total_frames cb (index f + 1)
                (is_not_none (image_prompt f))
                (is_not_none (image_path f) || is_not_none (video_path f))%bool w3) as K4.
  cbv zeta in K4. rewrite E4 in K4. cbn [fst snd] in K4.
  destruct r4 as [[] | e4]; rewrite H4 in Hraise |- *; [discriminate | ].
  cbn [snd]. congruence.
Qed.

(** X3. A run that returns has set [video_segment_path]: to the path that a
    merge, a copy or a render of this run produced. *)
Theorem returned_run_has_segment (svc : Services) (f : StoryboardFrame)
    (fs : list string) (storyboard : Storyboard) (config : StoryboardConfig)
    (total_frames : Z) (cb : option Callback) (fr : StoryboardFrame) (w : World) :
  run_process svc f fs storyboard config total_frames cb = (Ok fr, w) ->
  fr = frame w /\
  exists p ev,
    video_segment_path fr = Some p /\ In ev (trace w) /\ segment_made_by svc p ev.
Proof.
  intros Hrun.
  destruct (process_ok_inv svc f fs storyboard config total_frames cb fr w Hrun)
    as (w1 & w2 & w3 & _ & _ & _ & E4 & ->).
  split; [reflexivity | ].
  pose proof (call_step4_outcome svc config total_frames cb (index f + 1)
                (is_not_none (image_prompt f))
                (is_not_none (image_path f) || is_not_none (video_path f))%bool w3) as K4.
  cbv zeta in K4, E4. rewrite E4 in K4. cbn [fst snd] in K4.
  destruct K4 as (p & ev & Hf & Hin & Hmade).
  exists p, ev. rewrite Hf. repeat split; assumption.
Qed.

Lemma failed_run_keeps_segment_path_witness :
  video_segment_path
    (frame (snd (run_process Samples.svc_ok Samples.frame_bare [] Samples.board
                   Samples.config_plain 1 None)))
  = None.
Proof.
  exact (failed_run_keeps_segment_path Samples.svc_ok Samples.frame_bare [] Samples.board
           Samples.config_plain 1 None _ eq_refl).
Defined.

Lemma returned_run_has_segment_witness :
  exists p ev,
    video_segment_path
      (frame (snd (run_process Samples.svc_ok Samples.frame_preset_image [] Samples.board
                     Samples.config_plain 1 None))) = Some p
    /\ In ev (trace (snd (run_process Samples.svc_ok Samples.frame_preset_image []
                            Samples.board Samples.config_plain 1 None)))
    /\ segment_made_by Samples.svc_ok p ev.
Proof.
  pose (out := run_process Samples.svc_ok Samples.frame_preset_image [] Samples.board
                 Samples.config_plain 1 None).
  assert (Hrun : out = (Ok (frame (snd out)), snd out)) by (vm_compute; reflexivity).
  exact (proj2 (returned_run_has_segment Samples.svc_ok Samples.frame_preset_image []
                  Samples.board Samples.config_plain 1 None (frame (snd out)) (snd out) Hrun)).
Defined.

(** ** The order of the external calls *)

Section CallOrder.

Variable svc : Services.

Lemma call_step1_phase config total cb num :
  stable (adds_only (in_phase 1)) (call_step1 svc config total cb num).
Proof.
  unfold call_step1, report. stable_auto. all: try reflexivity.
  all: apply step_generate_audio_adds; reflexivity.
Qed.

Lemma call_step2_phase config total cb num ng ex :
  stable (adds_only (in_phase 2)) (call_step2 svc config total cb num ng ex).
Proof.
  unfold call_step2, report. stable_auto. all: try reflexivity.
  all: apply step_generate_media_adds; reflexivity.
Qed.

Lemma call_step3_phase storyboard config total cb num ng ex :
  stable (adds_only (in_phase 3)) (call_step3 svc storyboard config total cb num ng ex).
Proof.
  unfold call_step3, report. stable_auto. all: try reflexivity.
  all: apply step_compose_frame_adds; reflexivity.
Qed.

Lemma call_step4_phase config total cb num ng ex :
  stable (adds_only (in_phase 4)) (call_step4 svc config total cb num ng ex).
Proof.
  unfold call_step4, report. stable_auto. all: try reflexivity.
  all: apply step_create_video_segment_adds; reflexivity.
Qed.

Lemma constant_phase_sorted n evs :
  Forall (in_phase n) evs -> StronglySorted Z.le (map phase evs).
Proof.
  induction 1 as [ | ev evs Hev Hall IH]; cbn [map]; constructor; [exact IH | ].
  apply Forall_map. eapply Forall_impl; [ | exact Hall].
  intros ev' Hev'. unfold in_phase in *. lia.
Qed.

Lemma phases_sorted_app n m l r :
  n <= m ->
  StronglySorted Z.le (map phase l) -> Forall (fun ev => phase ev <= n) l ->
  StronglySorted Z.le (map phase r) -> Forall (fun ev => m <= phase ev) r ->
  StronglySorted Z.le (map phase (l ++ r)).
Proof.
  intros Hnm Hl Bl Hr Br. induction l as [ | a l IH]; cbn [app map] in *; [exact Hr | ].
  apply StronglySorted_inv in Hl. destruct Hl as [Hs Ha].
  apply Forall_cons_iff in Bl. destruct Bl as [Ba Bl].
  constructor; [apply IH; assumption | ].
  rewrite map_app. apply Forall_app. split; [exact Ha | ].
  apply Forall_map. eapply Forall_impl; [ | exact Br]. intros ev Hev. cbn beta in *. lia.
Qed.

(** The trace of a run up to a block, and what the block adds. *)
Lemma extend_sorted n m w w' :
  n <= m ->
  StronglySorted Z.le (map phase (trace w)) ->
  Forall (fun ev => phase ev <= n) (trace w) ->
  adds_only (in_phase m) w w' ->
  StronglySorted Z.le (map phase (trace w')) /\
  Forall (fun ev => phase ev <= m) (trace w').
Proof.
  intros Hnm Hs Hb [evs [Htr Hall]]. rewrite Htr. split.
  - apply (phases_sorted_app n m); [exact Hnm | exact Hs | exact Hb | | ].
    + exact (constant_phase_sorted _ _ Hall).
    + eapply Forall_impl; [ | exact Hall]. intros ev Hev. unfold in_phase in Hev. lia.
  - apply Forall_app. split.
    + eapply Forall_impl; [ | exact Hb]. intros ev Hev. cbn beta in *. lia.
    + eapply Forall_impl; [ | exact Hall]. intros ev Hev. unfold in_phase in Hev. lia.
Qed.

End CallOrder.

(** X4. The external calls of a run happen in step order: in the trace, the
    TTS call and its checkpoint come before the generation call and the
    download, those before the composer call, and that before the calls of
    assembly.  This holds for runs that raise as well. *)
Theorem run_calls_in_step_order (svc : Services) (f : StoryboardFrame) (fs : list string)
    (storyboard : Storyboard) (config : StoryboardConfig) (total_frames : Z)
    (cb : option Callback) :
  StronglySorted Z.le
    (map phase (trace (snd (run_process svc f fs storyboard config total_frames cb)))).
Proof.
  destruct (process_run_inv svc f fs storyboard config total_frames cb) as (r1 & w1 & E1 & H1).
  cbv zeta in *.
  pose proof (call_step1_phase svc config total_frames cb (index f + 1) (mkWorld f fs [])) as A1.
  rewrite E1 in A1. cbn [snd] in A1.
  destruct (extend_sorted 0 1 (mkWorld f fs []) w1 ltac:(lia) (SSorted_nil _) (Forall_nil _) A1)
    as [S1 B1].
  destruct r1 as [[] | e1]; [ | rewrite H1; exact S1].
  destruct H1 as (r2 & w2 & E2 & H2).
  pose proof (call_step2_phase svc config total_frames cb (index f + 1)
                (is_not_none (image_prompt f))
                (is_not_none (image_path f) || is_not_none (video_path f))%bool w1) as A2.
  rewrite E2 in A2. cbn [snd] in A2.
  destruct (extend_sorted 1 2 _ _ ltac:(lia) S1 B1 A2) as [S2 B2].
  destruct r2 as [[] | e2]; [ | rewrite H2; exact S2].
  destruct H2 as (r3 & w3 & E3 & H3).
  pose proof (call_step3_phase svc storyboard config total_frames cb (index f + 1)
                (is_not_none (image_prompt f))
                (is_not_none (image_path f) || is_not_none (video_path f))%bool w2) as A3.
  rewrite E3 in A3. cbn [snd] in A3.
  destruct (extend_sorted 2 3 _ _ ltac:(lia) S2 B2 A3) as [S3 B3].
  destruct r3 as [[] | e3]; [ | rewrite H3; exact S3].
  destruct H3 as (r4 & w4 & E4 & H4).
  pose proof (call_step4_phase svc config total_frames cb (index f + 1)
                (is_not_none (image_prompt f))
                (is_not_none (image_path f) || is_not_none (video_path f))%bool w3) as A4.
  rewrite E4 in A4. cbn [snd] in A4.
  destruct (extend_sorted 3 4 _ _ ltac:(lia) S3 B3 A4) as [S4 B4].
  destruct r4 as [[] | e4]; rewrite H4; exact S4.
Qed.

(** ** Narration audio *)

Section Audio.

Variable svc : Services.

Lemma tts_calls_app tr1 tr2 : tts_calls (tr1 ++ tr2) = (tts_calls tr1 ++ tts_calls tr2)%list.
Proof. apply flat_map_app. Qed.

Lemma no_tts_calls tr : Forall not_tts_call tr -> tts_calls tr = [].
Proof.
  induction 1 as [ | ev tr Hev _ IH]; [reflexivity | ].
  destruct ev; try contradiction; exact IH.
Qed.

Lemma adds_only_no_tts w w' :
  adds_only not_tts_call w w' -> tts_calls (trace w') = tts_calls (trace w).
Proof.
  intros [evs [Htr Hall]]. rewrite Htr, tts_calls_app, (no_tts_calls evs Hall).
  apply app_nil_r.
Qed.

(** What follows the audio block makes no TTS call and does not assign
    [audio_path]. *)
Lemma after_audio_no_tts storyboard config total cb num ng ex :
  stable (adds_only not_tts_call)
    (call_step2 svc config total cb num ng ex ;;
     call_step3 svc storyboard config total cb num ng ex ;;
     call_step4 svc config total cb num ng ex ;;
     get_frame)%monad.
Proof.
  apply stable_bind; [typeclasses eauto | | intros _].
  - apply call_step2_adds; intros; exact I.
  - apply stable_bind; [typeclasses eauto | | intros _].
    + apply call_step3_adds; intros; exact I.
    + apply stable_bind; [typeclasses eauto | | intros _].
      * apply call_step4_adds; intros; exact I.
      * apply stable_get_frame. typeclasses eauto.
Qed.

Lemma after_audio_keeps_audio_path storyboard config total cb num ng ex :
  stable (keeps audio_path)
    (call_step2 svc config total cb num ng ex ;;
     call_step3 svc storyboard config total cb num ng ex ;;
     call_step4 svc config total cb num ng ex ;;
     get_frame)%monad.
Proof.
  apply stable_bind; [typeclasses eauto | | intros _].
  - apply call_step2_keeps; intros; reflexivity.
  - apply stable_bind; [typeclasses eauto | | intros _].
    + apply call_step3_keeps; intros; reflexivity.
    + apply stable_bind; [typeclasses eauto | | intros _].
      * apply call_step4_keeps; intros; reflexivity.
      * apply stable_get_frame. typeclasses eauto.
Qed.

(** A run is its audio block followed by the rest. *)
Lemma process_after_audio f fs storyboard config total cb :
  let num := index f + 1 in
  let ex := (is_not_none (image_path f) || is_not_none (video_path f))%bool in
  let ng := is_not_none (image_prompt f) in
  run_process svc f fs storyboard config total cb
  = (call_step1 svc config total cb num ;;
     (call_step2 svc config total cb num ng ex ;;
      call_step3 svc storyboard config total cb num ng ex ;;
      call_step4 svc config total cb num ng ex ;;
      get_frame))%monad (mkWorld f fs []).
Proof. reflexivity. Qed.

(** The audio block when TTS is to run and the callback returns. *)
Lemma call_step1_synthesises config total cb num w :
  truthy_str (audio_path (frame w)) = false ->
  truthy_str (tts_inference_mode config) = true ->
  returns_on cb (frame_step_event 0 num total 1 "audio") ->
  let f := frame w in
  let p := build_tts_params f config
             (get_task_frame_path svc (task_id config) (index f) "audio") in
  let tr := (trace w ++ reported cb (frame_step_event 0 num total 1 "audio")
             ++ [EvTts p])%list in
  call_step1 svc config total cb num w
  = match tts svc p with
    | Raise e => (Raise e, mkWorld f (files w) tr)
    | Ok a =>
        match ffprobe_duration svc a with
        | Some d =>
            (Ok tt, mkWorld (set_duration (Some d) (set_audio_path (Some a) f))
                      (a :: files w) tr)
        | None =>
            match getsize svc a with
            | Ok n =>
                (Ok tt,
                 mkWorld (set_duration (Some (py_max 1 ((n # 1) / (2000 # 1))))
                            (set_audio_path (Some a) f))
                   (a :: files w) tr)
            | Raise e =>
                (Raise e, mkWorld (set_audio_path (Some a) f) (a :: files w) tr)
            end
        end
    end.
Proof.
  intros Ha Hm Hcb f p tr. subst tr p f.
  unfold call_step1, _step_generate_audio, _get_audio_duration, report, reported.
  run_monad. rewrite Ha, Hm. cbn [negb andb].
  destruct cb as [k | ]; run_monad.
  - cbn [returns_on] in Hcb. rewrite Hcb. run_monad. rewrite <- app_assoc. cbn [app].
    destruct (tts svc _) as [a | e]; run_monad; [ | reflexivity].
    destruct (ffprobe_duration svc a); run_monad; [reflexivity | ].
    destruct (getsize svc a); reflexivity.
  - cbn [app].
    destruct (tts svc _) as [a | e]; run_monad; [ | reflexivity].
    destruct (ffprobe_duration svc a); run_monad; [reflexivity | ].
    destruct (getsize svc a); reflexivity.
Qed.

(** The audio block when TTS is to run and the callback raises. *)
Lemma call_step1_callback_raises config total k num w e :
  truthy_str (audio_path (frame w)) = false ->
  truthy_str (tts_inference_mode config) = true ->
  k (frame_step_event 0 num total 1 "audio") = Some e ->
  call_step1 svc config total (Some k) num w
  = (Raise e, mkWorld (frame w) (files w)
                (trace w ++ [EvProgress (frame_step_event 0 num total 1 "audio")])).
Proof.
  intros Ha Hm Hk. unfold call_step1, report. run_monad. rewrite Ha, Hm. cbn [negb andb].
  run_monad. rewrite Hk. reflexivity.
Qed.

(** The audio block when there is audio already, or no TTS mode. *)
Lemma call_step1_skips config total cb num w :
  truthy_str (audio_path (frame w)) = true \/ truthy_str (tts_inference_mode config) = false ->
  call_step1 svc config total cb num w = (Ok tt, w).
Proof.
  intros H. unfold call_step1. run_monad.
  destruct H as [H | H]; rewrite H; cbn [negb andb]; [reflexivity | ].
  rewrite andb_false_r. reflexivity.
Qed.

Lemma returns_on_dec cb ev : returns_on cb ev \/ exists k e, cb = Some k /\ k ev = Some e.
Proof.
  destruct cb as [k | ]; cbn [returns_on]; [ | left; exact I].
  destruct (k ev) as [e | ] eqn:E; [right; eauto | left; reflexivity].
Qed.

End Audio.

(** X5. When the frame comes with its audio, or no TTS mode is configured,
    the audio block does nothing: no run calls the TTS capability, and the
    frame's [audio_path] is at the end what it was on entry. *)
Theorem run_without_synthesis (svc : Services) (f : StoryboardFrame) (fs : list string)
    (storyboard : Storyboard) (config : StoryboardConfig) (total_frames : Z)
    (cb : option Callback) :
  truthy_str (audio_path f) = true \/ truthy_str (tts_inference_mode config) = false ->
  call_step1 svc config total_frames cb (index f + 1) (mkWorld f fs []) = (Ok tt, mkWorld f fs [])
  /\ tts_calls (trace (snd (run_process svc f fs storyboard config total_frames cb))) = []
  /\ audio_path (frame (snd (run_process svc f fs storyboard config total_frames cb)))
     = audio_path f.
Proof.
  intros H.
  pose proof (call_step1_skips svc config total_frames cb (index f + 1) (mkWorld f fs []) H)
    as E1.
  split; [exact E1 | ].
  rewrite process_after_audio. cbv zeta. rewrite bind_run, E1. split.
  - apply (adds_only_no_tts (mkWorld f fs [])), after_audio_no_tts.
  - apply (after_audio_keeps_audio_path svc storyboard config total_frames cb _ _ _
             (mkWorld f fs [])).
Qed.

Lemma run_without_synthesis_witness :
  tts_calls (trace (snd (run_process Samples.svc_ok Samples.frame_preset_image_audio []
                           Samples.board Samples.config_i2v 1 (Some Samples.cb_quiet)))) = [].
Proof.
  exact (proj1 (proj2 (run_without_synthesis Samples.svc_ok Samples.frame_preset_image_audio []
                         Samples.board Samples.config_i2v 1 (Some Samples.cb_quiet)
                         (or_introl eq_refl)))).
Defined.

(** X6. When the frame has no audio and a TTS mode is configured, a run
    calls the TTS capability at most once, and exactly once when the
    callback returns on the first checkpoint.  The call carries the
    narration, the 1-based frame index and the audio path of the frame; in
    "local" mode it never carries a workflow or a reference audio, whatever
    the config holds, and a voice is passed only when it is not empty. *)
Theorem tts_call_shape (svc : Services) (f : StoryboardFrame) (fs : list string)
    (storyboard : Storyboard) (config : StoryboardConfig) (total_frames : Z)
    (cb : option Callback) :
  truthy_str (audio_path f) = false ->
  truthy_str (tts_inference_mode config) = true ->
  let p := build_tts_params f config
             (get_task_frame_path svc (task_id config) (index f) "audio") in
  let calls := tts_calls (trace (snd (run_process svc f fs storyboard config total_frames cb))) in
  (calls = [] \/ calls = [p]) /\
  (returns_on cb (frame_step_event 0 (index f + 1) total_frames 1 "audio") -> calls = [p]) /\
  tp_text p = narration f /\
  tp_index p = index f + 1 /\
  tp_output_path p = get_task_frame_path svc (task_id config) (index f) "audio" /\
  tp_inference_mode p = tts_inference_mode config /\
  tp_speed p = tts_speed config /\
  tp_voice p = (if truthy_str (voice_id config) then voice_id config else None) /\
  (tts_inference_mode config = Some "local" -> tp_workflow p = None /\ tp_ref_audio p = None).
Proof.
  intros Ha Hm p calls.
  assert (Hret : returns_on cb (frame_step_event 0 (index f + 1) total_frames 1 "audio") ->
                 calls = [p]).
  { intros Hcb. subst calls. rewrite process_after_audio. cbv zeta. rewrite bind_run.
    rewrite (call_step1_synthesises svc config total_frames cb (index f + 1)
               (mkWorld f fs []) Ha Hm Hcb).
    cbn [frame files trace app]. fold p.
    assert (T : tts_calls (reported cb (frame_step_event 0 (index f + 1) total_frames 1 "audio")
                           ++ [EvTts p]) = [p]).
    { destruct cb; reflexivity. }
    destruct (tts svc p) as [a | e]; [ | cbn [snd trace]; exact T].
    destruct (ffprobe_duration svc a) as [d | ];
      [ | destruct (getsize svc a) as [n | e]; [ | cbn [snd trace]; exact T]].
    all: match goal with
         | |- tts_calls (trace (snd (?m ?w))) = _ =>
             rewrite (adds_only_no_tts w _ (after_audio_no_tts svc storyboard config
                        total_frames cb _ _ _ w))
         end; cbn [trace]; exact T. }
  split; [ | split; [exact Hret | ]].
  - destruct (returns_on_dec cb (frame_step_event 0 (index f + 1) total_frames 1 "audio"))
      as [Hcb | (k & e & -> & Hk)]; [right; exact (Hret Hcb) | left].
    subst calls. rewrite process_after_audio. cbv zeta. rewrite bind_run.
    rewrite (call_step1_callback_raises svc config total_frames k (index f + 1)
               (mkWorld f fs []) e Ha Hm Hk).
    reflexivity.
  - subst p. unfold build_tts_params.
    destruct (opt_eqb (tts_inference_mode config) "local") eqn:El;
      cbn [tp_text tp_index tp_output_path tp_inference_mode tp_speed tp_voice tp_workflow
           tp_ref_audio];
      do 6 (split; [reflexivity | ]); intros Hl;
      first [split; reflexivity | rewrite Hl in El; discriminate].
Qed.

Lemma tts_call_shape_witness :
  tts_calls (trace (snd (run_process Samples.svc_ok Samples.frame_prompt [] Samples.board
                           Samples.config_i2v 1 (Some Samples.cb_quiet))))
  = [mkTtsParams "Hello world" (Some "local") "output/task1/0_audio" 1 None None None None].
Proof.
  exact (proj1 (proj2 (tts_call_shape Samples.svc_ok Samples.frame_prompt [] Samples.board
                         Samples.config_i2v 1 (Some Samples.cb_quiet) eq_refl eq_refl))
           eq_refl).
Defined.

(** X7. When TTS fails, the run fails with the exception of the TTS
    capability and nothing else has happened: the frame and the disk are as
    they were, and the trace holds the first checkpoint and the TTS call. *)
Theorem tts_failure_aborts_run (svc : Services) (f : StoryboardFrame) (fs : list string)
    (storyboard : Storyboard) (config : StoryboardConfig) (total_frames : Z)
    (cb : option Callback) (e : exn) :
  truthy_str (audio_path f) = false ->
  truthy_str (tts_inference_mode config) = true ->
  returns_on cb (frame_step_event 0 (index f + 1) total_frames 1 "audio") ->
  tts svc (build_tts_params f config
             (get_task_frame_path svc (task_id config) (index f) "audio")) = Raise e ->
  run_process svc f fs storyboard config total_frames cb
  = (Raise e,
     mkWorld f fs
       (reported cb (frame_step_event 0 (index f + 1) total_frames 1 "audio")
        ++ [EvTts (build_tts_params f config
                     (get_task_frame_path svc (task_id config) (index f) "audio"))])).
Proof.
  intros Ha Hm Hcb Ht. rewrite process_after_audio. cbv zeta. rewrite bind_run.
  rewrite (call_step1_synthesises svc config total_frames cb (index f + 1)
             (mkWorld f fs []) Ha Hm Hcb).
  cbn [frame files trace app]. rewrite Ht. reflexivity.
Qed.

(** X8. When a run that synthesises the narration returns, the frame's
    [audio_path] is the path the TTS capability returned, and the audio
    block has set the duration from that file: the probed duration, or
    max(1.0, size / 2000) when the probe failed.  Without an image prompt
    that is the duration of the returned frame. *)
Theorem synthesised_audio_recorded (svc : Services) (f : StoryboardFrame) (fs : list string)
    (storyboard : Storyboard) (config : StoryboardConfig) (total_frames : Z)
    (cb : option Callback) (fr : StoryboardFrame) (w : World) :
  truthy_str (audio_path f) = false ->
  truthy_str (tts_inference_mode config) = true ->
  run_process svc f fs storyboard config total_frames cb = (Ok fr, w) ->
  exists a d w1,
    tts svc (build_tts_params f config
               (get_task_frame_path svc (task_id config) (index f) "audio")) = Ok a /\
    (ffprobe_duration svc a = Some d \/
     ffprobe_duration svc a = None /\
     exists n, getsize svc a = Ok n /\ d = py_max 1 ((n # 1) / (2000 # 1))) /\
    call_step1 svc config total_frames cb (index f + 1) (mkWorld f fs []) = (Ok tt, w1) /\
    audio_path (frame w1) = Some a /\ duration (frame w1) = Some d /\
    audio_path fr = Some a /\
    (image_prompt f = None -> duration fr = Some d).
Proof.
  intros Ha Hm Hrun.
  destruct (process_ok_inv svc f fs storyboard config total_frames cb fr w Hrun)
    as (w1 & w2 & w3 & E1 & E2 & E3 & E4 & ->).
  cbv zeta in *.
  set (num := index f + 1) in *.
  set (ng := is_not_none (image_prompt f)) in *.
  set (ex := (is_not_none (image_path f) || is_not_none (video_path f))%bool) in *.
  (* later blocks keep the audio path *)
  assert (Kp : audio_path (frame w) = audio_path (frame w1)).
  { pose proof (call_step2_keeps svc audio_path config total_frames cb num ng ex
                  (fun _ _ => eq_refl) (fun _ _ => eq_refl) (fun _ _ => eq_refl)
                  (fun _ _ => eq_refl) w1) as A2.
    pose proof (call_step3_keeps svc audio_path storyboard config total_frames cb num ng ex
                  (fun _ _ => eq_refl) w2) as A3.
    pose proof (call_step4_keeps svc audio_path config total_frames cb num ng ex
                  (fun _ _ => eq_refl) w3) as A4.
    rewrite E2 in A2. rewrite E3 in A3. rewrite E4 in A4. unfold keeps in *.
    cbn [snd] in *. congruence. }
  (* and the duration, when nothing is generated *)
  assert (Kd : image_prompt f = None -> duration (frame w) = duration (frame w1)).
  { intros Hq.
    assert (A2 : duration (frame w2) = duration (frame w1)).
    { unfold ng in E2. rewrite Hq in E2. cbn [is_not_none] in E2. unfold call_step2 in E2.
      destruct ex; run_monad_in E2; inversion E2; reflexivity. }
    pose proof (call_step3_keeps svc duration storyboard config total_frames cb num ng ex
                  (fun _ _ => eq_refl) w2) as A3.
    pose proof (call_step4_keeps svc duration config total_frames cb num ng ex
                  (fun _ _ => eq_refl) w3) as A4.
    rewrite E3 in A3. rewrite E4 in A4. unfold keeps in *. cbn [snd] in *. congruence. }
  destruct (returns_on_dec cb (frame_step_event 0 num total_frames 1 "audio"))
    as [Hcb | (k & e & -> & Hk)].
  - pose proof E1 as E1'.
    rewrite (call_step1_synthesises svc config total_frames cb num (mkWorld f fs [])
               Ha Hm Hcb) in E1.
    cbn [frame files trace app] in E1.
    destruct (tts svc _) as [a | e] eqn:Et; [ | discriminate].
    destruct (ffprobe_duration svc a) as [d | ] eqn:Ep.
    + exists a, d, w1.
      assert (Hw : frame w1 = set_duration (Some d) (set_audio_path (Some a) f))
        by (inversion E1; reflexivity).
      rewrite Hw in Kp, Kd |- *.
      cbn [set_duration set_audio_path audio_path duration] in Kp, Kd |- *.
      split; [reflexivity | split; [left; exact Ep | ]].
      split; [exact E1' | split; [reflexivity | split; [reflexivity | ]]].
      split; [exact Kp | exact Kd].
    + destruct (getsize svc a) as [n | e] eqn:Eg; [ | discriminate].
      exists a, (py_max 1 ((n # 1) / (2000 # 1))), w1.
      assert (Hw : frame w1 = set_duration (Some (py_max 1 ((n # 1) / (2000 # 1))))
                                (set_audio_path (Some a) f))
        by (inversion E1; reflexivity).
      rewrite Hw in Kp, Kd |- *.
      cbn [set_duration set_audio_path audio_path duration] in Kp, Kd |- *.
      split; [reflexivity | split; [right; split; [exact Ep | eauto] | ]].
      split; [exact E1' | split; [reflexivity | split; [reflexivity | ]]].
      split; [exact Kp | exact Kd].
  - rewrite (call_step1_callback_raises svc config total_frames k num (mkWorld f fs []) e
               Ha Hm Hk) in E1.
    discriminate.
Qed.

Lemma tts_failure_aborts_run_witness :
  run_process Samples.svc_tts_fails Samples.frame_prompt ["assets/logo.png"] Samples.board
    Samples.config_i2v 1 None
  = (Raise (ExternalError "tts: provider unavailable"),
     mkWorld Samples.frame_prompt ["assets/logo.png"]
       [EvTts (mkTtsParams "Hello world" (Some "local") "output/task1/0_audio" 1
                 None None None None)]).
Proof.
  exact (tts_failure_aborts_run Samples.svc_tts_fails Samples.frame_prompt ["assets/logo.png"]
           Samples.board Samples.config_i2v 1 None (ExternalError "tts: provider unavailable")
           eq_refl eq_refl I eq_refl).
Defined.

Lemma synthesised_audio_recorded_witness :
  audio_path (frame (snd (run_process Samples.svc_ok Samples.frame_preset_image []
                            Samples.board Samples.config_i2v 1 None)))
  = Some "output/task1/0_audio".
Proof.
  pose (out := run_process Samples.svc_ok Samples.frame_preset_image [] Samples.board
                 Samples.config_i2v 1 None).
  assert (Hrun : out = (Ok (frame (snd out)), snd out)) by (vm_compute; reflexivity).
  destruct (synthesised_audio_recorded Samples.svc_ok Samples.frame_preset_image []
              Samples.board Samples.config_i2v 1 None (frame (snd out)) (snd out)
              eq_refl eq_refl Hrun)
    as (a & d & w1 & Ht & _ & _ & _ & _ & Hap & _).
  cbn in Ht. inversion Ht; subst a. exact Hap.
Defined.

(** ** Outcomes of media generation *)

Section GenerationOutcomes.

Variable svc : Services.

(** The generation step, once its I2V precondition holds. *)
Lemma step_generate_media_run config w :
  i2v_source_missing config = false ->
  let f := frame w in
  let p := build_media_params f config in
  let tr := (trace w ++ [EvMedia p])%list in
  _step_generate_media svc config w
  = match media svc p with
    | Raise e => (Raise e, mkWorld f (files w) tr)
    | Ok r =>
        let f1 := set_media_type (Some (mr_media_type r)) f in
        let kind := if is_image r then "image" else "video" in
        let out := get_task_frame_path svc (task_id config) (index f) kind in
        let tr1 := (tr ++ [EvDownload (mr_url r) out])%list in
        if (is_image r || is_video r)%bool then
          match http_download svc (mr_url r) out with
          | Raise e => (Raise e, mkWorld f1 (files w) tr1)
          | Ok _ =>
              if is_image r then
                (Ok tt, mkWorld (set_image_path (Some out) f1) (out :: files w) tr1)
              else
                (Ok tt,
                 mkWorld
                   (set_duration
                      (if truthy_num (mr_duration r) then mr_duration r
                       else Some (probed_video_duration svc out))
                      (set_video_path (Some out) f1))
                   (out :: files w) tr1)
          end
        else
          (Raise (ValueError ("Unknown media type: " ++ mr_media_type r)),
           mkWorld f1 (files w) tr)
    end.
Proof.
  intros Hm. cbv zeta.
  unfold _step_generate_media, _download_media, _get_video_duration, probed_video_duration.
  run_monad. rewrite Hm. run_monad.
  destruct (media svc _) as [r | e]; run_monad; [ | reflexivity].
  destruct (is_image r); cbn [orb]; run_monad.
  - destruct (http_download svc _ _) as [[] | e]; reflexivity.
  - destruct (is_video r); run_monad; [ | reflexivity].
    destruct (http_download svc _ _) as [[] | e]; run_monad; [ | reflexivity].
    destruct (truthy_num (mr_duration r)); run_monad; [reflexivity | ].
    destruct (ffprobe_duration svc _); reflexivity.
Qed.

(** A run that gets to the generation call. *)
Lemma process_generates f fs storyboard config total cb w1 :
  let num := index f + 1 in
  let ex := (is_not_none (image_path f) || is_not_none (video_path f))%bool in
  call_step1 svc config total cb num (mkWorld f fs []) = (Ok tt, w1) ->
  is_not_none (image_prompt f) = true ->
  returns_on cb (frame_step_event (1 # 4) num total 2 "media") ->
  run_process svc f fs storyboard config total cb
  = (_step_generate_media svc config ;;
     call_step3 svc storyboard config total cb num true ex ;;
     call_step4 svc config total cb num true ex ;;
     get_frame)%monad
      (mkWorld (frame w1) (files w1)
         (trace w1 ++ reported cb (frame_step_event (1 # 4) num total 2 "media"))).
Proof.
  intros num ex E1 Hng Hcb. rewrite process_after_audio. cbv zeta. fold num ex.
  rewrite bind_run, E1, Hng, bind_run. unfold call_step2 at 1. rewrite bind_run.
  unfold report, reported. destruct cb as [k | ]; run_monad.
  - cbn [returns_on] in Hcb. rewrite Hcb. reflexivity.
  - rewrite app_nil_r. destruct w1; reflexivity.
Qed.

Lemma not_video_not_i2v config :
  is_video_workflow config = false -> is_i2v_workflow config = false.
Proof.
  unfold is_video_workflow, is_i2v_workflow. intros H.
  apply orb_false_iff in H. apply H.
Qed.

End GenerationOutcomes.

(** X9. Every generation call of a run carries the frame's prompt, the
    configured workflow and size and the 1-based frame index, and asks for a
    "video" exactly when the workflow name contains "video_" or "i2v_".  A
    call for an image never carries a duration or an image URL; an image
    URL is carried only by an I2V workflow, and then it is the non-empty
    source image URL of the config. *)
Theorem generation_call_shape (svc : Services) (f : StoryboardFrame) (fs : list string)
    (storyboard : Storyboard) (config : StoryboardConfig) (total_frames : Z)
    (cb : option Callback) (p : MediaParams) :
  In p (media_calls (trace (snd (run_process svc f fs storyboard config total_frames cb)))) ->
  mp_prompt p = image_prompt f /\
  mp_workflow p = media_workflow config /\
  mp_width p = media_width config /\ mp_height p = media_height config /\
  mp_index p = index f + 1 /\
  mp_media_type p = (if is_video_workflow config then "video" else "image") /\
  (is_video_workflow config = false -> mp_duration p = None /\ mp_image_url p = None) /\
  (is_i2v_workflow config = false -> mp_image_url p = None) /\
  (is_i2v_workflow config = true ->
     mp_image_url p = source_image_url config /\
     truthy_str (source_image_url config) = true).
Proof.
  intros Hin.
  destruct (process_media_calls svc f fs storyboard config total_frames cb)
    as [G | (w1 & E1 & _ & Hmiss & G)]; cbv zeta in G; rewrite G in Hin; [destruct Hin | ].
  destruct Hin as [<- | []].
  pose proof (call_step1_keeps svc index config total_frames cb (index f + 1)
                (fun _ _ => eq_refl) (fun _ _ => eq_refl) (mkWorld f fs [])) as Ki.
  pose proof (call_step1_keeps svc image_prompt config total_frames cb (index f + 1)
                (fun _ _ => eq_refl) (fun _ _ => eq_refl) (mkWorld f fs [])) as Kq.
  rewrite E1 in Ki, Kq. unfold keeps in Ki, Kq. cbn [snd frame] in Ki, Kq.
  unfold build_media_params.
  cbn [mp_prompt mp_workflow mp_width mp_height mp_index mp_media_type mp_duration
       mp_image_url].
  rewrite Ki, Kq. do 6 (split; [reflexivity | ]). split; [ | split].
  - intros Hv. rewrite Hv, (not_video_not_i2v config Hv). split; reflexivity.
  - intros Hi. rewrite Hi. reflexivity.
  - intros Hi. rewrite Hi. split; [reflexivity | ].
    unfold i2v_source_missing in Hmiss. rewrite Hi in Hmiss. cbn [andb] in Hmiss.
    destruct (truthy_str (source_image_url config)); [reflexivity | discriminate].
Qed.

Lemma generation_call_shape_witness :
  mp_media_type
    (mkMediaParams (Some "a cat on a roof") (Some "video_I2V_sora.json") "video" 1024 1024 1
       (Some (41 # 5)) (Some "http://assets/source.png")) = "video".
Proof.
  assert (Hin : In (mkMediaParams (Some "a cat on a roof") (Some "video_I2V_sora.json") "video"
                      1024 1024 1 (Some (41 # 5)) (Some "http://assets/source.png"))
                  (media_calls
                     (trace (snd (run_process Samples.svc_ok Samples.frame_prompt []
                                    Samples.board Samples.config_i2v 1
                                    (Some Samples.cb_quiet))))))
    by (vm_compute; left; reflexivity).
  exact (proj1 (proj2 (proj2 (proj2 (proj2 (proj2
           (generation_call_shape Samples.svc_ok Samples.frame_prompt [] Samples.board
              Samples.config_i2v 1 (Some Samples.cb_quiet) _ Hin))))))).
Defined.

(** X10. When the generation capability answers with a kind that is neither
    "image" nor "video", the run raises a [ValueError] that names the kind.
    Nothing is downloaded and no path is assigned, but the frame's
    [media_type] already holds the unknown kind: it is assigned before the
    kind is examined. *)
Theorem unknown_generated_kind (svc : Services) (f : StoryboardFrame) (fs : list string)
    (storyboard : Storyboard) (config : StoryboardConfig) (total_frames : Z)
    (cb : option Callback) (w1 : World) (r : MediaResult) :
  call_step1 svc config total_frames cb (index f + 1) (mkWorld f fs []) = (Ok tt, w1) ->
  is_not_none (image_prompt f) = true ->
  returns_on cb (frame_step_event (1 # 4) (index f + 1) total_frames 2 "media") ->
  i2v_source_missing config = false ->
  media svc (build_media_params (frame w1) config) = Ok r ->
  is_image r = false -> is_video r = false ->
  run_process svc f fs storyboard config total_frames cb
  = (Raise (ValueError ("Unknown media type: " ++ mr_media_type r)),
     mkWorld (set_media_type (Some (mr_media_type r)) (frame w1)) (files w1)
       (trace w1
        ++ reported cb (frame_step_event (1 # 4) (index f + 1) total_frames 2 "media")
        ++ [EvMedia (build_media_params (frame w1) config)])).
Proof.
  intros E1 Hng Hcb Hmiss Hr Hi Hv.
  rewrite (process_generates svc f fs storyboard config total_frames cb w1 E1 Hng Hcb).
  rewrite bind_run, (step_generate_media_run svc config _ Hmiss).
  cbn [frame files trace]. rewrite Hr. cbv zeta. rewrite Hi, Hv. cbn [orb].
  rewrite <- app_assoc. reflexivity.
Qed.

Lemma unknown_generated_kind_witness :
  fst (run_process Samples.svc_unknown_kind Samples.frame_prompt [] Samples.board
         Samples.config_plain 1 None)
  = Raise (ValueError "Unknown media type: audio")
  /\ media_type (frame (snd (run_process Samples.svc_unknown_kind Samples.frame_prompt []
                              Samples.board Samples.config_plain 1 None)))
     = Some "audio".
Proof.
  rewrite (unknown_generated_kind Samples.svc_unknown_kind Samples.frame_prompt []
             Samples.board Samples.config_plain 1 None
             (mkWorld Samples.frame_prompt [] [])
             (mkMediaResult "audio" "http://gen/result" None)
             eq_refl eq_refl I eq_refl eq_refl eq_refl eq_refl).
  split; reflexivity.
Defined.

(** X11. When the download of the generated media fails, the run raises the
    exception of the download.  No file is written and neither [image_path]
    nor [video_path] is assigned, but the frame's [media_type] already says
    what was generated. *)
Theorem failed_download_outcome (svc : Services) (f : StoryboardFrame) (fs : list string)
    (storyboard : Storyboard) (config : StoryboardConfig) (total_frames : Z)
    (cb : option Callback) (w1 : World) (r : MediaResult) (e : exn) :
  call_step1 svc config total_frames cb (index f + 1) (mkWorld f fs []) = (Ok tt, w1) ->
  is_not_none (image_prompt f) = true ->
  returns_on cb (frame_step_event (1 # 4) (index f + 1) total_frames 2 "media") ->
  i2v_source_missing config = false ->
  media svc (build_media_params (frame w1) config) = Ok r ->
  (is_image r || is_video r)%bool = true ->
  let out := get_task_frame_path svc (task_id config) (index (frame w1))
               (if is_image r then "image" else "video") in
  http_download svc (mr_url r) out = Raise e ->
  run_process svc f fs storyboard config total_frames cb
  = (Raise e,
     mkWorld (set_media_type (Some (mr_media_type r)) (frame w1)) (files w1)
       (trace w1
        ++ reported cb (frame_step_event (1 # 4) (index f + 1) total_frames 2 "media")
        ++ [EvMedia (build_media_params (frame w1) config); EvDownload (mr_url r) out])).
Proof.
  intros E1 Hng Hcb Hmiss Hr Hk out Hd.
  rewrite (process_generates svc f fs storyboard config total_frames cb w1 E1 Hng Hcb).
  rewrite bind_run, (step_generate_media_run svc config _ Hmiss).
  cbn [frame files trace]. rewrite Hr. cbv zeta. rewrite Hk. fold out. rewrite Hd.
  rewrite <- !app_assoc. reflexivity.
Qed.

Lemma failed_download_outcome_witness :
  fst (run_process Samples.svc_download_fails Samples.frame_prompt [] Samples.board
         Samples.config_plain 1 None)
  = Raise (ExternalError "HTTP 503")
  /\ media_type (frame (snd (run_process Samples.svc_download_fails Samples.frame_prompt []
                              Samples.board Samples.config_plain 1 None)))
     = Some "image"
  /\ image_path (frame (snd (run_process Samples.svc_download_fails Samples.frame_prompt []
                              Samples.board Samples.config_plain 1 None)))
     = None.
Proof.
  rewrite (failed_download_outcome Samples.svc_download_fails Samples.frame_prompt []
             Samples.board Samples.config_plain 1 None
             (mkWorld Samples.frame_prompt [] [])
             (mkMediaResult "image" "http://gen/result" None)
             (ExternalError "HTTP 503")
             eq_refl eq_refl I eq_refl eq_refl eq_refl eq_refl).
  repeat split.
Defined.

(** X12. When a run returns and its generation call produced an image, the
    frame carries the downloaded file as [image_path] and media type
    "image"; its [video_path] is what it was, and its duration is the one
    the audio block left: an image does not change it. *)
Theorem generated_image_outcome (svc : Services) (f : StoryboardFrame) (fs : list string)
    (storyboard : Storyboard) (config : StoryboardConfig) (total_frames : Z)
    (cb : option Callback) (fr : StoryboardFrame) (w : World)
    (p : MediaParams) (r : MediaResult) :
  run_process svc f fs storyboard config total_frames cb = (Ok fr, w) ->
  In p (media_calls (trace w)) ->
  media svc p = Ok r ->
  is_image r = true ->
  exists w1,
    call_step1 svc config total_frames cb (index f + 1) (mkWorld f fs []) = (Ok tt, w1) /\
    duration fr = duration (frame w1) /\
    media_type fr = Some "image" /\
    image_path fr = Some (get_task_frame_path svc (task_id config) (index f) "image") /\
    video_path fr = video_path f.
Proof.
  intros Hrun Hin Hr Hi.
  assert (Hng : is_not_none (image_prompt f) = true).
  { destruct (process_media_calls svc f fs storyboard config total_frames cb)
      as [G | (w1 & _ & Hng & _)]; [ | exact Hng].
    cbv zeta in G. rewrite Hrun in G. cbn [snd] in G. rewrite G in Hin. destruct Hin. }
  destruct (process_ok_generated svc f fs storyboard config total_frames cb fr w Hrun Hng)
    as (w1 & r' & E1 & Hcalls & Hr' & Hmt & Himg & _).
  rewrite Hcalls in Hin. destruct Hin as [<- | []].
  rewrite Hr in Hr'. inversion Hr'; subst r'.
  destruct (Himg Hi) as (H1 & H2 & H3).
  exists w1. split; [exact E1 | split; [exact H3 | split; [ | split; assumption]]].
  rewrite Hmt. f_equal. apply String.eqb_eq. exact Hi.
Qed.

Lemma generated_image_outcome_witness :
  duration (frame (snd (run_process Samples.svc_ok Samples.frame_prompt [] Samples.board
                          (mkConfig "task1" (Some "local") None None None None None 1024 1024
                             None None 30 None) 1 None)))
  = Some (41 # 5).
Proof.
  pose (cfg := mkConfig "task1" (Some "local") None None None None None 1024 1024
                 None None 30 None).
  pose (out := run_process Samples.svc_ok Samples.frame_prompt [] Samples.board cfg 1 None).
  assert (Hrun : out = (Ok (frame (snd out)), snd out)) by (vm_compute; reflexivity).
  assert (Hin : In (mkMediaParams (Some "a cat on a roof") None "image" 1024 1024 1 None None)
                  (media_calls (trace (snd out)))) by (vm_compute; left; reflexivity).
  destruct (generated_image_outcome Samples.svc_ok Samples.frame_prompt [] Samples.board cfg 1
              None (frame (snd out)) (snd out) _
              (mkMediaResult "image" "http://gen/result" None) Hrun Hin eq_refl eq_refl)
    as (w1 & E1 & Hd & _).
  vm_compute in E1. inversion E1; subst w1. exact Hd.
Defined.

(** ** A frame with nothing to show *)

Section BareFrame.

Variable svc : Services.

(** Composition and assembly of a frame whose image and media type were
    just cleared, without a template. *)
Lemma bare_tail storyboard config total cb num w :
  frame_template config = None ->
  let w2 := mkWorld (set_media_type None (set_image_path None (frame w))) (files w) (trace w) in
  let r := (call_step3 svc storyboard config total cb num false false ;;
            call_step4 svc config total cb num false false ;;
            get_frame)%monad w2 in
  is_ok (fst r) = false /\
  (callback_returns cb ->
   fst r = Raise (ValueError ("No image available for frame " ++ fmt_int (index (frame w))
                                ++ " (image_path=None, composed_image_path=None)"))
   /\ media_type (frame (snd r)) = None /\ image_path (frame (snd r)) = None).
Proof.
  intros Hno w2 r. subst r. unfold call_step3, call_step4. run_monad.
  destruct (report cb _ w2) as [[[] | e3] w3] eqn:E3;
    pose proof (report_frame _ _ _ _ _ E3) as F3; cbn [frame w2] in F3.
  - rewrite (step_compose_frame_no_template svc storyboard config w3 Hno), F3.
    cbn [media_type image_path video_path set_media_type set_image_path opt_eqb andb].
    match goal with
    | |- context [report cb ?ev ?w] =>
        destruct (report cb ev w) as [[[] | e4] w4] eqn:E4;
        pose proof (report_frame _ _ _ _ _ E4) as F4; cbn [frame] in F4
    end.
    + unfold _step_create_video_segment. run_monad. rewrite F4.
      cbn [media_type image_path composed_image_path index set_composed_image_path
           set_media_type set_image_path opt_eqb is_not_none negb orb truthy_str fmt_opt].
      run_monad. rewrite F4.
      cbn [media_type image_path set_composed_image_path set_media_type set_image_path].
      repeat split.
    + split; [reflexivity | ]. intros Hcb.
      match type of E4 with
      | report cb ?ev ?w = _ => destruct (report_returns cb ev w Hcb) as (w' & E' & _)
      end.
      rewrite E4 in E'. discriminate.
  - split; [reflexivity | ]. intros Hcb.
    match type of E3 with
    | report cb ?ev ?w = _ => destruct (report_returns cb ev w Hcb) as (w' & E' & _)
    end.
    rewrite E3 in E'. discriminate.
Qed.

End BareFrame.

(** X13. A frame without image prompt, image and video cannot be processed
    when no frame template is configured: no run on it returns.  The second
    block clears [image_path] and [media_type]; when the audio block and the
    callback do not raise before, assembly raises the [ValueError] "No image
    available", naming the frame. *)
Theorem bare_frame_is_not_assembled (svc : Services) (f : StoryboardFrame) (fs : list string)
    (storyboard : Storyboard) (config : StoryboardConfig) (total_frames : Z)
    (cb : option Callback) :
  image_prompt f = None -> image_path f = None -> video_path f = None ->
  frame_template config = None ->
  is_ok (fst (run_process svc f fs storyboard config total_frames cb)) = false /\
  (forall w1,
     call_step1 svc config total_frames cb (index f + 1) (mkWorld f fs []) = (Ok tt, w1) ->
     callback_returns cb ->
     fst (run_process svc f fs storyboard config total_frames cb)
     = Raise (ValueError ("No image available for frame " ++ fmt_int (index f)
                            ++ " (image_path=None, composed_image_path=None)"))
     /\ media_type (frame (snd (run_process svc f fs storyboard config total_frames cb))) = None
     /\ image_path (frame (snd (run_process svc f fs storyboard config total_frames cb)))
        = None).
Proof.
  intros Hq Hi Hv Hno.
  assert (Hrun : forall w1,
            call_step1 svc config total_frames cb (index f + 1) (mkWorld f fs []) = (Ok tt, w1) ->
            run_process svc f fs storyboard config total_frames cb
            = (call_step3 svc storyboard config total_frames cb (index f + 1) false false ;;
               call_step4 svc config total_frames cb (index f + 1) false false ;;
               get_frame)%monad
                (mkWorld (set_media_type None (set_image_path None (frame w1)))
                   (files w1) (trace w1))
            /\ index (frame w1) = index f).
  { intros w1 E1. split.
    - rewrite process_after_audio. cbv zeta. rewrite bind_run, E1, Hq, Hi, Hv.
      cbn [is_not_none orb]. rewrite bind_run. reflexivity.
    - pose proof (call_step1_keeps svc index config total_frames cb (index f + 1)
                    (fun _ _ => eq_refl) (fun _ _ => eq_refl) (mkWorld f fs [])) as Ki.
      rewrite E1 in Ki. exact Ki. }
  split.
  - destruct (call_step1 svc config total_frames cb (index f + 1) (mkWorld f fs []))
      as [[[] | e1] w1] eqn:E1.
    + rewrite (proj1 (Hrun w1 eq_refl)).
      exact (proj1 (bare_tail svc storyboard config total_frames cb (index f + 1) w1 Hno)).
    + rewrite process_after_audio. cbv zeta. rewrite bind_run, E1. reflexivity.
  - intros w1 E1 Hcb. destruct (Hrun w1 E1) as [-> Hidx].
    pose proof (proj2 (bare_tail svc storyboard config total_frames cb (index f + 1) w1 Hno)
                  Hcb) as T.
    cbv zeta in T. rewrite Hidx in T. exact T.
Qed.

Lemma bare_frame_is_not_assembled_witness :
  fst (run_process Samples.svc_ok Samples.frame_bare [] Samples.board
         (mkConfig "task1" (Some "local") None None None None None 1024 1024 None None 30 None)
         1 (Some Samples.cb_quiet))
  = Raise (ValueError
             "No image available for frame 0 (image_path=None, composed_image_path=None)").
Proof.
  refine (proj1 (proj2 (bare_frame_is_not_assembled Samples.svc_ok Samples.frame_bare []
                          Samples.board
                          (mkConfig "task1" (Some "local") None None None None None 1024 1024
                             None None 30 None)
                          1 (Some Samples.cb_quiet) eq_refl eq_refl eq_refl eq_refl)
                   _ eq_refl (fun _ => eq_refl))).
Defined.

(** ** Assembly of a supplied video *)

Section SuppliedVideo.

Variable svc : Services.

Lemma report_run cb ev w :
  returns_on cb ev ->
  report cb ev w = (Ok tt, mkWorld (frame w) (files w) (trace w ++ reported cb ev)).
Proof.
  intros H. unfold report, reported. destruct cb as [k | ]; run_monad.
  - cbn [returns_on] in H. rewrite H. reflexivity.
  - destruct w as [fr fl tr]. cbn [frame files trace]. rewrite app_nil_r. reflexivity.
Qed.

Lemma callback_returns_on cb ev : callback_returns cb -> returns_on cb ev.
Proof. destruct cb as [k | ]; cbn; auto. Qed.

(** A run on a frame that comes with a non-empty [video_path] and media type
    "video", without prompt and without template, when the audio block has
    nothing to do: it is the assembly of the raw video. *)
Lemma supplied_video_run f fs storyboard config total cb v :
  image_prompt f = None ->
  media_type f = Some "video" ->
  video_path f = Some v -> truthy_str (Some v) = true ->
  truthy_str (audio_path f) = true \/ truthy_str (tts_inference_mode config) = false ->
  frame_template config = None ->
  callback_returns cb ->
  let num := index f + 1 in
  run_process svc f fs storyboard config total cb
  = (_step_create_video_segment svc config ;; get_frame)%monad
      (mkWorld (set_composed_image_path None f) fs
         (reported cb (frame_step_event (1 # 2) num total 3 "compose")
          ++ reported cb (frame_step_event (3 # 4) num total 4 "video"))).
Proof.
  intros Hq Hm Hv Hvt Ha Hno Hcb num.
  rewrite process_after_audio. cbv zeta. fold num.
  rewrite bind_run, (call_step1_skips svc config total cb num (mkWorld f fs []) Ha).
  rewrite Hq, Hv. cbn [is_not_none]. rewrite orb_true_r.
  rewrite bind_run. unfold call_step2 at 1. cbn [ret].
  rewrite bind_run. unfold call_step3 at 1. rewrite bind_run.
  rewrite (report_run cb _ _ (callback_returns_on cb _ Hcb)).
  rewrite (step_compose_frame_no_template svc storyboard config _ Hno).
  cbn [frame files trace]. rewrite Hm, Hv, Hvt.
  cbn [opt_eqb String.eqb Ascii.eqb Bool.eqb andb orb].
  rewrite bind_run. unfold call_step4 at 1. rewrite bind_run.
  rewrite (report_run cb _ _ (callback_returns_on cb _ Hcb)).
  cbn [frame files trace app]. reflexivity.
Qed.

End SuppliedVideo.

(** X14. A supplied video without narration, template and prompt, and with
    TTS off, is passed through: the run makes one call, the copy of the
    video to the segment path, and returns with that path as
    [video_segment_path].  No overlay, no merge and no render is called, and
    a failing copy is the failure of the run. *)
Theorem raw_video_is_copied (svc : Services) (f : StoryboardFrame) (fs : list string)
    (storyboard : Storyboard) (config : StoryboardConfig) (total_frames : Z)
    (cb : option Callback) (v : string) :
  image_prompt f = None ->
  media_type f = Some "video" ->
  video_path f = Some v -> truthy_str (Some v) = true ->
  truthy_str (audio_path f) = false ->
  truthy_str (tts_inference_mode config) = false ->
  frame_template config = None ->
  callback_returns cb ->
  let num := index f + 1 in
  let output := get_task_frame_path svc (task_id config) (index f) "segment" in
  let tr := (reported cb (frame_step_event (1 # 2) num total_frames 3 "compose")
             ++ reported cb (frame_step_event (3 # 4) num total_frames 4 "video")
             ++ [EvCopy v output])%list in
  let f1 := set_composed_image_path None f in
  run_process svc f fs storyboard config total_frames cb
  = match copy2 svc v output with
    | Ok _ =>
        (Ok (set_video_segment_path (Some output) f1),
         mkWorld (set_video_segment_path (Some output) f1) (output :: fs) tr)
    | Raise e => (Raise e, mkWorld f1 fs tr)
    end.
Proof.
  intros Hq Hm Hv Hvt Ha Ht Hno Hcb num output tr f1.
  rewrite (supplied_video_run svc f fs storyboard config total_frames cb v
             Hq Hm Hv Hvt (or_intror Ht) Hno Hcb).
  unfold _step_create_video_segment. run_monad.
  cbn [media_type composed_image_path video_path audio_path index set_composed_image_path].
  rewrite Hm, Hv, Ha. cbn [opt_eqb String.eqb Ascii.eqb Bool.eqb is_not_none].
  destruct v as [ | c v']; [discriminate | ]. run_monad.
  subst tr output f1. rewrite <- !app_assoc.
  destruct (copy2 svc _ _) as [[] | e]; reflexivity.
Qed.

Lemma raw_video_is_copied_witness :
  run_process Samples.svc_ok Samples.frame_preset_video [] Samples.board Samples.config_plain
    1 None
  = (Ok (mkFrame 0 "Hello world" None None None None (Some "assets/clip.mp4") (Some "video")
           None (Some "output/task1/0_segment")),
     mkWorld (mkFrame 0 "Hello world" None None None None (Some "assets/clip.mp4")
                (Some "video") None (Some "output/task1/0_segment"))
       ["output/task1/0_segment"]
       [EvCopy "assets/clip.mp4" "output/task1/0_segment"]).
Proof.
  exact (raw_video_is_copied Samples.svc_ok Samples.frame_preset_video [] Samples.board
           Samples.config_plain 1 None "assets/clip.mp4"
           eq_refl eq_refl eq_refl eq_refl eq_refl eq_refl eq_refl I).
Defined.

(** X15. A supplied video with narration audio, without template and
    prompt: the run makes one call, the merge of the narration into the raw
    video with [replace_audio] set and volume 1.0, and the path the merge
    returns becomes [video_segment_path].  TTS, copy and render are not
    called. *)
Theorem narration_replaces_video_audio (svc : Services) (f : StoryboardFrame)
    (fs : list string) (storyboard : Storyboard) (config : StoryboardConfig)
    (total_frames : Z) (cb : option Callback) (v : string) :
  image_prompt f = None ->
  media_type f = Some "video" ->
  video_path f = Some v -> truthy_str (Some v) = true ->
  truthy_str (audio_path f) = true ->
  frame_template config = None ->
  callback_returns cb ->
  let num := index f + 1 in
  let output := get_task_frame_path svc (task_id config) (index f) "segment" in
  let tr := (reported cb (frame_step_event (1 # 2) num total_frames 3 "compose")
             ++ reported cb (frame_step_event (3 # 4) num total_frames 4 "video")
             ++ [EvMerge v (audio_path f) output true 1])%list in
  let f1 := set_composed_image_path None f in
  run_process svc f fs storyboard config total_frames cb
  = match merge_audio_video svc v (audio_path f) output true 1 with
    | Ok p =>
        (Ok (set_video_segment_path (Some p) f1),
         mkWorld (set_video_segment_path (Some p) f1) (p :: fs) tr)
    | Raise e => (Raise e, mkWorld f1 fs tr)
    end.
Proof.
  intros Hq Hm Hv Hvt Ha Hno Hcb num output tr f1.
  rewrite (supplied_video_run svc f fs storyboard config total_frames cb v
             Hq Hm Hv Hvt (or_introl Ha) Hno Hcb).
  unfold _step_create_video_segment. run_monad.
  cbn [media_type composed_image_path video_path audio_path index set_composed_image_path].
  rewrite Hm, Hv, Ha. cbn [opt_eqb String.eqb Ascii.eqb Bool.eqb is_not_none].
  destruct v as [ | c v']; [discriminate | ]. run_monad.
  subst tr output f1. rewrite <- !app_assoc.
  destruct (merge_audio_video svc _ _ _ _ _) as [p | e]; reflexivity.
Qed.

Lemma narration_replaces_video_audio_witness :
  trace (snd (run_process Samples.svc_ok Samples.frame_preset_video_audio [] Samples.board
                Samples.config_plain 1 None))
  = [EvMerge "assets/clip.mp4" (Some "assets/hello.mp3") "output/task1/0_segment" true 1].
Proof.
  rewrite (narration_replaces_video_audio Samples.svc_ok Samples.frame_preset_video_audio []
             Samples.board Samples.config_plain 1 None "assets/clip.mp4"
             eq_refl eq_refl eq_refl eq_refl eq_refl eq_refl I).
  reflexivity.
Defined.

(** ** A media type the assembly does not know *)

Section UnknownKind.

Variable svc : Services.

Lemma call_step4_unknown_kind config total cb num ng ex w k :
  media_type (frame w) = Some k ->
  String.eqb k "video" = false -> String.eqb k "image" = false ->
  let r := call_step4 svc config total cb num ng ex w in
  is_ok (fst r) = false /\
  adds_only not_assembly_call w (snd r) /\
  frame (snd r) = frame w /\
  (returns_on cb (frame_step_event (if (ng || ex)%bool then 3 # 4 else 67 # 100)
                    num total 4 "video") ->
   fst r = Raise (ValueError ("Unknown media type: " ++ k))).
Proof.
  intros Hm Hv Hi r. subst r. unfold call_step4. rewrite bind_run.
  pose proof (report_adds not_assembly_call cb
                (frame_step_event (if (ng || ex)%bool then 3 # 4 else 67 # 100)
                   num total 4 "video") (fun _ => eq_refl) w) as A.
  destruct (report cb _ w) as [[[] | e] w'] eqn:ER;
    pose proof (report_frame _ _ _ _ _ ER) as Hf; cbn [snd] in A.
  - unfold _step_create_video_segment. run_monad. rewrite Hf, Hm.
    cbn [opt_eqb is_not_none negb orb]. rewrite Hv, Hi. cbn [orb]. run_monad.
    repeat split; [exact A | exact Hf].
  - cbn [fst snd]. repeat split; [exact A | exact Hf | ].
    intros Hret. destruct cb as [c | ]; cbn [returns_on] in Hret.
    + unfold report in ER. run_monad_in ER. rewrite Hret in ER. discriminate ER.
    + discriminate ER.
Qed.

End UnknownKind.

(** X16. A frame that comes with media, without prompt, and with a media
    type other than "video" and "image" is never assembled: every run on it
    raises, no call of the assembly step is made, and the media type is
    still there afterwards.  When the audio block has nothing to do, no
    template is configured and the callback returns, the error is the
    ValueError "Unknown media type: <type>". *)
Theorem unknown_media_type_is_refused (svc : Services) (f : StoryboardFrame)
    (fs : list string) (storyboard : Storyboard) (config : StoryboardConfig)
    (total_frames : Z) (cb : option Callback) (k : string) :
  image_prompt f = None ->
  (is_not_none (image_path f) || is_not_none (video_path f))%bool = true ->
  media_type f = Some k -> k <> "video" -> k <> "image" ->
  let out := run_process svc f fs storyboard config total_frames cb in
  is_ok (fst out) = false /\
  Forall not_assembly_call (trace (snd out)) /\
  media_type (frame (snd out)) = Some k /\
  (truthy_str (audio_path f) = true \/ truthy_str (tts_inference_mode config) = false ->
   frame_template config = None ->
   callback_returns cb ->
   fst out = Raise (ValueError ("Unknown media type: " ++ k))).
Proof.
  intros Hq Hex Hm Hv Hi out.
  apply String.eqb_neq in Hv. apply String.eqb_neq in Hi.
  assert (Hall : is_ok (fst out) = false /\
                 adds_only not_assembly_call (mkWorld f fs []) (snd out) /\
                 media_type (frame (snd out)) = Some k).
  { subst out.
    destruct (process_run_inv svc f fs storyboard config total_frames cb)
      as (r1 & w1 & E1 & H1).
    cbv zeta in *. rewrite Hq, Hex in *. cbn [is_not_none] in *.
    pose proof (call_step1_adds svc not_assembly_call config total_frames cb (index f + 1)
                  (fun _ => eq_refl) (fun _ => eq_refl) (mkWorld f fs [])) as A1.
    pose proof (call_step1_keeps svc media_type config total_frames cb (index f + 1)
                  (fun _ _ => eq_refl) (fun _ _ => eq_refl) (mkWorld f fs [])) as K1.
    rewrite E1 in A1, K1. unfold keeps in K1. cbn [snd frame] in A1, K1.
    destruct r1 as [[] | e1];
      [ | rewrite H1; cbn [fst snd]; repeat split; [exact A1 | congruence]].
    destruct H1 as (r2 & w2 & E2 & H2).
    rewrite call_step2_skips in E2. injection E2 as <- <-.
    destruct H2 as (r3 & w3 & E3 & H3).
    pose proof (call_step3_adds svc not_assembly_call storyboard config total_frames cb
                  (index f + 1) false true (fun _ => eq_refl)
                  (fun _ _ _ _ _ _ => eq_refl) w1) as A3.
    pose proof (call_step3_keeps svc media_type storyboard config total_frames cb
                  (index f + 1) false true (fun _ _ => eq_refl) w1) as K3.
    rewrite E3 in A3, K3. unfold keeps in K3. cbn [snd] in A3, K3.
    assert (A13 : adds_only not_assembly_call (mkWorld f fs []) w3)
      by (etransitivity; eassumption).
    destruct r3 as [[] | e3];
      [ | rewrite H3; cbn [fst snd]; repeat split; [exact A13 | congruence]].
    destruct H3 as (r4 & w4 & E4 & H4).
    assert (Hm3 : media_type (frame w3) = Some k) by congruence.
    pose proof (call_step4_unknown_kind svc config total_frames cb (index f + 1) false true
                  w3 k Hm3 Hv Hi) as K4.
    cbv zeta in K4. rewrite E4 in K4. cbn [fst snd] in K4.
    destruct K4 as (N4 & A4 & F4 & _).
    destruct r4 as [[] | e4]; [discriminate N4 | ].
    rewrite H4. cbn [fst snd]. repeat split.
    - etransitivity; eassumption.
    - rewrite F4. exact Hm3. }
  destruct Hall as (Hno & [evs [Htr Hevs]] & Hkind).
  cbn [trace app] in Htr.
  split; [exact Hno | ]. split; [rewrite Htr; exact Hevs | ]. split; [exact Hkind | ].
  intros Ha Hnt Hcb. subst out.
  rewrite process_after_audio. cbv zeta.
  rewrite bind_run, (call_step1_skips svc config total_frames cb (index f + 1)
                       (mkWorld f fs []) Ha).
  rewrite Hq, Hex. cbn [is_not_none].
  rewrite bind_run, call_step2_skips.
  rewrite bind_run. unfold call_step3 at 1. rewrite bind_run.
  rewrite (report_run cb _ _ (callback_returns_on cb _ Hcb)).
  rewrite (step_compose_frame_no_template svc storyboard config _ Hnt).
  rewrite bind_run.
  cbn [frame files trace]. rewrite Hm. cbn [opt_eqb]. rewrite Hv, Hi. cbn [andb].
  match goal with
  | |- context [call_step4 svc config total_frames cb ?n ?a ?b ?w] =>
      pose proof (call_step4_unknown_kind svc config total_frames cb n a b w k Hm Hv Hi)
        as K4
  end.
  cbv zeta in K4. destruct K4 as (_ & _ & _ & K4).
  specialize (K4 (callback_returns_on cb _ Hcb)).
  match goal with
  | |- context [call_step4 svc config total_frames cb ?n ?a ?b ?w] =>
      destruct (call_step4 svc config total_frames cb n a b w) as [r4 w4]
  end.
  cbn [fst] in K4. rewrite K4. reflexivity.
Qed.

Lemma unknown_media_type_is_refused_witness :
  fst (run_process Samples.svc_ok Samples.frame_preset_gif [] Samples.board
         Samples.config_plain 1 None)
  = Raise (ValueError "Unknown media type: gif").
Proof.
  refine (proj2 (proj2 (proj2
            (unknown_media_type_is_refused Samples.svc_ok Samples.frame_preset_gif []
               Samples.board Samples.config_plain 1 None "gif" eq_refl eq_refl eq_refl _ _)))
            (or_intror eq_refl) eq_refl I); discriminate.
Defined.

(** ** Composition with a template *)

Section Templated.

Variable svc : Services.

Lemma dict_get_app k d1 d2 :
  dict_get k (d1 ++ d2)%list
  = match dict_get k d1 with Some v => Some v | None => dict_get k d2 end.
Proof.
  induction d1 as [ | [k1 v1] d1 IH]; [reflexivity | ].
  cbn [app dict_get]. destruct (String.eqb k k1); [reflexivity | exact IH].
Qed.

Lemma dict_get_set k k' v d :
  dict_get k (dict_set k' v d) = if String.eqb k k' then Some v else dict_get k d.
Proof.
  induction d as [ | [k1 v1] d IH]; [reflexivity | ].
  cbn [dict_set dict_get].
  destruct (String.eqb k' k1) eqn:E1; cbn [dict_get].
  - apply String.eqb_eq in E1. subst k1. destruct (String.eqb k k'); reflexivity.
  - destruct (String.eqb k k1) eqn:E2.
    + apply String.eqb_eq in E2. subst k1. rewrite (String.eqb_sym k k'), E1. reflexivity.
    + exact IH.
Qed.

(** After [d.update(other)] a key has the binding [other] gives it, and the
    one of [d] when [other] has none. *)
Lemma dict_get_update k other d :
  dict_get k (dict_update d other)
  = match dict_last k other with Some v => Some v | None => dict_get k d end.
Proof.
  unfold dict_update, dict_last. revert d.
  induction other as [ | [k1 v1] other IH]; intros d; [reflexivity | ].
  cbn [fold_left fst snd rev]. rewrite IH, dict_get_app, dict_get_set.
  cbn [dict_get]. destruct (dict_get k (rev other)); [reflexivity | ].
  destruct (String.eqb k k1); reflexivity.
Qed.

(** The step with a template, as one equation. *)
Lemma step_compose_frame_template storyboard config w t :
  frame_template config = Some t ->
  let f := frame w in
  let out := get_task_frame_path svc (task_id config) (index f) "composed" in
  let base := if opt_eqb (media_type f) "video" then video_path f else image_path f in
  let ext := match template_params config with
             | Some (kv :: more) => dict_update [("index", VInt (index f + 1))] (kv :: more)
             | _ => [("index", VInt (index f + 1))]
             end in
  _step_compose_frame svc storyboard config w
  = match resolve_template_path svc t with
    | Raise e => (Raise e, w)
    | Ok tp =>
        let tr := (trace w ++ [EvCompose tp (title storyboard) (narration f) base ext out])%list in
        match generate_frame svc tp (title storyboard) (narration f) base ext out with
        | Raise e => (Raise e, mkWorld f (files w) tr)
        | Ok c => (Ok tt, mkWorld (set_composed_image_path (Some c) f) (c :: files w) tr)
        end
    end.
Proof.
  intros Ht f out base ext. unfold _step_compose_frame. run_monad. rewrite Ht.
  unfold _compose_frame_html. run_monad.
  destruct (resolve_template_path svc t) as [tp | e]; run_monad;
    [ | destruct w; reflexivity].
  subst f out base ext. cbv zeta.
  destruct (generate_frame svc tp _ _ _ _ _) as [c | e]; reflexivity.
Qed.

End Templated.

(** X17. With a template configured, the composition step resolves the
    template first and raises its error without calling the composer.
    Otherwise it calls the composer once, with the storyboard title, the
    narration, the segment's visual base (the video path of a video frame,
    the image path of any other, also when that is None) and the path
    "composed" of the frame as output.  The path the composer returns
    becomes [composed_image_path]; when the composer raises, the frame is
    left as it was. *)
Theorem templated_composition (svc : Services) (storyboard : Storyboard)
    (config : StoryboardConfig) (w : World) (t : string) :
  frame_template config = Some t ->
  let f := frame w in
  let r := _step_compose_frame svc storyboard config w in
  let out := get_task_frame_path svc (task_id config) (index f) "composed" in
  let base := if opt_eqb (media_type f) "video" then video_path f else image_path f in
  match resolve_template_path svc t with
  | Raise e => r = (Raise e, w)
  | Ok tp =>
      exists ext,
        trace (snd r)
        = (trace w ++ [EvCompose tp (title storyboard) (narration f) base ext out])%list /\
        match generate_frame svc tp (title storyboard) (narration f) base ext out with
        | Raise e => fst r = Raise e /\ frame (snd r) = f
        | Ok c => fst r = Ok tt /\ frame (snd r) = set_composed_image_path (Some c) f
        end
  end.
Proof.
  intros Ht f r out base. subst r.
  rewrite (step_compose_frame_template svc storyboard config w t Ht). cbv zeta.
  fold f. fold out. fold base.
  destruct (resolve_template_path svc t) as [tp | e]; [ | reflexivity].
  eexists. split.
  - destruct (generate_frame svc tp _ _ base _ out); reflexivity.
  - destruct (generate_frame svc tp _ _ base _ out); split; reflexivity.
Qed.

Lemma templated_composition_witness :
  composed_image_path
    (frame (snd (_step_compose_frame Samples.svc_ok Samples.board Samples.config_template
                   (mkWorld Samples.frame_preset_video_audio [] []))))
  = Some "output/task1/0_composed"
  /\ exists ext,
       trace (snd (_step_compose_frame Samples.svc_ok Samples.board Samples.config_template
                     (mkWorld Samples.frame_preset_video_audio [] [])))
       = [EvCompose "templates/1080x1920/default.html" "Demo" "Hello world"
            (Some "assets/clip.mp4") ext "output/task1/0_composed"].
Proof.
  destruct (templated_composition Samples.svc_ok Samples.board Samples.config_template
              (mkWorld Samples.frame_preset_video_audio [] []) "1080x1920/default.html"
              eq_refl) as [ext [Htr Hout]].
  split.
  - vm_compute. reflexivity.
  - exists ext. exact Htr.
Defined.

(** X18. The extra data the composer receives is the template parameters of
    the configuration plus the frame number: a key of the parameters has the
    value the parameters give it, also the key "index"; "index" is the
    1-based frame number when the parameters do not define it; no other key
    is present. *)
Theorem composer_extra_data (svc : Services) (storyboard : Storyboard)
    (config : StoryboardConfig) (w : World) (t tp : string)
    (ttl txt : string) (img : option string) (ext : dict) (out : string) :
  frame_template config = Some t ->
  In (EvCompose tp ttl txt img ext out)
     (trace (snd (_step_compose_frame svc storyboard config w))) ->
  ~ In (EvCompose tp ttl txt img ext out) (trace w) ->
  forall k,
    dict_get k ext
    = match dict_last k (params_of config) with
      | Some v => Some v
      | None => if String.eqb k "index" then Some (VInt (index (frame w) + 1)) else None
      end.
Proof.
  intros Ht Hin Hold k.
  rewrite (step_compose_frame_template svc storyboard config w t Ht) in Hin. cbv zeta in Hin.
  assert (Hext : ext = match template_params config with
                       | Some (kv :: more) =>
                           dict_update [("index", VInt (index (frame w) + 1))] (kv :: more)
                       | _ => [("index", VInt (index (frame w) + 1))]
                       end).
  { destruct (resolve_template_path svc t) as [tp' | e]; [ | contradiction].
    assert (H : In (EvCompose tp ttl txt img ext out)
                  (trace w ++ [EvCompose tp' (title storyboard) (narration (frame w))
                                 (if opt_eqb (media_type (frame w)) "video"
                                  then video_path (frame w) else image_path (frame w))
                                 match template_params config with
                                 | Some (kv :: more) =>
                                     dict_update [("index", VInt (index (frame w) + 1))]
                                       (kv :: more)
                                 | _ => [("index", VInt (index (frame w) + 1))]
                                 end
                                 (get_task_frame_path svc (task_id config) (index (frame w))
                                    "composed")])%list).
    { destruct (generate_frame svc tp' _ _ _ _ _); exact Hin. }
    apply in_app_or in H. destruct H as [H | [H | []]]; [contradiction | ].
    injection H as _ _ _ _ He _. symmetry. exact He. }
  rewrite Hext. unfold params_of.
  destruct (template_params config) as [[ | kv more] | ].
  - cbn [dict_last rev dict_get]. reflexivity.
  - rewrite dict_get_update. cbn [dict_get]. reflexivity.
  - cbn [dict_last rev dict_get]. reflexivity.
Qed.

Lemma composer_extra_data_witness :
  dict_get "index" [("index", VInt 7); ("accent", VStr "#ff0000")] = Some (VInt 7)
  /\ dict_get "accent" [("index", VInt 7); ("accent", VStr "#ff0000")] = Some (VStr "#ff0000")
  /\ dict_get "title" [("index", VInt 7); ("accent", VStr "#ff0000")] = None.
Proof.
  assert (H : forall k,
             dict_get k [("index", VInt 7); ("accent", VStr "#ff0000")]
             = match dict_last k (params_of Samples.config_template_params) with
               | Some v => Some v
               | None => if String.eqb k "index" then Some (VInt 1) else None
               end).
  { refine (composer_extra_data Samples.svc_ok Samples.board Samples.config_template_params
              (mkWorld Samples.frame_preset_image [] []) "1080x1920/default.html"
              "templates/1080x1920/default.html" "Demo" _ _
              [("index", VInt 7); ("accent", VStr "#ff0000")] _ eq_refl _ _).
    - vm_compute. left. reflexivity.
    - intros []. }
  split; [exact (H "index") | ]. split; [exact (H "accent") | exact (H "title")].
Defined.

(** ** A video frame with an overlay *)

(** X19. For a video frame with a composed image, assembly starts with the
    overlay call, on [video_path] as it is (also None: the check for a
    missing video belongs to the branch without overlay), with scale mode
    "contain" and the intermediate path as output.  When the overlay raises,
    that is the error of the step and nothing else is called.  When it
    returns, every later call works on the intermediate, not on the raw
    video: the merge or copy reads it, and the removal deletes it. *)
Theorem overlay_comes_first (svc : Services) (config : StoryboardConfig) (w : World)
    (c : string) :
  media_type (frame w) = Some "video" ->
  composed_image_path (frame w) = Some c ->
  let f := frame w in
  let temp := temp_video_with_overlay svc config f in
  let r := _step_create_video_segment svc config w in
  let call := EvOverlay (video_path f) (Some c) temp "contain" in
  match overlay_image_on_video svc (video_path f) (Some c) temp "contain" with
  | Raise e => r = (Raise e, mkWorld f (files w) (trace w ++ [call]))
  | Ok _ =>
      exists rest,
        trace (snd r) = (trace w ++ call :: rest)%list /\
        rest <> [] /\ Forall (works_on temp) rest
  end.
Proof.
  intros Hm Hc f temp r call. subst r call temp f.
  unfold _step_create_video_segment. run_monad.
  rewrite Hm, Hc. cbn [opt_eqb String.eqb Ascii.eqb Bool.eqb is_not_none]. run_monad.
  destruct (overlay_image_on_video svc _ _ _ _) as [[] | e]; run_monad; [ | reflexivity].
  destruct (truthy_str (audio_path (frame w))); run_monad.
  - destruct (merge_audio_video svc _ _ _ _ _) as [p | e]; run_monad.
    + destruct (file_exists _ _); run_monad;
        eexists; (split; [rewrite <- ?app_assoc; reflexivity | ]);
        (split; [discriminate | repeat constructor]).
    + eexists. split; [rewrite <- ?app_assoc; reflexivity | ].
      split; [discriminate | repeat constructor].
  - destruct (copy2 svc _ _) as [[] | e]; run_monad.
    + destruct (file_exists _ _); run_monad;
        eexists; (split; [rewrite <- ?app_assoc; reflexivity | ]);
        (split; [discriminate | repeat constructor]).
    + eexists. split; [rewrite <- ?app_assoc; reflexivity | ].
      split; [discriminate | repeat constructor].
Qed.

Lemma overlay_comes_first_witness :
  exists rest,
    trace (snd (_step_create_video_segment Samples.svc_ok Samples.config_template
                  (mkWorld (set_composed_image_path (Some "output/task1/0_composed")
                              Samples.frame_preset_video_audio) [] [])))
    = EvOverlay (Some "assets/clip.mp4") (Some "output/task1/0_composed")
        "output/task1/0_video_overlay.mp4" "contain" :: rest
    /\ rest <> [] /\ Forall (works_on "output/task1/0_video_overlay.mp4") rest.
Proof.
  exact (overlay_comes_first Samples.svc_ok Samples.config_template
           (mkWorld (set_composed_image_path (Some "output/task1/0_composed")
                       Samples.frame_preset_video_audio) [] [])
           "output/task1/0_composed" eq_refl eq_refl).
Defined.

(** ** Scene style prefixes *)

(** X20. [get_scene_style_prefix] never fails: it gives a non-empty prefix
    for the four keys of the table, spelled exactly, and the empty string
    for every other key, for the empty key and for None. *)
Theorem scene_style_prefix_known (key : option string) :
  get_scene_style_prefix key <> EmptyString
  <-> exists k, key = Some k /\ In k (map fst SCENE_STYLE_PREFIXES).
Proof.
  unfold get_scene_style_prefix. split.
  - intros H. destruct key as [k | ]; [ | contradiction H; reflexivity].
    exists k. split; [reflexivity | ].
    destruct (truthy_str (Some k)); [ | contradiction H; reflexivity].
    cbn [negb] in H. unfold SCENE_STYLE_PREFIXES in *. cbn [str_dict_get map fst In] in *.
    destruct (String.eqb k "marketing") eqn:E1; [apply String.eqb_eq in E1; auto | ].
    destruct (String.eqb k "advertisement") eqn:E2; [apply String.eqb_eq in E2; auto | ].
    destruct (String.eqb k "storytelling") eqn:E3; [apply String.eqb_eq in E3; auto | ].
    destruct (String.eqb k "tutorial") eqn:E4; [apply String.eqb_eq in E4; auto 6 | ].
    contradiction H; reflexivity.
  - intros [k [-> Hin]]. cbn in Hin.
    destruct Hin as [<- | [<- | [<- | [<- | []]]]]; vm_compute; discriminate.
Qed.

(** ** Defaults of the Sora tab *)

Section SoraDefaults.

Lemma store_find_set k k' v d :
  store_find k (store_set k' v d) = if String.eqb k k' then Some v else store_find k d.
Proof.
  induction d as [ | [k1 v1] d IH]; [reflexivity | ].
  cbn [store_set store_find].
  destruct (String.eqb k' k1) eqn:E1; cbn [store_find].
  - apply String.eqb_eq in E1. subst k1. destruct (String.eqb k k'); reflexivity.
  - destruct (String.eqb k k1) eqn:E2.
    + apply String.eqb_eq in E2. subst k1. rewrite (String.eqb_sym k k'), E1. reflexivity.
    + exact IH.
Qed.

Lemma store_find_setdefault k k' v d :
  store_find k (store_setdefault k' v d)
  = match store_find k d with
    | Some x => Some x
    | None => if String.eqb k k' then Some v else None
    end.
Proof.
  unfold store_setdefault. destruct (store_find k' d) as [x | ] eqn:E.
  - destruct (store_find k d) as [y | ] eqn:Ek; [reflexivity | ].
    destruct (String.eqb k k') eqn:Ekk; [ | reflexivity].
    apply String.eqb_eq in Ekk. subst k'. congruence.
  - rewrite store_find_set. destruct (String.eqb k k') eqn:Ekk.
    + apply String.eqb_eq in Ekk. subst k'. rewrite E. reflexivity.
    + destruct (store_find k d); reflexivity.
Qed.

(** The flag is set when the function returns. *)
Lemma init_defaults_flag lw st :
  sval_truthy (store_get "sora_pipeline_initialized" SNone (_init_defaults lw st)) = true.
Proof.
  unfold _init_defaults.
  destruct (sval_truthy (store_get "sora_pipeline_initialized" SNone st)) eqn:E; [exact E | ].
  cbv zeta. unfold store_get. rewrite store_find_set. reflexivity.
Qed.

(** The loop stops at the first workflow with a Sora key. *)
Lemma sora_display_name_first pre wf post :
  Forall (fun w => is_sora_key (store_get "key" (SStr EmptyString) w) = false) pre ->
  is_sora_key (store_get "key" (SStr EmptyString) wf) = true ->
  sora_display_name (pre ++ wf :: post) = store_get "display_name" SNone wf.
Proof.
  intros Hpre Hwf. induction Hpre as [ | w pre Hw _ IH]; cbn [app sora_display_name].
  - rewrite Hwf. reflexivity.
  - rewrite Hw. exact IH.
Qed.

Lemma sora_display_name_none wfs :
  Forall (fun w => is_sora_key (store_get "key" (SStr EmptyString) w) = false) wfs ->
  sora_display_name wfs = SNone.
Proof.
  induction 1 as [ | w wfs Hw _ IH]; cbn [sora_display_name]; [reflexivity | ].
  rewrite Hw. exact IH.
Qed.

End SoraDefaults.

(** X21. The defaults are set once per session: when [_init_defaults] has
    returned, the flag "sora_pipeline_initialized" is set, also when listing
    the workflows raised, and a later call changes nothing in the session
    state, whatever the media service lists by then. *)
Theorem init_defaults_runs_once (lw lw' : result (list store)) (st : store) :
  sval_truthy (store_get "sora_pipeline_initialized" SNone (_init_defaults lw st)) = true
  /\ _init_defaults lw' (_init_defaults lw st) = _init_defaults lw st.
Proof.
  pose proof (init_defaults_flag lw st) as H. split; [exact H | ].
  unfold _init_defaults at 1. rewrite H. reflexivity.
Qed.

(** X22. [_init_defaults] writes three keys of the session state and no
    other, and it never replaces a template type the session already has:
    the key "sora_template_type_selector" keeps its value when it is
    present, whatever the value, and becomes "video" only when it is absent
    and the session was not initialised. *)
Theorem init_defaults_footprint (lw : result (list store)) (st : store) (k : string) :
  (k <> "sora_template_type_selector" -> k <> "sora_media_workflow_select" ->
   k <> "sora_pipeline_initialized" ->
   store_find k (_init_defaults lw st) = store_find k st)
  /\ store_find "sora_template_type_selector" (_init_defaults lw st)
     = match store_find "sora_template_type_selector" st with
       | Some v => Some v
       | None =>
           if sval_truthy (store_get "sora_pipeline_initialized" SNone st) then None
           else Some (SStr "video")
       end.
Proof.
  unfold _init_defaults.
  destruct (sval_truthy (store_get "sora_pipeline_initialized" SNone st)) eqn:E.
  - split; [reflexivity | ]. destruct (store_find _ st); reflexivity.
  - cbv zeta. split.
    + intros H1 H2 H3.
      apply String.eqb_neq in H1. apply String.eqb_neq in H2. apply String.eqb_neq in H3.
      rewrite store_find_set, H3.
      destruct lw as [wfs | e].
      * destruct (sval_truthy (sora_display_name wfs)).
        -- rewrite store_find_set, H2, store_find_setdefault, H1.
           destruct (store_find k st); reflexivity.
        -- rewrite store_find_setdefault, H1. destruct (store_find k st); reflexivity.
      * rewrite store_find_setdefault, H1. destruct (store_find k st); reflexivity.
    + rewrite store_find_set. cbn [String.eqb Ascii.eqb Bool.eqb].
      destruct lw as [wfs | e].
      * destruct (sval_truthy (sora_display_name wfs)).
        -- rewrite store_find_set. cbn [String.eqb Ascii.eqb Bool.eqb].
           rewrite store_find_setdefault. reflexivity.
        -- rewrite store_find_setdefault. reflexivity.
      * rewrite store_find_setdefault. reflexivity.
Qed.

Lemma init_defaults_footprint_witness :
  store_find "language" (_init_defaults (Ok [Samples.wf_flux; Samples.wf_sora2])
                           Samples.session_user)
  = Some (SStr "en").
Proof.
  refine (proj1 (init_defaults_footprint (Ok [Samples.wf_flux; Samples.wf_sora2])
                   Samples.session_user "language") _ _ _); discriminate.
Defined.

(** X23. In a session that is not initialised, the first listed workflow
    whose key is one of the two Sora keys decides the media workflow, and
    the workflows after it are not looked at: when its display name is
    truthy, that name is stored under "sora_media_workflow_select",
    replacing what was there; when it has none, nothing is stored, also if a
    later Sora workflow has a name. *)
Theorem first_sora_workflow_decides (pre post : list store) (wf : store) (st : store) :
  sval_truthy (store_get "sora_pipeline_initialized" SNone st) = false ->
  Forall (fun w => is_sora_key (store_get "key" (SStr EmptyString) w) = false) pre ->
  is_sora_key (store_get "key" (SStr EmptyString) wf) = true ->
  store_find "sora_media_workflow_select" (_init_defaults (Ok (pre ++ wf :: post)%list) st)
  = if sval_truthy (store_get "display_name" SNone wf)
    then Some (store_get "display_name" SNone wf)
    else store_find "sora_media_workflow_select" st.
Proof.
  intros Hni Hpre Hwf. unfold _init_defaults. rewrite Hni. cbv zeta.
  rewrite (sora_display_name_first pre wf post Hpre Hwf).
  rewrite store_find_set. cbn [String.eqb Ascii.eqb Bool.eqb].
  destruct (sval_truthy (store_get "display_name" SNone wf)).
  - rewrite store_find_set. cbn [String.eqb Ascii.eqb Bool.eqb]. reflexivity.
  - rewrite store_find_setdefault. cbn [String.eqb Ascii.eqb Bool.eqb].
    destruct (store_find _ st); reflexivity.
Qed.

Lemma first_sora_workflow_decides_witness :
  store_find "sora_media_workflow_select"
    (_init_defaults (Ok [Samples.wf_flux; Samples.wf_sora_unnamed; Samples.wf_sora2])
       Samples.session_user)
  = None.
Proof.
  exact (first_sora_workflow_decides [Samples.wf_flux] [Samples.wf_sora2]
           Samples.wf_sora_unnamed Samples.session_user eq_refl
           (Forall_cons Samples.wf_flux (eq_refl false) (Forall_nil _)) eq_refl).
Defined.

(** X24. Without a Sora workflow the media workflow of the session is left
    alone: when no listed workflow has one of the two Sora keys, or listing
    the workflows raises, "sora_media_workflow_select" is what it was. *)
Theorem no_sora_workflow_no_selection (lw : result (list store)) (st : store) :
  match lw with
  | Ok wfs => Forall (fun w => is_sora_key (store_get "key" (SStr EmptyString) w) = false) wfs
  | Raise _ => True
  end ->
  store_find "sora_media_workflow_select" (_init_defaults lw st)
  = store_find "sora_media_workflow_select" st.
Proof.
  intros H. unfold _init_defaults.
  destruct (sval_truthy (store_get "sora_pipeline_initialized" SNone st)); [reflexivity | ].
  cbv zeta. rewrite store_find_set. cbn [String.eqb Ascii.eqb Bool.eqb].
  destruct lw as [wfs | e].
  - rewrite (sora_display_name_none wfs H). cbn [sval_truthy].
    rewrite store_find_setdefault. cbn [String.eqb Ascii.eqb Bool.eqb].
    destruct (store_find _ st); reflexivity.
  - rewrite store_find_setdefault. cbn [String.eqb Ascii.eqb Bool.eqb].
    destruct (store_find _ st); reflexivity.
Qed.

Lemma no_sora_workflow_no_selection_witness :
  store_find "sora_media_workflow_select"
    (_init_defaults (Raise (ExternalError "media service not ready")) Samples.session_user)
  = None.
Proof.
  exact (no_sora_workflow_no_selection (Raise (ExternalError "media service not ready"))
           Samples.session_user I).
Defined.
